(** * PurifyBrowserExtension: request ledger, reputation lookup, URL de-tracking

    A shallow embedding of three modules of the extension:
    - [Extension/lib/filter/request-context-storage.js] (module [Ledger]),
    - the safebrowsing filter (module [Safebrowsing]),
    - [removeTrackersFromUrl] of [Extension/lib/stealth.js] (module [Stealth]),
    with the properties of the specification stated and proved on them,
    followed by the code around them: the header utilities of
    browser-utils.js (module [Headers]), the request headers and cookie rules
    of stealth.js (module [StealthRequests]), the user settings (module
    [Settings]), the text of the user rules (module [UserRules]) and the
    content types of browser-utils.js (module [ContentTypes]). *)

From Stdlib Require Import ZArith Ascii String List Lia Bool Sorted.
From Equations Require Import Equations.
From Equations.Prop Require Logic.
From stdpp Require Import gmap strings list.

Open Scope Z_scope.

(** ** JavaScript values shared by the modules *)

(** [purify.RequestTypes].
    Modelled from the spec: the table of request types is declared outside the
    files embedded here; the spec lists document, subdocument, image, media,
    font, object and other, and request-context-storage.js also uses CSP. *)
Inductive RequestType :=
  | DOCUMENT | SUBDOCUMENT | IMAGE | MEDIA | FONT | OBJECT | OTHER | CSP.

Global Instance RequestType_eq_dec : EqDecision RequestType.
Proof. solve_decision. Defined.

(** A browser tab; only [tabId] is read by the code. *)
Record Tab := { tabId : Z }.

Global Instance Tab_eq_dec : EqDecision Tab.
Proof. solve_decision. Defined.

(** A header as kept by [copyHeaders]. *)
Record Header := { name : string; value : string }.

(** JavaScript numbers are doubles: adding 1 is exact below 2^53 and leaves
    2^53 unchanged (2^53 + 1 rounds back to 2^53).  The integers 0 .. 2^53 are
    the only values a counter started at 0 and only incremented can take. *)
Definition MAX_SAFE : Z := 2 ^ 53.

Definition js_succ (n : Z) : Z := if n <? MAX_SAFE then n + 1 else n.

Arguments js_succ : simpl never.

(** ** JavaScript string built-ins

    Strings are modelled as sequences of ASCII characters. *)

(** [s.split(sep)] for a one-character separator: never empty. *)
Fixpoint split (sep : ascii) (s : string) : list string :=
  match s with
  | EmptyString => [EmptyString]
  | String c s' =>
      if Ascii.eqb c sep then EmptyString :: split sep s'
      else match split sep s' with
           | p :: ps => String c p :: ps
           | [] => [String c EmptyString]
           end
  end.

(** [c.toUpperCase()] on ASCII. *)
Definition upper (c : ascii) : ascii :=
  let n := nat_of_ascii c in
  if ((97 <=? n) && (n <=? 122))%nat then ascii_of_nat (n - 32) else c.

Fixpoint toUpperCase (s : string) : string :=
  match s with
  | EmptyString => EmptyString
  | String c s' => String (upper c) (toUpperCase s')
  end.

(** The white space removed by [trim], within ASCII. *)
Definition is_space (c : ascii) : bool :=
  let n := nat_of_ascii c in ((9 <=? n) && (n <=? 13) || (n =? 32))%nat.

(** Truthiness of a string that may be undefined or null. *)
Definition truthy (v : option string) : bool :=
  match v with
  | Some s => negb (String.eqb s EmptyString)
  | None => false
  end.

Module Ledger.

(** [States] of request-context-storage.js. *)
Inductive States := NONE | PROCESSING | DONE.

Global Instance States_eq_dec : EqDecision States.
Proof. solve_decision. Defined.

Section Storage.

(** Rules and serialized elements are objects of other modules.  Rules are
    compared by object identity ([context.elements] is a [Map] keyed by the
    rule object), which [EqDecision Rule] stands for. *)
Context {Rule Element : Type} `{EqDecision Rule}.

(** [RequestContext]; an optional property that was never written is [None]. *)
Record RequestContext := {
  requestId : string;
  requestUrl : string;
  referrerUrl : string;
  originUrl : string;
  requestType : RequestType;
  tab : Tab;
  eventId : Z;
  requestState : States;
  contentModifyingState : States;
  requestHeaders : option (list Header);
  modifiedRequestHeaders : option (list Header);
  responseHeaders : option (list Header);
  modifiedResponseHeaders : option (list Header);
  requestRule : option Rule;
  replaceRules : option (list Rule);
  contentRules : option (list Rule);
  cspRules : option (list Rule);
  elements : option (list (Rule * list Element));
  stealthActions : option Z
}.

(** The partial object passed to [update]: a property is [Some v] when
    ["prop" in update] holds, and [v] is its (possibly null) value. *)
Record ContextUpdate := {
  u_requestState : option States;
  u_contentModifyingState : option States;
  u_requestRule : option (option Rule);
  u_replaceRules : option (option (list Rule));
  u_cspRules : option (option (list Rule));
  u_stealthActions : option (option Z);
  u_requestHeaders : option (option (list Header));
  u_responseHeaders : option (option (list Header));
  u_modifiedRequestHeaders : option (option (list Header));
  u_modifiedResponseHeaders : option (option (list Header))
}.

Definition noUpdate : ContextUpdate :=
  {| u_requestState := None; u_contentModifyingState := None;
     u_requestRule := None; u_replaceRules := None; u_cspRules := None;
     u_stealthActions := None; u_requestHeaders := None;
     u_responseHeaders := None; u_modifiedRequestHeaders := None;
     u_modifiedResponseHeaders := None |}.

(** An entry of [ruleHitsRecords]: [push(rule)] and [concat(rules)] add rules,
    [push(replaceRules)] adds the array itself as one entry. *)
Inductive HitRecord :=
  | HitRule (r : Rule)
  | HitRuleArray (rs : list Rule).

(** Calls to the collaborators [purify.filteringLog] and
    [purify.webRequestService], in the order they are made. *)
Inductive Event :=
  | ClearEventsByTabId (tid : Z)
  | AddHttpRequestEvent (t : Tab) (url ref : string) (ty : RequestType)
      (rule : option Rule) (evId : option Z)
  | BindRuleToHttpRequestEvent (t : Tab) (rule : option Rule) (evId : Z)
  | BindReplaceRulesToHttpRequestEvent (t : Tab) (rules : list Rule) (evId : Z)
  | BindStealthActionsToHttpRequestEvent (t : Tab) (actions : Z) (evId : Z)
  | AddCosmeticEvent (t : Tab) (element : Element) (url : string)
      (ty : RequestType) (rule : Rule)
  | RecordRuleHit (t : Tab) (hit : HitRecord) (url : string).

(** The module state: the [contexts] map and the [nextEventId] counter. *)
Record State := {
  contexts : gmap string RequestContext;
  nextEventId : Z
}.

Definition initial : State := {| contexts := ∅; nextEventId := 0 |}.

(** How a call ended: normally, or by an uncaught TypeError. *)
Inductive Completion := Normal | Throw.

(** *** Helpers *)

Definition appendRules (original toAppend : option (list Rule))
  : option (list Rule) :=
  match toAppend with
  | Some rs => Some (default [] original ++ rs)
  | None => original
  end.

Definition copyHeaders (headers : option (list Header)) : list Header :=
  map (fun h => {| name := name h; value := value h |}) (default [] headers).

Definition getNextEventId (s : State) : Z * State :=
  let n := js_succ (nextEventId s) in
  (n, {| contexts := contexts s; nextEventId := n |}).

Definition get (s : State) (id : string) : option RequestContext :=
  contexts s !! id.

Definition set_context (s : State) (id : string) (c : RequestContext) : State :=
  {| contexts := <[id := c]> (contexts s); nextEventId := nextEventId s |}.

Definition delete_context (s : State) (id : string) : State :=
  {| contexts := delete id (contexts s); nextEventId := nextEventId s |}.

(** *** record *)

(** The object literal built by [record]. *)
Definition newContext (id url ref origin : string) (ty : RequestType)
    (t : Tab) (evId : Z) : RequestContext :=
  {| requestId := id; requestUrl := url; referrerUrl := ref;
     originUrl := origin; requestType := ty; tab := t; eventId := evId;
     requestState := PROCESSING; contentModifyingState := NONE;
     requestHeaders := None; modifiedRequestHeaders := None;
     responseHeaders := None; modifiedResponseHeaders := None;
     requestRule := None; replaceRules := None; contentRules := None;
     cspRules := None; elements := None; stealthActions := None |}.

Definition record (s : State) (id url ref origin : string) (ty : RequestType)
    (t : Tab) : State * list Event :=
  let '(evId, s1) := getNextEventId s in
  let cleared :=
    if bool_decide (ty = DOCUMENT)
       && negb (bool_decide (is_Some (contexts s1 !! id)))
    then [ClearEventsByTabId (tabId t)] else [] in
  let context := newContext id url ref origin ty t evId in
  (set_context s1 id context,
   cleared ++ [AddHttpRequestEvent t url ref ty None (Some evId)]).

(** *** recordEmulated *)

Definition recordEmulated (s : State) (url ref : string) (ty : RequestType)
    (t : Tab) (rule : Rule) : State * list Event :=
  (s, [AddHttpRequestEvent t url ref ty (Some rule) None;
       RecordRuleHit t (HitRule rule) url]).

(** *** update *)

Definition set_requestState (c : RequestContext) (v : States) :=
  {| requestId := requestId c; requestUrl := requestUrl c;
     referrerUrl := referrerUrl c; originUrl := originUrl c;
     requestType := requestType c; tab := tab c; eventId := eventId c;
     requestState := v; contentModifyingState := contentModifyingState c;
     requestHeaders := requestHeaders c;
     modifiedRequestHeaders := modifiedRequestHeaders c;
     responseHeaders := responseHeaders c;
     modifiedResponseHeaders := modifiedResponseHeaders c;
     requestRule := requestRule c; replaceRules := replaceRules c;
     contentRules := contentRules c; cspRules := cspRules c;
     elements := elements c; stealthActions := stealthActions c |}.

Definition set_contentModifyingState (c : RequestContext) (v : States) :=
  {| requestId := requestId c; requestUrl := requestUrl c;
     referrerUrl := referrerUrl c; originUrl := originUrl c;
     requestType := requestType c; tab := tab c; eventId := eventId c;
     requestState := requestState c; contentModifyingState := v;
     requestHeaders := requestHeaders c;
     modifiedRequestHeaders := modifiedRequestHeaders c;
     responseHeaders := responseHeaders c;
     modifiedResponseHeaders := modifiedResponseHeaders c;
     requestRule := requestRule c; replaceRules := replaceRules c;
     contentRules := contentRules c; cspRules := cspRules c;
     elements := elements c; stealthActions := stealthActions c |}.

(** The rule and header assignments of [update]; the lifecycle fields are set
    by the two setters above. *)
Definition set_bindings (c : RequestContext) (u : ContextUpdate) :=
  {| requestId := requestId c; requestUrl := requestUrl c;
     referrerUrl := referrerUrl c; originUrl := originUrl c;
     requestType := requestType c; tab := tab c; eventId := eventId c;
     requestState := requestState c;
     contentModifyingState := contentModifyingState c;
     requestHeaders :=
       match u_requestHeaders u with
       | Some h => Some (copyHeaders h) | None => requestHeaders c end;
     modifiedRequestHeaders :=
       match u_modifiedRequestHeaders u with
       | Some h => Some (copyHeaders h) | None => modifiedRequestHeaders c end;
     responseHeaders :=
       match u_responseHeaders u with
       | Some h => Some (copyHeaders h) | None => responseHeaders c end;
     modifiedResponseHeaders :=
       match u_modifiedResponseHeaders u with
       | Some h => Some (copyHeaders h) | None => modifiedResponseHeaders c end;
     requestRule :=
       match u_requestRule u with Some r => r | None => requestRule c end;
     replaceRules :=
       match u_replaceRules u with Some rs => rs | None => replaceRules c end;
     contentRules := contentRules c;
     cspRules :=
       match u_cspRules u with
       | Some rs => appendRules (cspRules c) rs | None => cspRules c end;
     elements := elements c;
     stealthActions :=
       match u_stealthActions u with
       | Some a => a | None => stealthActions c end |}.

Definition update_context (c : RequestContext) (u : ContextUpdate)
  : RequestContext * list Event :=
  let c1 := match u_requestState u with
            | Some v => set_requestState c v | None => c end in
  let c2 := match u_contentModifyingState u with
            | Some v => set_contentModifyingState c1 v | None => c1 end in
  let c3 := set_bindings c2 u in
  (c3,
   match u_requestRule u with
   | Some r => [BindRuleToHttpRequestEvent (tab c3) r (eventId c3)]
   | None => []
   end).

Definition update (s : State) (id : string) (u : ContextUpdate)
  : State * list Event :=
  match contexts s !! id with
  | None => (s, [])
  | Some c => let '(c', ev) := update_context c u in (set_context s id c', ev)
  end.

(** *** bindContentRule *)

(** [context.elements] is a [Map] from rule objects to arrays of elements. *)
Fixpoint elements_get (m : list (Rule * list Element)) (r : Rule)
  : option (list Element) :=
  match m with
  | [] => None
  | (k, v) :: m' => if decide (k = r) then Some v else elements_get m' r
  end.

Fixpoint elements_set (m : list (Rule * list Element)) (r : Rule)
    (v : list Element) : list (Rule * list Element) :=
  match m with
  | [] => [(r, v)]
  | (k, w) :: m' =>
      if decide (k = r) then (k, v) :: m' else (k, w) :: elements_set m' r v
  end.

Definition elements_delete (m : list (Rule * list Element)) (r : Rule)
  : list (Rule * list Element) :=
  filter (fun p => p.1 <> r) m.

Definition set_content (c : RequestContext) (rules : option (list Rule))
    (els : option (list (Rule * list Element))) :=
  {| requestId := requestId c; requestUrl := requestUrl c;
     referrerUrl := referrerUrl c; originUrl := originUrl c;
     requestType := requestType c; tab := tab c; eventId := eventId c;
     requestState := requestState c;
     contentModifyingState := contentModifyingState c;
     requestHeaders := requestHeaders c;
     modifiedRequestHeaders := modifiedRequestHeaders c;
     responseHeaders := responseHeaders c;
     modifiedResponseHeaders := modifiedResponseHeaders c;
     requestRule := requestRule c; replaceRules := replaceRules c;
     contentRules := rules; cspRules := cspRules c;
     elements := els; stealthActions := stealthActions c |}.

Definition bindContentRule_context (c : RequestContext) (rule : Rule)
    (elementHtml : Element) : RequestContext :=
  let m := default [] (elements c) in
  let ruleElements := default [] (elements_get m rule) in
  set_content c (appendRules (contentRules c) (Some [rule]))
    (Some (elements_set m rule (ruleElements ++ [elementHtml]))).

Definition bindContentRule (s : State) (id : string) (rule : Rule)
    (elementHtml : Element) : State :=
  match contexts s !! id with
  | None => s
  | Some c => set_context s id (bindContentRule_context c rule elementHtml)
  end.

(** *** remove *)

(** The body of [if (context.requestState === States.DONE)]: the calls to the
    filtering log and the rules pushed on [ruleHitsRecords]. *)
Definition flushRequest (c : RequestContext) : list Event * list HitRecord :=
  (match requestRule c with
   | Some r => [BindRuleToHttpRequestEvent (tab c) (Some r) (eventId c)]
   | None => []
   end ++
   match cspRules c with
   | Some rs =>
       map (fun r => AddHttpRequestEvent (tab c) (requestUrl c) (referrerUrl c)
                       CSP (Some r) None) rs
   | None => []
   end ++
   match stealthActions c with
   | Some a =>
       if a =? 0 then []
       else [BindStealthActionsToHttpRequestEvent (tab c) a (eventId c)]
   | None => []
   end,
   match requestRule c with Some r => [HitRule r] | None => [] end ++
   match cspRules c with Some rs => map HitRule rs | None => [] end).

(** The loop over [contentRules]: cosmetic events of each rule's elements,
    then the rule's entry is deleted from [context.elements].  Reading
    [context.elements.get] when [context.elements] is undefined throws. *)
Fixpoint flushContentRules (c : RequestContext) (rules : list Rule)
    (els : option (list (Rule * list Element)))
  : option (list (Rule * list Element)) * list Event * Completion :=
  match rules with
  | [] => (els, [], Normal)
  | contentRule :: rest =>
      match els with
      | None => (None, [], Throw)
      | Some m =>
          let elems := default [] (elements_get m contentRule) in
          let ev := map (fun e => AddCosmeticEvent (tab c) e (requestUrl c)
                                    (requestType c) contentRule) elems in
          let '(els', ev', k) :=
            flushContentRules c rest (Some (elements_delete m contentRule)) in
          (els', ev ++ ev', k)
      end
  end.

(** The body of [if (context.contentModifyingState === States.DONE)]. *)
Definition flushContent (c : RequestContext)
  : option (list (Rule * list Element)) * list Event * list HitRecord
    * Completion :=
  let evReplace :=
    match replaceRules c with
    | Some rs => [BindReplaceRulesToHttpRequestEvent (tab c) rs (eventId c)]
    | None => []
    end in
  let hitsReplace :=
    match replaceRules c with Some rs => [HitRuleArray rs] | None => [] end in
  match contentRules c with
  | Some rules =>
      let '(els', ev, k) := flushContentRules c rules (elements c) in
      (els', evReplace ++ ev, hitsReplace ++ map HitRule rules, k)
  | None => (elements c, evReplace, hitsReplace, Normal)
  end.

Definition recordRuleHits (c : RequestContext) (hits : list HitRecord)
  : list Event :=
  map (fun h => RecordRuleHit (tab c) h (requestUrl c)) hits.

(** [remove] on the context object: the mutated context, the collaborator
    calls, whether the context is to be deleted, and how the call ended.  A
    throw leaves the mutations made so far and skips the rest. *)
Definition remove_context (c : RequestContext)
  : RequestContext * list Event * bool * Completion :=
  let '(c1, ev1, hits1) :=
    if decide (requestState c = DONE)
    then (set_requestState c NONE, (flushRequest c).1, (flushRequest c).2)
    else (c, [], []) in
  let '(c2, ev2, hits2, k) :=
    if decide (contentModifyingState c1 = DONE)
    then
      let c1' := set_contentModifyingState c1 NONE in
      let '(els', ev, hits, k) := flushContent c1' in
      (set_content c1' (contentRules c1') els', ev, hits, k)
    else (c1, [], [], Normal) in
  match k with
  | Throw => (c2, ev1 ++ ev2, false, Throw)
  | Normal =>
      (c2, ev1 ++ ev2 ++ recordRuleHits c2 (hits1 ++ hits2),
       bool_decide (requestState c2 = NONE) &&
       bool_decide (contentModifyingState c2 = NONE),
       Normal)
  end.

Definition remove (s : State) (id : string)
  : State * list Event * Completion :=
  match contexts s !! id with
  | None => (s, [], Normal)
  | Some c =>
      let '(c', ev, del, k) := remove_context c in
      (if del then delete_context s id else set_context s id c', ev, k)
  end.

(** *** Lifecycle entry points *)

Definition onRequestCompleted (s : State) (id : string)
  : State * list Event * Completion :=
  let '(s1, ev1) :=
    update s id
      {| u_requestState := Some DONE; u_contentModifyingState := None;
         u_requestRule := None; u_replaceRules := None; u_cspRules := None;
         u_stealthActions := None; u_requestHeaders := None;
         u_responseHeaders := None; u_modifiedRequestHeaders := None;
         u_modifiedResponseHeaders := None |} in
  let '(s2, ev2, k) := remove s1 id in
  (s2, ev1 ++ ev2, k).

Definition contentModifying (v : States) : ContextUpdate :=
  {| u_requestState := None; u_contentModifyingState := Some v;
     u_requestRule := None; u_replaceRules := None; u_cspRules := None;
     u_stealthActions := None; u_requestHeaders := None;
     u_responseHeaders := None; u_modifiedRequestHeaders := None;
     u_modifiedResponseHeaders := None |}.

Definition onContentModificationStarted (s : State) (id : string)
  : State * list Event :=
  update s id (contentModifying PROCESSING).

Definition onContentModificationFinished (s : State) (id : string)
  : State * list Event * Completion :=
  let '(s1, ev1) := update s id (contentModifying DONE) in
  let '(s2, ev2, k) := remove s1 id in
  (s2, ev1 ++ ev2, k).

(** *** Runs of the exposed API *)

(** One call of [purify.requestContextStorage]. *)
Inductive Call :=
  | Record_ (id url ref origin : string) (ty : RequestType) (t : Tab)
  | RecordEmulated (url ref : string) (ty : RequestType) (t : Tab) (rule : Rule)
  | Update (id : string) (u : ContextUpdate)
  | BindContentRule (id : string) (rule : Rule) (elementHtml : Element)
  | OnRequestCompleted (id : string)
  | OnContentModificationStarted (id : string)
  | OnContentModificationFinished (id : string).

Definition step (s : State) (call : Call) : State * list Event :=
  match call with
  | Record_ id url ref origin ty t => record s id url ref origin ty t
  | RecordEmulated url ref ty t rule => recordEmulated s url ref ty t rule
  | Update id u => update s id u
  | BindContentRule id rule el => (bindContentRule s id rule el, [])
  | OnRequestCompleted id => (onRequestCompleted s id).1
  | OnContentModificationStarted id => onContentModificationStarted s id
  | OnContentModificationFinished id => (onContentModificationFinished s id).1
  end.

(** The calls are separate event handlers: a handler that throws leaves the
    state as it was at the throw and the next one still runs. *)
Fixpoint run (s : State) (calls : list Call) : State * list Event :=
  match calls with
  | [] => (s, [])
  | call :: rest =>
      let '(s1, ev1) := step s call in
      let '(s2, ev2) := run s1 rest in
      (s2, ev1 ++ ev2)
  end.

(** Whether a call is a [record] for the request [id]. *)
Definition is_record_for (id : string) (call : Call) : bool :=
  match call with
  | Record_ id' _ _ _ _ _ => bool_decide (id' = id)
  | _ => false
  end.

(** The calls of [addHttpRequestEvent] in a trace. *)
Definition isRequestEvent (e : Event) : bool :=
  match e with AddHttpRequestEvent _ _ _ _ _ _ => true | _ => false end.

(** The calls of [recordRuleHit] in a trace. *)
Definition isRuleHit (e : Event) : bool :=
  match e with RecordRuleHit _ _ _ => true | _ => false end.

(** The event ids handed to the filtering log with a new request event. *)
Definition issuedEventIds (ev : list Event) : list Z :=
  omap (fun e => match e with
                 | AddHttpRequestEvent _ _ _ _ _ (Some i) => Some i
                 | _ => None
                 end) ev.

(** What one flush of each axis sends to the collaborators: the filtering-log
    calls of the axis followed by the rule hits of its rules. *)
Definition networkFlush (c : RequestContext) : list Event :=
  (flushRequest c).1 ++ recordRuleHits c (flushRequest c).2.

Definition contentFlush (c : RequestContext) : list Event :=
  (flushContent c).1.1.2 ++ recordRuleHits c (flushContent c).1.2.

(** [contentRules] and [elements] are written together by [bindContentRule]:
    a context with content rules has its elements map. *)
Definition context_wf (c : RequestContext) : Prop :=
  is_Some (contentRules c) -> is_Some (elements c).

(** *** The artifacts of each axis, after the list of the specification *)

(** The rules of the network axis: the request rule, then the CSP rules. *)
Definition networkRules (c : RequestContext) : list Rule :=
  option_list (requestRule c) ++ default [] (cspRules c).

(** The network-axis artifacts: the binding of the request rule to the event
    of the request, one CSP request event for each CSP rule, the binding of
    the stealth actions when there are any, and then one rule hit for every
    rule of the axis. *)
Definition networkArtifacts (c : RequestContext) : list Event :=
  map (fun r => BindRuleToHttpRequestEvent (tab c) (Some r) (eventId c))
    (option_list (requestRule c))
  ++ map (fun r => AddHttpRequestEvent (tab c) (requestUrl c)
                     (referrerUrl c) CSP (Some r) None)
       (default [] (cspRules c))
  ++ map (fun a => BindStealthActionsToHttpRequestEvent (tab c) a (eventId c))
       (filter (fun a => a <> 0) (option_list (stealthActions c)))
  ++ map (fun r => RecordRuleHit (tab c) (HitRule r) (requestUrl c))
       (networkRules c).

(** The rules of a list, each at its first place. *)
Fixpoint firstOccurrences (rules : list Rule) : list Rule :=
  match rules with
  | [] => []
  | r :: rest => r :: filter (fun x => x <> r) (firstOccurrences rest)
  end.

(** The elements bound to a content rule. *)
Definition boundElements (c : RequestContext) (r : Rule) : list Element :=
  default [] (elements_get (default [] (elements c)) r).

(** The content-axis artifacts: the binding of the replace rules to the event
    of the request, which the specification does not list and the code sends
    with this axis, one cosmetic event for each element bound to a content
    rule, the rules taken in the order in which they were first bound, and
    then the rule hits: one entry for the replace rules, which the code
    records as a whole, and one for every binding of a content rule. *)
Definition contentArtifacts (c : RequestContext) : list Event :=
  map (fun rs => BindReplaceRulesToHttpRequestEvent (tab c) rs (eventId c))
    (option_list (replaceRules c))
  ++ flat_map
       (fun r => map (fun e => AddCosmeticEvent (tab c) e (requestUrl c)
                                 (requestType c) r) (boundElements c r))
       (firstOccurrences (default [] (contentRules c)))
  ++ map (fun rs => RecordRuleHit (tab c) (HitRuleArray rs) (requestUrl c))
       (option_list (replaceRules c))
  ++ map (fun r => RecordRuleHit (tab c) (HitRule r) (requestUrl c))
       (default [] (contentRules c)).

End Storage.
End Ledger.

Module Safebrowsing.

Definition suspendedFromProperty : string := "safebrowsing-suspended-from".

(** 40 minutes, in milliseconds. *)
Definition SUSPEND_TTL : Z := 40 * 60 * 1000.

Definition SB_WHITE_LIST : string := "whitelist".

Definition DOMAIN_HASH_LENGTH : nat := 4.

(** A response of the lookup server as the success handler reads it. *)
Record Response := { status : Z; responseText : option string }.

(** [hashesMap]: an object used as a map from hash to host; [Object.keys]
    lists the hashes in insertion order (a hash of 64 hex digits is never an
    array index). *)
Fixpoint hashes_set (m : list (string * string)) (k v : string)
  : list (string * string) :=
  match m with
  | [] => [(k, v)]
  | (k', v') :: m' =>
      if String.eqb k' k then (k', v) :: m' else (k', v') :: hashes_set m' k v
  end.

Fixpoint hashes_get (m : list (string * string)) (k : string) : option string :=
  match m with
  | [] => None
  | (k', v) :: m' => if String.eqb k' k then Some v else hashes_get m' k
  end.

(** Modelled from the spec: [purify.utils.strings.join] is declared outside the
    files embedded here; [extractHosts] uses it to build the right-hand
    dot-suffix made of the labels from [startIndex] up to [endIndex]. *)
Definition join (parts : list string) (sep : string)
    (startIndex endIndex : nat) : string :=
  String.concat sep (firstn (endIndex - startIndex) (skipn startIndex parts)).

(** *** The hosts of a lookup, in the words of the specification *)

(** The right-hand dot-suffixes of a host that are shorter than the host: the
    text after each of its dots, the longest first. *)
Fixpoint dot_suffixes (host : string) : list string :=
  match host with
  | EmptyString => []
  | String c rest =>
      if Ascii.eqb c "." then rest :: dot_suffixes rest else dot_suffixes rest
  end.

(** The number of dot-separated labels of a host. *)
Fixpoint labels (host : string) : nat :=
  match host with
  | EmptyString => 1
  | String c rest => if Ascii.eqb c "." then S (labels rest) else labels rest
  end.

(** The tails of a list of labels that still hold a label. *)
Fixpoint label_tails (parts : list string) : list (list string) :=
  match parts with
  | _ :: (_ :: _) as rest => rest :: label_tails rest
  | _ => []
  end.

(** The host, then its shorter dot-suffixes down to the one with two labels. *)
Definition suffixes_to_root (host : string) : list string :=
  host :: List.filter (fun h => (2 <=? labels h)%nat) (dot_suffixes host).

Section Filter.

(** Collaborators declared outside the embedded files:
    [purify.utils.url.getHost], [isIpv4] and [isIpv6]; [SHA256.hash]; the
    long-term cache [purify.utils.LruCache] (a key may be [undefined]) and the
    session cache of queried prefixes, an [LRUMap].  A read of a cache is
    modelled as a pure function of the cache. *)
Variable getHost : string -> option string.
Variables isIpv4 isIpv6 : string -> bool.
Variable sha256 : string -> string.
Variable LruCache : Type.
Variable getValue : LruCache -> string -> option string.
Variable saveValue : LruCache -> option string -> string -> LruCache.
Variable LRUMap : Type.
Variable lru_get : LRUMap -> string -> option bool.
Variable lru_set : LRUMap -> string -> bool -> LRUMap.

(** The module state: [safebrowsingCache.cache], [safebrowsingRequestsCache]
    and the numbers kept in [purify.localStorage]. *)
Record State := {
  cache : LruCache;
  requestsCache : LRUMap;
  localStorage : gmap string Z
}.

(** What [lookupUrlWithCallback] leaves for [purify.backend.lookupSafebrowsing]
    to answer: the request and the variables its two handlers close over. *)
Record Pending := {
  p_host : string;
  p_hashesMap : list (string * string);
  p_shortHashes : list string
}.

(** Calls that leave the module. *)
Inductive Effect :=
  | Callback (sbList : option string)
  | LookupSafebrowsing (p : Pending)
  | ConsoleError.

Definition createResponse (sbList : string) : option string :=
  if String.eqb sbList SB_WHITE_LIST then None else Some sbList.

Definition resumeSafebrowsing (s : State) : State :=
  {| cache := cache s; requestsCache := requestsCache s;
     localStorage := delete suspendedFromProperty (localStorage s) |}.

Definition suspendSafebrowsing (s : State) (now : Z) : State :=
  {| cache := cache s; requestsCache := requestsCache s;
     localStorage := <[suspendedFromProperty := now]> (localStorage s) |}.

Definition createHash (host : string) : string :=
  toUpperCase (sha256 (host +:+ "/")).

Definition createHashesMap (hosts : list string) : list (string * string) :=
  fold_left (fun result host => hashes_set result (createHash host) host)
    hosts [].

Definition set_cache (s : State) (c : LruCache) : State :=
  {| cache := c; requestsCache := requestsCache s;
     localStorage := localStorage s |}.

(** The loop of [processSbResponse]: every line is cached, and the first line
    whose hash is one of the queried hosts' gives the result.  The cache
    operations are total here, so the catch branch of the function is not
    reached. *)
Fixpoint processLines (lines : list string) (hashesMap : list (string * string))
    (c : LruCache) (result : option string) : LruCache * option string :=
  match lines with
  | [] => (c, result)
  | line :: rest =>
      let r := split ":" line in
      let hash := r !! 2%nat in
      let list_ := default EmptyString (r !! 0%nat) in
      let c' := saveValue c hash list_ in
      let result' :=
        if truthy result then result
        else if truthy (hashes_get hashesMap (default "undefined" hash))
             then Some list_ else result in
      processLines rest hashesMap c' result'
  end.

Definition processSbResponse (c : LruCache) (responseText : option string)
    (hashesMap : list (string * string)) : LruCache * option string :=
  match responseText with
  | None => (c, None)
  | Some text =>
      if String.eqb text EmptyString
         || (10 * 1024 <? Z.of_nat (String.length text))
      then (c, None)
      else processLines (split "010" text) hashesMap c None
  end.

Fixpoint checkHostsInSbCache (c : LruCache) (hosts : list string)
  : option string :=
  match hosts with
  | [] => None
  | host :: rest =>
      let sbList := getValue c (createHash host) in
      if truthy sbList then sbList else checkHostsInSbCache c rest
  end.

Definition extractHosts (host : string) : list string :=
  if isIpv4 host || isIpv6 host then [host]
  else
    let parts := split "." host in
    if (length parts <=? 2)%nat then [host]
    else map (fun i => join parts "." i (length parts))
             (seq 0 (length parts - 1)).

(** The number read back from local storage: a missing item reads as a falsy
    number. *)
Definition suspendedFrom (s : State) : Z :=
  default 0 (localStorage s !! suspendedFromProperty).

Definition suspended (s : State) (now : Z) : bool :=
  negb (suspendedFrom s =? 0) && (now - suspendedFrom s <? SUSPEND_TTL).

Definition lookupUrlWithCallback (s : State) (now : Z) (requestUrl : string)
  : State * list Effect :=
  match getHost requestUrl with
  | None => (s, [])
  | Some host =>
      if String.eqb host EmptyString then (s, [])
      else
        let hosts := extractHosts host in
        if (length hosts =? 0)%nat then (s, [])
        else
          let sbList := checkHostsInSbCache (cache s) hosts in
          if truthy sbList then
            (s, [Callback (createResponse (default EmptyString sbList))])
          else if suspended s now then (s, [])
          else
            let hashesMap := createHashesMap hosts in
            let hashes := map fst hashesMap in
            let shortHashes :=
              map (String.substring 0 DOMAIN_HASH_LENGTH) hashes in
            let shortHashes :=
              filter (fun x => lru_get (requestsCache s) x <> Some true)
                shortHashes in
            if (length shortHashes =? 0)%nat then
              (set_cache s
                 (saveValue (cache s) (Some (createHash host)) SB_WHITE_LIST),
               [Callback (createResponse SB_WHITE_LIST)])
            else
              (s, [LookupSafebrowsing
                     {| p_host := host; p_hashesMap := hashesMap;
                        p_shortHashes := shortHashes |}])
  end.

(** The success handler passed to [lookupSafebrowsing]. *)
Definition onLookupResponse (s : State) (now : Z) (p : Pending)
    (response : Response) : State * list Effect :=
  if 500 <=? status response then
    (suspendSafebrowsing s now, [ConsoleError])
  else
    let s1 := resumeSafebrowsing s in
    let rc := fold_left (fun m x => lru_set m x true) (p_shortHashes p)
                (requestsCache s1) in
    let '(c, sbList) :=
      if status response =? 204 then (cache s1, SB_WHITE_LIST)
      else
        let '(c, result) :=
          processSbResponse (cache s1) (responseText response)
            (p_hashesMap p) in
        (c, if truthy result then default SB_WHITE_LIST result
            else SB_WHITE_LIST) in
    ({| cache := saveValue c (Some (createHash (p_host p))) sbList;
        requestsCache := rc; localStorage := localStorage s1 |},
     [Callback (createResponse sbList)]).

(** The error handler passed to [lookupSafebrowsing]. *)
Definition onLookupError (s : State) (now : Z) (p : Pending)
  : State * list Effect :=
  (suspendSafebrowsing s now, [ConsoleError]).

(** [addToSafebrowsingTrusted] *)
Definition addToSafebrowsingTrusted (s : State) (url : string) : State :=
  match getHost url with
  | None => s
  | Some host =>
      if String.eqb host EmptyString then s
      else set_cache s (saveValue (cache s) (Some (createHash host))
                          SB_WHITE_LIST)
  end.

End Filter.

Arguments cache {LruCache LRUMap} s.
Arguments requestsCache {LruCache LRUMap} s.
Arguments localStorage {LruCache LRUMap} s.
Arguments set_cache {LruCache LRUMap} s c.
Arguments suspendedFrom {LruCache LRUMap} s.
Arguments suspended {LruCache LRUMap} s now.
Arguments resumeSafebrowsing {LruCache LRUMap} s.
Arguments suspendSafebrowsing {LruCache LRUMap} s now.

End Safebrowsing.

Module Stealth.

(** [STEALTH_ACTIONS.STRIPPED_TRACKING_URL], [1 << 4]. *)
Definition STRIPPED_TRACKING_URL : Z := Z.shiftl 1 4.

(** *** The regular expression of tracking parameters

    [removeTrackersFromUrl] builds the expression (^|&)(p1|p2|...)=[^&#]* from
    the parameter names p1, p2, ... and applies it with the flags i and g.  A
    name becomes a sequence of characters matched literally (up to case) and
    of [Star], the class [^&#=] repeated, which replaces each asterisk. *)
Inductive Tok := Lit (c : ascii) | Star.

(** Characters with a meaning in the syntax of regular expressions: a name
    containing one is not matched literally by the expression; the matcher
    below describes names made of other characters. *)
Definition regex_special (c : ascii) : bool :=
  existsb (Ascii.eqb c)
    (list_ascii_of_string "\^$.|?*+()[]{}").

Definition is_delim (c : ascii) : bool :=
  Ascii.eqb c "&" || Ascii.eqb c "#".

(** The first replace of a name: its first equals sign is removed. *)
Fixpoint remove_first_eq (x : string) : string :=
  match x with
  | EmptyString => EmptyString
  | String c x' => if Ascii.eqb c "=" then x' else String c (remove_first_eq x')
  end.

(** The second replace of a name: every asterisk becomes [Star]. *)
Fixpoint tokens (x : string) : list Tok :=
  match x with
  | EmptyString => []
  | String c x' => (if Ascii.eqb c "*" then Star else Lit c) :: tokens x'
  end.

Definition is_space_tok (t : Tok) : bool :=
  match t with Lit c => is_space c | Star => false end.

Fixpoint trim_left (g : list Tok) : list Tok :=
  match g with
  | t :: g' => if is_space_tok t then trim_left g' else g
  | [] => []
  end.

(** [.trim()] of the source of a name. *)
Definition trim_toks (g : list Tok) : list Tok :=
  rev (trim_left (rev (trim_left g))).

(** [s.trim()] on a string. *)
Definition trim (s : string) : string :=
  let drop := fix drop (l : list ascii) : list ascii :=
    match l with
    | c :: l' => if is_space c then drop l' else l
    | [] => []
    end in
  string_of_list_ascii (rev (drop (rev (drop (list_ascii_of_string s))))).

(** The array [trackingParameters]. *)
Definition trackingParameters (setting : string) : list (list Tok) :=
  filter (fun g => g <> [])
    (map (fun x => trim_toks (tokens (remove_first_eq x)))
       (split "," (trim setting))).

(** The alternatives of the group of names: joining no name leaves one empty
    alternative. *)
Definition alternatives (names : list (list Tok)) : list (list Tok) :=
  match names with [] => [[]] | _ => names end.

Definition eq_ci (a b : ascii) : bool := Ascii.eqb (upper a) (upper b).

(** A character of the class [^&#=]. *)
Definition star_char (c : ascii) : bool :=
  negb (is_delim c || Ascii.eqb c "=").

(** The class [^&#] repeated: greedy, and nothing follows it. *)
Fixpoint drop_value (s : string) : string :=
  match s with
  | EmptyString => EmptyString
  | String c s' => if is_delim c then s else drop_value s'
  end.

(** An equals sign and the value after it: the text left after the match. *)
Definition match_value (s : string) : option string :=
  match s with
  | String c s' => if Ascii.eqb c "=" then Some (drop_value s') else None
  | EmptyString => None
  end.

(** [Star] followed by [k]: the longest run first, then shorter ones. *)
Fixpoint match_star (k : string -> option string) (s : string)
  : option string :=
  match s with
  | String c s' =>
      if star_char c then
        match match_star k s' with
        | Some r => Some r
        | None => k s
        end
      else k s
  | EmptyString => k s
  end.

Fixpoint match_glob (g : list Tok) (k : string -> option string) (s : string)
  : option string :=
  match g with
  | [] => k s
  | Lit c :: g' =>
      match s with
      | String c' s' => if eq_ci c c' then match_glob g' k s' else None
      | EmptyString => None
      end
  | Star :: g' => match_star (match_glob g' k) s
  end.

(** The group of names, then the value: the first alternative that lets the
    rest match. *)
Fixpoint match_alts (gs : list (list Tok)) (s : string) : option string :=
  match gs with
  | [] => None
  | g :: gs' =>
      match match_glob g match_value s with
      | Some r => Some r
      | None => match_alts gs' s
      end
  end.

(** The whole expression tried at one position; [at0] tells whether the
    position is the start of the text, where [^] matches.  The result is the
    text after the match. *)
Definition match_here (gs : list (list Tok)) (at0 : bool) (s : string)
  : option string :=
  match (if at0 then match_alts gs s else None) with
  | Some r => Some r
  | None =>
      match s with
      | String c s' => if Ascii.eqb c "&" then match_alts gs s' else None
      | EmptyString => None
      end
  end.

(** A match is never empty: what is left after it is shorter.  This is what
    lets the global replace below resume after each match. *)
Definition shortening (k : string -> option string) : Prop :=
  forall s r, k s = Some r -> (String.length r < String.length s)%nat.

Lemma drop_value_length s :
  (String.length (drop_value s) <= String.length s)%nat.
Proof.
  induction s as [|c s IH]; simpl; [lia|].
  destruct (is_delim c); simpl; lia.
Qed.

Lemma match_value_shortening : shortening match_value.
Proof.
  intros [|c s] r; simpl; [discriminate|].
  destruct (Ascii.eqb c "="); [|discriminate].
  intros [= <-]. pose proof (drop_value_length s). lia.
Qed.

Lemma match_star_shortening k : shortening k -> shortening (match_star k).
Proof.
  intros Hk s. induction s as [|c s IH]; intros r; simpl.
  - apply Hk.
  - destruct (star_char c); [|apply Hk].
    destruct (match_star k s) as [r'|] eqn:E.
    + intros [= <-]. specialize (IH r' eq_refl). lia.
    + apply Hk.
Qed.

Lemma match_glob_shortening g :
  forall k, shortening k -> shortening (match_glob g k).
Proof.
  induction g as [|[c|] g IH]; intros k Hk; simpl.
  - exact Hk.
  - intros [|c' s] r; [discriminate|].
    destruct (eq_ci c c'); [|discriminate].
    intros E. apply IH in E; [simpl; lia | exact Hk].
  - apply match_star_shortening, IH, Hk.
Qed.

Lemma match_alts_shortening gs : shortening (match_alts gs).
Proof.
  induction gs as [|g gs IH]; intros s r; simpl; [discriminate|].
  destruct (match_glob g match_value s) as [r'|] eqn:E.
  - intros [= <-].
    exact (match_glob_shortening g _ match_value_shortening _ _ E).
  - apply IH.
Qed.

Lemma match_here_shortening gs at0 : shortening (match_here gs at0).
Proof.
  intros s r. unfold match_here.
  destruct (if at0 then match_alts gs s else None) as [r'|] eqn:E.
  - intros [= <-]. destruct at0; [|discriminate].
    exact (match_alts_shortening gs _ _ E).
  - destruct s as [|c s]; [discriminate|].
    destruct (Ascii.eqb c "&"); [|discriminate].
    intros E'. apply match_alts_shortening in E'. simpl. lia.
Qed.

(** [text.replace(trackingParametersRegExp, emptyString)] with the flag g: the
    leftmost match is deleted and the search resumes after it, where the text
    no longer starts. *)
Equations? replaceAll (gs : list (list Tok)) (at0 : bool) (s : string)
  : string by wf (String.length s) lt :=
  replaceAll gs at0 s with Logic.inspect (match_here gs at0 s) := {
    | exist _ (Some r) E := replaceAll gs false r;
    | exist _ None _ with s := {
        | EmptyString := EmptyString;
        | String c s' := String c (replaceAll gs false s') } }.
Proof.
  - exact (match_here_shortening gs at0 s r E).
  - simpl. lia.
Qed.

(** The expression matches at no position of a text ([at0]: the text starts
    here): the text holds no tracking parameter. *)
Fixpoint nomatch (gs : list (list Tok)) (at0 : bool) (s : string) : Prop :=
  match_here gs at0 s = None /\
  match s with
  | EmptyString => True
  | String _ s' => nomatch gs false s'
  end.

(** Names written with characters that are neither syntax of regular
    expressions nor the separators [&] and [#] of a query. *)
Definition plain_tok (t : Tok) : bool :=
  match t with
  | Lit c => negb (regex_special c) && negb (is_delim c)
  | Star => true
  end.

Definition plain_names (gs : list (list Tok)) : bool :=
  forallb (forallb plain_tok) gs.

(** The text up to the first separator; [drop_value] is the rest. *)
Fixpoint take_value (s : string) : string :=
  match s with
  | EmptyString => EmptyString
  | String c s' => if is_delim c then EmptyString else String c (take_value s')
  end.

(** A text that is empty or starts with a separator. *)
Definition boundary (s : string) : Prop :=
  match s with
  | EmptyString => True
  | String c _ => is_delim c = true
  end.

(** A text without the character [c]. *)
Fixpoint no_char (c : ascii) (s : string) : Prop :=
  match s with
  | EmptyString => True
  | String c' s' => c' <> c /\ no_char c s'
  end.

(** The loop that drops the ampersands left at the start of the query. *)
Fixpoint strip_amp (s : string) : string :=
  match s with
  | String c s' => if Ascii.eqb c "&" then strip_amp s' else s
  | EmptyString => EmptyString
  end.

(** The tail of [removeTrackersFromUrl], from the split of the URL on: the
    rewritten URL, or [None] for the null returned when nothing changes. *)
Definition stripTrackingParameters (setting requestUrl : string)
  : option string :=
  match split "?" requestUrl with
  | urlPieces0 :: urlPieces1 :: rest =>
      let gs := alternatives (trackingParameters setting) in
      let urlPieces1' := strip_amp (replaceAll gs true urlPieces1) in
      let result :=
        if String.eqb urlPieces1' EmptyString then urlPieces0
        else String.concat "?" (urlPieces0 :: urlPieces1' :: rest) in
      if String.eqb result requestUrl then None else Some result
  | _ => None
  end.

Section Service.

Context {Rule Element : Type}.

(** The settings read by [removeTrackersFromUrl]. *)
Record Settings := {
  DISABLE_STEALTH_MODE : bool;
  isFilteringDisabled : bool;
  STRIP_TRACKING_PARAMETERS : bool;
  TRACKING_PARAMETERS : string
}.

(** Collaborators declared outside the embedded files: [purify.frames] and
    [purify.requestFilter]; [findStealthWhitelistRule] of stealth.js is a
    parameter here and is given in [StealthRequests]. *)
Variable settings : Settings.
Variable shouldStopRequestProcess : Tab -> bool.
Variable getMainFrameUrl : Tab -> option string.
Variable findWhiteListRule : string -> string -> RequestType -> option Rule.
Variable isDocumentWhiteList : Rule -> bool.
Variable findStealthWhitelistRule
  : string -> string -> RequestType -> option Rule.

Definition isStealthModeDisabled : bool :=
  DISABLE_STEALTH_MODE settings || isFilteringDisabled settings.

Definition getStealthSettingValue (stealthSetting : bool) : bool :=
  if isStealthModeDisabled then false else stealthSetting.

(** [removeTrackersFromUrl], reading the context of the request from the
    storage: the returned URL (or null) and the calls to the filtering log. *)
Definition removeTrackersFromUrl (storage : @Ledger.State Rule Element)
    (requestId : string)
  : option string * list (@Ledger.Event Rule Element) :=
  if negb (getStealthSettingValue (STRIP_TRACKING_PARAMETERS settings))
  then (None, [])
  else
    match Ledger.get storage requestId with
    | None => (None, [])
    | Some context =>
        let requestUrl := Ledger.requestUrl context in
        let requestType := Ledger.requestType context in
        let tab := Ledger.tab context in
        if negb (bool_decide (requestType = DOCUMENT)) then (None, [])
        else if shouldStopRequestProcess tab then (None, [])
        else
          let mainFrameUrl := getMainFrameUrl tab in
          if negb (truthy mainFrameUrl) then (None, [])
          else
            let mainFrameUrl := default EmptyString mainFrameUrl in
            let whiteListRule :=
              findWhiteListRule requestUrl mainFrameUrl requestType in
            if match whiteListRule with
               | Some r => isDocumentWhiteList r
               | None => false
               end
            then (None, [])
            else
              match findStealthWhitelistRule requestUrl mainFrameUrl
                      requestType with
              | Some stealthWhiteListRule =>
                  (None,
                   [Ledger.AddHttpRequestEvent tab requestUrl mainFrameUrl
                      requestType (Some stealthWhiteListRule) None])
              | None =>
                  match stripTrackingParameters
                          (TRACKING_PARAMETERS settings) requestUrl with
                  | Some result =>
                      (Some result,
                       [Ledger.BindStealthActionsToHttpRequestEvent tab
                          STRIPPED_TRACKING_URL (Ledger.eventId context)])
                  | None => (None, [])
                  end
              end
    end.

End Service.

End Stealth.

(** ** Invariants and traces of the request ledger *)

Module LedgerInvariants.

Section Invariants.

Context {Rule Element : Type} `{EqDecision Rule}.

(** Every stored context that has content rules has its elements map. *)
Definition state_wf (s : @Ledger.State Rule Element) : Prop :=
  forall id c, Ledger.contexts s !! id = Some c -> Ledger.context_wf c.

(** Every context is stored under its own request id, with an event id the
    counter has already passed, and no two stored contexts share an event
    id. *)
Definition state_keyed (s : @Ledger.State Rule Element) : Prop :=
  0 <= Ledger.nextEventId s
  /\ (forall id c,
        Ledger.contexts s !! id = Some c ->
        Ledger.requestId c = id
        /\ 0 < Ledger.eventId c <= Ledger.nextEventId s)
  /\ (forall id1 id2 c1 c2,
        Ledger.contexts s !! id1 = Some c1 ->
        Ledger.contexts s !! id2 = Some c2 ->
        Ledger.eventId c1 = Ledger.eventId c2 -> id1 = id2).

(** The (rule, element) pairs held by [context.elements]. *)
Definition bound_pairs (m : list (Rule * list Element))
  : list (Rule * Element) :=
  flat_map (fun entry => map (pair entry.1) entry.2) m.

(** The call of [addCosmeticEvent] made for a bound pair. *)
Definition cosmeticEvent (c : @Ledger.RequestContext Rule Element)
    (b : Rule * Element) : @Ledger.Event Rule Element :=
  Ledger.AddCosmeticEvent (Ledger.tab c) b.2 (Ledger.requestUrl c)
    (Ledger.requestType c) b.1.

(** Successive calls of [bindContentRule] on one context. *)
Definition bindAll (c : @Ledger.RequestContext Rule Element)
    (binds : list (Rule * Element)) : Ledger.RequestContext :=
  fold_left (fun c b => Ledger.bindContentRule_context c b.1 b.2) binds c.

(** The event ids that a trace asks the filtering log to bind a rule, replace
    rules or stealth actions to. *)
Definition boundEventIds (ev : list (@Ledger.Event Rule Element)) : list Z :=
  omap (fun e => match e with
                 | Ledger.BindRuleToHttpRequestEvent _ _ i => Some i
                 | Ledger.BindReplaceRulesToHttpRequestEvent _ _ i => Some i
                 | Ledger.BindStealthActionsToHttpRequestEvent _ _ i => Some i
                 | _ => None
                 end) ev.

(** Every binding in the trace names an event id that is known when it is
    made: one of [known] or one issued by an earlier event of the trace. *)
Fixpoint bindsFollowIssue (known : list Z)
    (ev : list (@Ledger.Event Rule Element)) : bool :=
  match ev with
  | [] => true
  | e :: rest =>
      forallb (fun i => bool_decide (i ∈ known)) (boundEventIds [e])
      && bindsFollowIssue (Ledger.issuedEventIds [e] ++ known) rest
  end.

(** An update object that carries only [cspRules] and [replaceRules]. *)
Definition rulesUpdate (csp replace : list Rule)
  : @Ledger.ContextUpdate Rule :=
  {| Ledger.u_requestState := None; Ledger.u_contentModifyingState := None;
     Ledger.u_requestRule := None; Ledger.u_replaceRules := Some (Some replace);
     Ledger.u_cspRules := Some (Some csp); Ledger.u_stealthActions := None;
     Ledger.u_requestHeaders := None; Ledger.u_responseHeaders := None;
     Ledger.u_modifiedRequestHeaders := None;
     Ledger.u_modifiedResponseHeaders := None |}.

End Invariants.

End LedgerInvariants.

(** ** Reading the lines of a lookup response *)

Module SafebrowsingLines.

(** The list name of a response line: the text before its first colon. *)
Definition lineList (line : string) : string :=
  default EmptyString (split ":" line !! 0%nat).

(** The hash of a response line: its third colon-separated field. *)
Definition lineHash (line : string) : option string :=
  split ":" line !! 2%nat.

(** The line names one of the queried hosts. *)
Definition knownHash (hashesMap : list (string * string)) (line : string)
  : bool :=
  truthy (Safebrowsing.hashes_get hashesMap
            (default "undefined" (lineHash line))).

(** The line names one of the queried hosts and carries a list name. *)
Definition decides (hashesMap : list (string * string)) (line : string)
  : bool :=
  knownHash hashesMap line && truthy (Some (lineList line)).

End SafebrowsingLines.

(** ** Header utilities of browser-utils.js *)

Module Headers.

(** [c.toLowerCase()] on ASCII. *)
Definition lower (c : ascii) : ascii :=
  let n := nat_of_ascii c in
  if ((65 <=? n) && (n <=? 90))%nat then ascii_of_nat (n + 32) else c.

Fixpoint toLowerCase (s : string) : string :=
  match s with
  | EmptyString => EmptyString
  | String c s' => String (lower c) (toLowerCase s')
  end.

(** The test of the loops: the names are equal once lowered. *)
Definition sameName (headerName : string) (header : Header) : bool :=
  String.eqb (toLowerCase (name header)) (toLowerCase headerName).

(** [findHeaderByName]: the first header of that name; null for a missing
    collection or a missing header. *)
Definition findHeaderByName (headers : option (list Header))
    (headerName : string) : option Header :=
  find (sameName headerName) (default [] headers).

Definition getHeaderValueByName (headers : option (list Header))
    (headerName : string) : option string :=
  match findHeaderByName headers headerName with
  | Some header => Some (value header)
  | None => None
  end.

(** An assignment to [header.value] on the object returned by
    [findHeaderByName]: the object is an element of the array, so the array
    sees the new value at the position of the first header of that name. *)
Fixpoint writeValue (headers : list Header) (headerName headerValue : string)
  : list Header :=
  match headers with
  | [] => []
  | header :: rest =>
      if sameName headerName header
      then {| name := name header; value := headerValue |} :: rest
      else header :: writeValue rest headerName headerValue
  end.

(** [setHeaderValue]: the collection it returns. *)
Definition setHeaderValue (headers : option (list Header))
    (headerName headerValue : string) : list Header :=
  let headers := default [] headers in
  match findHeaderByName (Some headers) headerName with
  | Some _ => writeValue headers headerName headerValue
  | None => headers ++ [{| name := headerName; value := headerValue |}]
  end.

(** [removeHeader]: the loop runs from the last header to the first and
    splices every header of that name out of the array; the array after the
    loop and the flag returned. *)
Fixpoint removeHeader (headers : list Header) (headerName : string)
  : list Header * bool :=
  match headers with
  | [] => ([], false)
  | header :: rest =>
      let '(rest', removed) := removeHeader rest headerName in
      if sameName headerName header then (rest', true)
      else (header :: rest', removed)
  end.

End Headers.

(** ** Request headers and cookie rules of stealth.js *)

Module StealthRequests.

(** [HEADERS] and [HEADER_VALUES]. *)
Definition REFERRER : string := "Referer".
Definition X_CLIENT_DATA : string := "X-Client-Data".
Definition DO_NOT_TRACK : Header := {| name := "DNT"; value := "1" |}.

(** [STEALTH_ACTIONS]. *)
Module STEALTH_ACTIONS.
Definition HIDE_REFERRER : Z := Z.shiftl 1 0.
Definition HIDE_SEARCH_QUERIES : Z := Z.shiftl 1 1.
Definition BLOCK_CHROME_CLIENT_DATA : Z := Z.shiftl 1 2.
Definition SEND_DO_NOT_TRACK : Z := Z.shiftl 1 3.
Definition FIRST_PARTY_COOKIES : Z := Z.shiftl 1 5.
Definition THIRD_PARTY_COOKIES : Z := Z.shiftl 1 6.
End STEALTH_ACTIONS.

(** The headers whose name is neither that of the referrer nor that of the
    client data. *)
Definition untouched (header : Header) : bool :=
  negb (Headers.sameName REFERRER header)
  && negb (Headers.sameName X_CLIENT_DATA header).

(** *** isSearchEngine *)

(** The text of a string after a prefix, compared without regard to case. *)
Fixpoint after_ci (pre s : string) : option string :=
  match pre, s with
  | EmptyString, _ => Some s
  | String a pre', String b s' =>
      if Stealth.eq_ci a b then after_ci pre' s' else None
  | String _ _, EmptyString => None
  end.

(** The texts that can follow an optional group: with it, or without. *)
Definition optional (group s : string) : list string :=
  match after_ci group s with
  | Some rest => [rest; s]
  | None => [s]
  end.

(** One search-engine expression matched at the start of a string: http, an
    optional s, a colon and two slashes, an optional www and dot, then the
    host text of the engine. *)
Definition engine_here (engine s : string) : bool :=
  match after_ci "http" s with
  | None => false
  | Some r1 =>
      existsb
        (fun r2 =>
           match after_ci "://" r2 with
           | None => false
           | Some r3 =>
               existsb (fun r4 => bool_decide (is_Some (after_ci engine r4)))
                 (optional "www." r3)
           end)
        (optional "s" r1)
  end.

(** [RegExp.prototype.test]: a match at some position. *)
Fixpoint engine_test (engine url : string) : bool :=
  engine_here engine url
  || match url with
     | EmptyString => false
     | String _ rest => engine_test engine rest
     end.

(** The host texts of [SEARCH_ENGINES]. *)
Definition SEARCH_ENGINES : list string :=
  ["google."; "yandex."; "bing."; "yahoo."; "go.mail.ru"; "ask.com";
   "aol.com"; "baidu.com"; "seznam.cz"].

Definition isSearchEngine (url : string) : bool :=
  if String.eqb url EmptyString then false
  else existsb (fun engine => engine_test engine url) SEARCH_ENGINES.

(** *** generateRemoveRule *)

(** The rule made by [generateRemoveRule]: a cookie rule for every cookie
    name, with a maxAge option in seconds when the minutes are positive, and
    the stealth actions added to it. *)
Record CookieRule := { maxAge : option Z; ruleActions : Z }.

Definition generateRemoveRule (maxAgeMinutes stealthActions : Z)
  : CookieRule :=
  {| maxAge := if 0 <? maxAgeMinutes then Some (maxAgeMinutes * 60) else None;
     ruleActions := stealthActions |}.

(** What [getCookieRules] returns: null, false or an array of rules. *)
Inductive CookieRules :=
  | RulesNull
  | RulesFalse
  | RulesArray (rules : list CookieRule).

Section Requests.

Context {Rule Element : Type} `{EqDecision Rule}.

(** The settings read by [processRequestHeaders] and [getCookieRules], next to
    those of [removeTrackersFromUrl]. *)
Record Settings := {
  stealth : Stealth.Settings;
  HIDE_REFERRER : bool;
  HIDE_SEARCH_QUERIES : bool;
  BLOCK_CHROME_CLIENT_DATA : bool;
  SEND_DO_NOT_TRACK : bool;
  SELF_DESTRUCT_FIRST_PARTY_COOKIES : bool;
  SELF_DESTRUCT_FIRST_PARTY_COOKIES_TIME : Z;
  SELF_DESTRUCT_THIRD_PARTY_COOKIES : bool;
  SELF_DESTRUCT_THIRD_PARTY_COOKIES_TIME : Z
}.

(** Collaborators declared outside the embedded files: [purify.utils.url],
    [purify.frames] and [purify.requestFilter]. *)
Variable settings : Settings.
Variable getHost : string -> option string.
Variable isThirdPartyRequest : string -> string -> bool.
Variable shouldStopRequestProcess : Tab -> bool.
Variable getMainFrameUrl : Tab -> option string.
Variable findWhiteListRule : string -> string -> RequestType -> option Rule.
Variable isDocumentWhiteList : Rule -> bool.
Variable findStealthWhiteListRule
  : string -> string -> RequestType -> option Rule.

Definition isStealthModeDisabled : bool :=
  Stealth.isStealthModeDisabled (stealth settings).

Definition getStealthSettingValue (stealthSetting : bool) : bool :=
  Stealth.getStealthSettingValue (stealth settings) stealthSetting.

(** [getHiddenRefHeaderUrl]; a null host is concatenated as the text null. *)
Definition getHiddenRefHeaderUrl (url : string) : string :=
  (if String.prefix "https" url then "https://" else "http://")
  +:+ default "null" (getHost url) +:+ "/".

(** [findStealthWhitelistRule]: a document-level stealth rule of the referrer
    comes first, then any stealth rule of the request. *)
Definition findStealthWhitelistRule (requestUrl referrerUrl : string)
    (requestType : RequestType) : option Rule :=
  let stealthWhiteListRule :=
    findStealthWhiteListRule requestUrl referrerUrl requestType in
  match findStealthWhiteListRule referrerUrl referrerUrl requestType with
  | Some stealthDocumentWhitelistRule =>
      if isDocumentWhiteList stealthDocumentWhitelistRule
      then Some stealthDocumentWhitelistRule
      else stealthWhiteListRule
  | None => stealthWhiteListRule
  end.

(** An update object with the one property [requestRule]. *)
Definition requestRuleUpdate (rule : Rule) : @Ledger.ContextUpdate Rule :=
  {| Ledger.u_requestState := None; Ledger.u_contentModifyingState := None;
     Ledger.u_requestRule := Some (Some rule); Ledger.u_replaceRules := None;
     Ledger.u_cspRules := None; Ledger.u_stealthActions := None;
     Ledger.u_requestHeaders := None; Ledger.u_responseHeaders := None;
     Ledger.u_modifiedRequestHeaders := None;
     Ledger.u_modifiedResponseHeaders := None |}.

(** An update object with the one property [stealthActions]. *)
Definition stealthActionsUpdate (stealthActions : Z)
  : @Ledger.ContextUpdate Rule :=
  {| Ledger.u_requestState := None; Ledger.u_contentModifyingState := None;
     Ledger.u_requestRule := None; Ledger.u_replaceRules := None;
     Ledger.u_cspRules := None;
     Ledger.u_stealthActions := Some (Some stealthActions);
     Ledger.u_requestHeaders := None; Ledger.u_responseHeaders := None;
     Ledger.u_modifiedRequestHeaders := None;
     Ledger.u_modifiedResponseHeaders := None |}.

(** The referrer step shared by the two referrer settings: when the header is
    there and the test passes, its value is replaced and the action noted. *)
Definition hideReferrer (test : string -> bool) (action : Z)
    (requestUrl : string) (acc : list Header * Z) : list Header * Z :=
  let '(requestHeaders, stealthActions) := acc in
  match Headers.findHeaderByName (Some requestHeaders) REFERRER with
  | Some refHeader =>
      if test (value refHeader)
      then (Headers.writeValue requestHeaders REFERRER
              (getHiddenRefHeaderUrl requestUrl),
            Z.lor stealthActions action)
      else acc
  | None => acc
  end.

(** The header steps of [processRequestHeaders], after the exemptions: the
    array after the call and the actions taken. *)
Definition applyStealthHeaders (requestUrl : string)
    (requestType : RequestType) (requestHeaders : list Header)
  : list Header * Z :=
  let acc := (requestHeaders, 0) in
  let acc :=
    if getStealthSettingValue (HIDE_REFERRER settings)
    then hideReferrer (fun v => isThirdPartyRequest requestUrl v)
           STEALTH_ACTIONS.HIDE_REFERRER requestUrl acc
    else acc in
  let isMainFrame := bool_decide (requestType = DOCUMENT) in
  let acc :=
    if getStealthSettingValue (HIDE_SEARCH_QUERIES settings) && isMainFrame
    then hideReferrer
           (fun v => isSearchEngine v && isThirdPartyRequest requestUrl v)
           STEALTH_ACTIONS.HIDE_SEARCH_QUERIES requestUrl acc
    else acc in
  let acc :=
    if getStealthSettingValue (BLOCK_CHROME_CLIENT_DATA settings)
    then
      let '(requestHeaders, removed) :=
        Headers.removeHeader acc.1 X_CLIENT_DATA in
      if removed
      then (requestHeaders,
            Z.lor acc.2 STEALTH_ACTIONS.BLOCK_CHROME_CLIENT_DATA)
      else (requestHeaders, acc.2)
    else acc in
  if getStealthSettingValue (SEND_DO_NOT_TRACK settings)
  then (acc.1 ++ [DO_NOT_TRACK], Z.lor acc.2 STEALTH_ACTIONS.SEND_DO_NOT_TRACK)
  else acc.

(** [processRequestHeaders]: the flag returned, the header array after the
    call, the context storage after the call and the calls to the filtering
    log. *)
Definition processRequestHeaders (storage : @Ledger.State Rule Element)
    (requestId : string) (requestHeaders : list Header)
  : bool * list Header * @Ledger.State Rule Element
    * list (@Ledger.Event Rule Element) :=
  let unchanged := (false, requestHeaders, storage, []) in
  if isStealthModeDisabled then unchanged
  else
    match Ledger.get storage requestId with
    | None => unchanged
    | Some context =>
        let tab := Ledger.tab context in
        let requestUrl := Ledger.requestUrl context in
        let requestType := Ledger.requestType context in
        if shouldStopRequestProcess tab then unchanged
        else
          let mainFrameUrl := getMainFrameUrl tab in
          if negb (truthy mainFrameUrl) then unchanged
          else
            let mainFrameUrl := default EmptyString mainFrameUrl in
            if match findWhiteListRule requestUrl mainFrameUrl requestType with
               | Some r => isDocumentWhiteList r
               | None => false
               end
            then unchanged
            else
              match findStealthWhitelistRule requestUrl mainFrameUrl
                      requestType with
              | Some stealthWhiteListRule =>
                  let '(storage', ev) :=
                    Ledger.update storage requestId
                      (requestRuleUpdate stealthWhiteListRule) in
                  (false, requestHeaders, storage', ev)
              | None =>
                  let '(requestHeaders', stealthActions) :=
                    applyStealthHeaders requestUrl requestType
                      requestHeaders in
                  if 0 <? stealthActions
                  then
                    let '(storage', ev) :=
                      Ledger.update storage requestId
                        (stealthActionsUpdate stealthActions) in
                    (true, requestHeaders', storage', ev)
                  else (false, requestHeaders', storage, [])
              end
    end.

(** [getCookieRules] *)
Definition getCookieRules (requestUrl referrerUrl : string)
    (requestType : RequestType) : CookieRules :=
  if isStealthModeDisabled then RulesNull
  else if match findWhiteListRule requestUrl referrerUrl requestType with
          | Some r => isDocumentWhiteList r
          | None => false
          end
  then RulesFalse
  else
    match findStealthWhitelistRule requestUrl referrerUrl requestType with
    | Some _ => RulesNull
    | None =>
        let result :=
          if getStealthSettingValue
               (SELF_DESTRUCT_FIRST_PARTY_COOKIES settings)
          then [generateRemoveRule
                  (SELF_DESTRUCT_FIRST_PARTY_COOKIES_TIME settings)
                  STEALTH_ACTIONS.FIRST_PARTY_COOKIES]
          else [] in
        if negb (getStealthSettingValue
                   (SELF_DESTRUCT_THIRD_PARTY_COOKIES settings))
        then RulesArray result
        else
          let thirdParty :=
            negb (String.eqb referrerUrl EmptyString)
            && isThirdPartyRequest requestUrl referrerUrl in
          let isMainFrame := bool_decide (requestType = DOCUMENT) in
          if thirdParty && negb isMainFrame
          then RulesArray
                 (result ++
                  [generateRemoveRule
                     (SELF_DESTRUCT_THIRD_PARTY_COOKIES_TIME settings)
                     STEALTH_ACTIONS.THIRD_PARTY_COOKIES])
          else RulesArray result
    end.

End Requests.

End StealthRequests.

(** ** The user settings *)

Module Settings.

(** The names of the settings. *)
Definition DISABLE_DETECT_FILTERS : string := "detect-filters-disabled".
Definition DISABLE_SHOW_PAGE_STATS : string := "disable-show-page-statistic".
Definition DISABLE_SHOW_PURIFY_PROMO_INFO : string :=
  "show-info-about-purify-disabled".
Definition DISABLE_SAFEBROWSING : string := "safebrowsing-disabled".
Definition DISABLE_FILTERING : string := "purify-disabled".
Definition DISABLE_COLLECT_HITS : string := "hits-count-disabled".
Definition DISABLE_SHOW_CONTEXT_MENU : string := "context-menu-disabled".
Definition USE_OPTIMIZED_FILTERS : string := "use-optimized-filters".
Definition DEFAULT_WHITE_LIST_MODE : string := "default-whitelist-mode".
Definition DISABLE_SHOW_APP_UPDATED_NOTIFICATION : string :=
  "show-app-updated-disabled".
Definition FILTERS_UPDATE_PERIOD : string := "filters-update-period".
Definition DISABLE_STEALTH_MODE : string := "stealth_disable_stealth_mode".
Definition HIDE_REFERRER : string := "stealth-hide-referrer".
Definition HIDE_SEARCH_QUERIES : string := "stealth-hide-search-queries".
Definition SEND_DO_NOT_TRACK : string := "stealth-send-do-not-track".
Definition BLOCK_CHROME_CLIENT_DATA : string := "stealth-remove-x-client".
Definition BLOCK_WEBRTC : string := "stealth-block-webrtc".
Definition SELF_DESTRUCT_THIRD_PARTY_COOKIES : string :=
  "stealth-block-third-party-cookies".
Definition SELF_DESTRUCT_THIRD_PARTY_COOKIES_TIME : string :=
  "stealth-block-third-party-cookies-time".
Definition SELF_DESTRUCT_FIRST_PARTY_COOKIES : string :=
  "stealth-block-first-party-cookies".
Definition SELF_DESTRUCT_FIRST_PARTY_COOKIES_TIME : string :=
  "stealth-block-first-party-cookies-time".
Definition STRIP_TRACKING_PARAMETERS : string := "strip-tracking-parameters".
Definition TRACKING_PARAMETERS : string := "tracking-parameters".

(** The object [settings], in the order of its keys. *)
Definition settings : list string :=
  [DISABLE_DETECT_FILTERS; DISABLE_SHOW_PAGE_STATS;
   DISABLE_SHOW_PURIFY_PROMO_INFO; DISABLE_SAFEBROWSING; DISABLE_FILTERING;
   DISABLE_COLLECT_HITS; DISABLE_SHOW_CONTEXT_MENU; USE_OPTIMIZED_FILTERS;
   DEFAULT_WHITE_LIST_MODE; DISABLE_SHOW_APP_UPDATED_NOTIFICATION;
   FILTERS_UPDATE_PERIOD; DISABLE_STEALTH_MODE; HIDE_REFERRER;
   HIDE_SEARCH_QUERIES; SEND_DO_NOT_TRACK; BLOCK_CHROME_CLIENT_DATA;
   BLOCK_WEBRTC; SELF_DESTRUCT_THIRD_PARTY_COOKIES;
   SELF_DESTRUCT_THIRD_PARTY_COOKIES_TIME; SELF_DESTRUCT_FIRST_PARTY_COOKIES;
   SELF_DESTRUCT_FIRST_PARTY_COOKIES_TIME; STRIP_TRACKING_PARAMETERS;
   TRACKING_PARAMETERS].

Definition DEFAULT_FILTERS_UPDATE_PERIOD : Z := -1.
Definition DEFAULT_FIRST_PARTY_COOKIES_SELF_DESTRUCT_MIN : Z := 4320.
Definition DEFAULT_THIRD_PARTY_COOKIES_SELF_DESTRUCT_MIN : Z := 2880.
Definition DEFAULT_TRACKING_PARAMETERS : string :=
  "utm_source,utm_medium,utm_term,utm_campaign,utm_content,utm_name,"
  +:+ "utm_cid,utm_reader,utm_viz_id,utm_pubreferrer,utm_swu,utm_referrer,"
  +:+ "utm_social,utm_social-type,utm_place,utm_userid,utm_channel,"
  +:+ "fb_action_ids,fb_action_types,fb_ref,fb_source".

(** The values a setting holds. *)
Inductive Value :=
  | Undefined
  | Null
  | Bool (b : bool)
  | Num (n : Z)
  | Str (s : string).

(** Truthiness of a value. *)
Definition truthyValue (v : Value) : bool :=
  match v with
  | Undefined | Null => false
  | Bool b => b
  | Num n => negb (n =? 0)
  | Str s => negb (String.eqb s EmptyString)
  end.

(** Calls that leave the module. *)
Inductive Effect :=
  | ConsoleError (propertyName : string)
  | Notify (propertyName : string) (propertyValue : Value)
  | NotifyListeners (propertyName : string) (propertyValue : Value).

(** The module state: the cache [properties] and the storage behind it,
    [purify.localStorage], with its texts and whether it is initialized. *)
Record State := {
  properties : gmap string Value;
  items : gmap string string;
  isInitialized : bool
}.

Section Store.

(** Collaborators declared outside the embedded files: the browser tests of
    [purify.utils.browser] and [purify.prefs.mobile], and the JSON codec, for
    which [None] stands for a thrown error. *)
Variables isWindowsOs isMacOs isEdgeBrowser isChromeBrowser : bool.
Variable mobile : Value.
Variable parse : string -> option Value.
Variable stringify : Value -> string.

(** [defaultProperties.defaults]: every setting is false, then the
    assignments that follow, the later ones winning. *)
Definition defaults : gmap string Value :=
  fold_left (fun m kv => <[kv.1 := kv.2]> m)
    [(DISABLE_SHOW_PURIFY_PROMO_INFO,
      Bool (negb isWindowsOs && negb isMacOs || isEdgeBrowser));
     (DISABLE_SAFEBROWSING, Bool true);
     (DISABLE_COLLECT_HITS, Bool true);
     (DEFAULT_WHITE_LIST_MODE, Bool true);
     (USE_OPTIMIZED_FILTERS, mobile);
     (DISABLE_DETECT_FILTERS, Bool false);
     (DISABLE_SHOW_APP_UPDATED_NOTIFICATION, Bool false);
     (FILTERS_UPDATE_PERIOD, Num DEFAULT_FILTERS_UPDATE_PERIOD);
     (DISABLE_STEALTH_MODE, Bool true);
     (HIDE_REFERRER, Bool true);
     (HIDE_SEARCH_QUERIES, Bool true);
     (SEND_DO_NOT_TRACK, Bool true);
     (BLOCK_CHROME_CLIENT_DATA, Bool isChromeBrowser);
     (BLOCK_WEBRTC, Bool false);
     (SELF_DESTRUCT_THIRD_PARTY_COOKIES, Bool true);
     (SELF_DESTRUCT_THIRD_PARTY_COOKIES_TIME,
      Num DEFAULT_THIRD_PARTY_COOKIES_SELF_DESTRUCT_MIN);
     (SELF_DESTRUCT_FIRST_PARTY_COOKIES, Bool false);
     (SELF_DESTRUCT_FIRST_PARTY_COOKIES_TIME,
      Num DEFAULT_FIRST_PARTY_COOKIES_SELF_DESTRUCT_MIN);
     (STRIP_TRACKING_PARAMETERS, Bool true);
     (TRACKING_PARAMETERS, Str DEFAULT_TRACKING_PARAMETERS)]
    (fold_left (fun m k => <[k := Bool false]> m) settings ∅).

Definition set_property (s : State) (propertyName : string)
    (propertyValue : Value) : State :=
  {| properties := <[propertyName := propertyValue]> (properties s);
     items := items s; isInitialized := isInitialized s |}.

(** [getProperty]: the state after the call, the value returned and the
    calls made. *)
Definition getProperty (s : State) (propertyName : string)
  : State * Value * list Effect :=
  match properties s !! propertyName with
  | Some v => (s, v, [])
  | None =>
      if negb (isInitialized s)
      then (s, default Undefined (defaults !! propertyName), [])
      else
        let '(propertyValue, log) :=
          match items s !! propertyName with
          | Some text =>
              match parse text with
              | Some v => (v, [])
              | None => (Null, [ConsoleError propertyName])
              end
          | None =>
              match defaults !! propertyName with
              | Some v => (v, [])
              | None => (Null, [])
              end
          end in
        (set_property s propertyName propertyValue, propertyValue, log)
  end.

Definition setProperty (s : State) (propertyName : string)
    (propertyValue : Value) : State * list Effect :=
  ({| properties := <[propertyName := propertyValue]> (properties s);
      items := <[propertyName := stringify propertyValue]> (items s);
      isInitialized := isInitialized s |},
   [Notify propertyName propertyValue;
    NotifyListeners propertyName propertyValue]).

End Store.

End Settings.

(** ** The text of the user rules *)

Module UserRules.

(** [updateUserRulesText]: the lines handed to [updateUserFilterRules]. *)
Definition updateUserRulesText (content : string) : list string :=
  if (0 <? String.length content)%nat then split "010" content else [].

(** [getUserRulesText]: the text handed to the callback for the rules read
    from the storage, which may be missing. *)
Definition getUserRulesText (rulesText : option (list string)) : string :=
  String.concat (String "010" EmptyString) (default [] rulesText).

End UserRules.

(** ** Content types of browser-utils.js *)

Module ContentTypes.

Definition objectContentTypes : string := ".jar.swf.".
Definition mediaContentTypes : string :=
  ".mp4.flv.avi.m3u.webm.mpeg.3gp.3gpp.3g2.3gpp2.ogg.mov.qt.".
Definition fontContentTypes : string := ".ttf.otf.woff.woff2.eot.".
Definition imageContentTypes : string := ".ico.png.gif.jpg.jpeg.webp.".

(** [s.slice(-n)]: the last [n] characters of the string, the whole string
    when it is shorter. *)
Fixpoint slice_last (n : nat) (s : string) : string :=
  match s with
  | EmptyString => EmptyString
  | String _ rest =>
      if (n <=? String.length rest)%nat then slice_last n rest else s
  end.

(** [s.slice(s.lastIndexOf(dot))]: the text from the last dot on; [None]
    stands for the index -1 of a string without a dot. *)
Fixpoint fromLastDot (s : string) : option string :=
  match s with
  | EmptyString => None
  | String c rest =>
      match fromLastDot rest with
      | Some ext => Some ext
      | None => if Ascii.eqb c "." then Some s else None
      end
  end.

(** [text.indexOf(pattern) !== -1] *)
Fixpoint includes (text pattern : string) : bool :=
  String.prefix pattern text
  || match text with
     | EmptyString => false
     | String _ rest => includes rest pattern
     end.

Definition parseContentTypeFromUrlPath (path : string)
  : option RequestType :=
  let ext := slice_last 6 path in
  match fromLastDot ext with
  | None => None
  | Some ext =>
      let ext := ext +:+ "." in
      if includes objectContentTypes ext then Some OBJECT
      else if includes mediaContentTypes ext then Some MEDIA
      else if includes fontContentTypes ext then Some FONT
      else if includes imageContentTypes ext then Some IMAGE
      else None
  end.

(** The parts of a dotted list that stand between two dots. *)
Definition between_dots (types : string) : list string :=
  removelast (tail (split "." types)).

End ContentTypes.

(** ** Concrete collaborators and inputs used to instantiate the properties *)

Module Samples.

Definition tab1 : Tab := {| tabId := 1 |}.

(** A ledger whose rules are numbered and whose elements are their HTML. *)
Definition LState : Type := @Ledger.State nat string.

Definition fresh : LState := Ledger.initial.

(** A [record] call without referrer and origin, on [tab1]. *)
Definition recordCall (id url : string) (ty : RequestType)
  : @Ledger.Call nat string :=
  Ledger.Record_ id url EmptyString EmptyString ty tab1.

Definition recordOn (s : LState) (id url : string) (ty : RequestType)
  : LState * list (@Ledger.Event nat string) :=
  Ledger.record s id url EmptyString EmptyString ty tab1.

(** One open document request with two replace rules bound to it. *)
Definition bound : LState :=
  (Ledger.run Ledger.initial
     [recordCall "r1" "http://a.example/" DOCUMENT;
      Ledger.Update "r1"
        {| Ledger.u_requestState := None;
           Ledger.u_contentModifyingState := None;
           Ledger.u_requestRule := Some (Some 5%nat);
           Ledger.u_replaceRules := Some (Some [7%nat; 8%nat]);
           Ledger.u_cspRules := Some (Some [9%nat]);
           Ledger.u_stealthActions := Some (Some 16);
           Ledger.u_requestHeaders := None;
           Ledger.u_responseHeaders := None;
           Ledger.u_modifiedRequestHeaders := None;
           Ledger.u_modifiedResponseHeaders := None |};
      Ledger.BindContentRule "r1" 11%nat "<div>"]).1.

(** The context of that request. *)
Definition bound_context : @Ledger.RequestContext nat string :=
  {| Ledger.requestId := "r1"; Ledger.requestUrl := "http://a.example/";
     Ledger.referrerUrl := EmptyString;
     Ledger.originUrl := EmptyString;
     Ledger.requestType := DOCUMENT; Ledger.tab := tab1;
     Ledger.eventId := 1;
     Ledger.requestState := Ledger.PROCESSING;
     Ledger.contentModifyingState := Ledger.NONE;
     Ledger.requestHeaders := None; Ledger.modifiedRequestHeaders := None;
     Ledger.responseHeaders := None; Ledger.modifiedResponseHeaders := None;
     Ledger.requestRule := Some 5%nat;
     Ledger.replaceRules := Some [7%nat; 8%nat];
     Ledger.contentRules := Some [11%nat];
     Ledger.cspRules := Some [9%nat];
     Ledger.elements := Some [(11%nat, ["<div>"])];
     Ledger.stealthActions := Some 16 |}.

(** The same ledger once content modification has started. *)
Definition modifying : LState :=
  (Ledger.onContentModificationStarted bound "r1").1.

(** *** Collaborators of the stealth service *)

Definition sample_settings : Stealth.Settings :=
  {| Stealth.DISABLE_STEALTH_MODE := false;
     Stealth.isFilteringDisabled := false;
     Stealth.STRIP_TRACKING_PARAMETERS := true;
     Stealth.TRACKING_PARAMETERS := "utm_source,utm_medium, fb_*" |}.

(** Every tab is filtered, its main frame is known, no whitelist rule
    applies. *)
Definition sample_removeTrackers (storage : LState) (requestId : string)
  : option string * list (@Ledger.Event nat string) :=
  Stealth.removeTrackersFromUrl sample_settings (fun _ => false)
    (fun _ => Some "http://a.example/") (fun _ _ _ => None) (fun _ => false)
    (fun _ _ _ => None) storage requestId.

(** The storage after a document request for the given URL was recorded. *)
Definition document (url : string) : LState :=
  (recordOn fresh "r1" url DOCUMENT).1.

(** *** Collaborators of the safebrowsing filter *)

(** The text between the scheme and the path of a URL. *)
Definition sample_getHost (url : string) : option string :=
  match split "/" url with
  | _ :: _ :: host :: _ => Some host
  | _ => None
  end.

Definition is_digit (c : ascii) : bool :=
  let n := nat_of_ascii c in ((48 <=? n) && (n <=? 57))%nat.

Fixpoint all_digits (s : string) : bool :=
  match s with
  | EmptyString => true
  | String c s' => is_digit c && all_digits s'
  end.

(** Four groups of one to three digits. *)
Definition sample_isIpv4 (host : string) : bool :=
  match split "." host with
  | [a; b; c; d] =>
      forallb (fun x => all_digits x
                        && (1 <=? String.length x)%nat
                        && (String.length x <=? 3)%nat) [a; b; c; d]
  | _ => false
  end.

Definition sample_isIpv6 (host : string) : bool :=
  (2 <=? length (split ":" host))%nat.

(** A stand-in for SHA-256 that keeps its argument readable. *)
Definition sample_hash (text : string) : string := text.

(** Caches kept as association lists, the latest entry first. *)
Definition SCache : Type := list (option string * string).

Fixpoint sample_getValue (c : SCache) (key : string) : option string :=
  match c with
  | [] => None
  | (k, v) :: c' =>
      if decide (k = Some key) then Some v else sample_getValue c' key
  end.

Definition sample_saveValue (c : SCache) (key : option string) (v : string)
  : SCache := (key, v) :: c.

Definition SMap : Type := list (string * bool).

Fixpoint sample_lru_get (m : SMap) (key : string) : option bool :=
  match m with
  | [] => None
  | (k, v) :: m' => if String.eqb k key then Some v else sample_lru_get m' key
  end.

Definition sample_lru_set (m : SMap) (key : string) (v : bool) : SMap :=
  (key, v) :: m.

Definition SBState : Type := Safebrowsing.State SCache SMap.

Definition sb_lookup : SBState -> Z -> string
                       -> SBState * list Safebrowsing.Effect :=
  Safebrowsing.lookupUrlWithCallback sample_getHost sample_isIpv4
    sample_isIpv6 sample_hash SCache sample_getValue sample_saveValue
    SMap sample_lru_get.

Definition sb_response : SBState -> Z -> Safebrowsing.Pending
                         -> Safebrowsing.Response
                         -> SBState * list Safebrowsing.Effect :=
  Safebrowsing.onLookupResponse sample_hash SCache sample_saveValue
    SMap sample_lru_set.

(** Nothing cached, nothing queried, not suspended. *)
Definition sb_empty : SBState :=
  {| Safebrowsing.cache := []; Safebrowsing.requestsCache := [];
     Safebrowsing.localStorage := ∅ |}.

(** The cache knows evil.com as malware. *)
Definition sb_cached : SBState :=
  {| Safebrowsing.cache := [(Some "EVIL.COM/", "malware")];
     Safebrowsing.requestsCache := [];
     Safebrowsing.localStorage := ∅ |}.

(** The prefixes of www.example.org and example.org were queried before. *)
Definition sb_queried : SBState :=
  {| Safebrowsing.cache := [];
     Safebrowsing.requestsCache := [("WWW.", true); ("EXAM", true)];
     Safebrowsing.localStorage := ∅ |}.

End Samples.

(** ** Further inputs: requests under the stealth service, the settings *)

Module RequestSamples.

(** A main frame whose stealth whitelist rule is rule 7. *)
Definition main_frame : string := "http://main.example/".

Definition stealth_rule : nat := 7.

Definition request_settings : StealthRequests.Settings :=
  {| StealthRequests.stealth := Samples.sample_settings;
     StealthRequests.HIDE_REFERRER := true;
     StealthRequests.HIDE_SEARCH_QUERIES := true;
     StealthRequests.BLOCK_CHROME_CLIENT_DATA := true;
     StealthRequests.SEND_DO_NOT_TRACK := true;
     StealthRequests.SELF_DESTRUCT_FIRST_PARTY_COOKIES := false;
     StealthRequests.SELF_DESTRUCT_FIRST_PARTY_COOKIES_TIME := 4320;
     StealthRequests.SELF_DESTRUCT_THIRD_PARTY_COOKIES := true;
     StealthRequests.SELF_DESTRUCT_THIRD_PARTY_COOKIES_TIME := 2880 |}.

(** Two URLs are third parties when their hosts differ. *)
Definition sample_isThirdPartyRequest (requestUrl referrer : string) : bool :=
  negb (bool_decide
          (Samples.sample_getHost requestUrl
           = Samples.sample_getHost referrer)).

Definition sample_isDocumentWhiteList (rule : nat) : bool :=
  Nat.eqb rule stealth_rule.

(** The request filter knows one stealth rule, for the main frame. *)
Definition sample_findStealthWhiteListRule (url referrer : string)
    (requestType : RequestType) : option nat :=
  if String.eqb url main_frame then Some stealth_rule else None.

Definition request_headers : list Header :=
  [{| name := "referer"; value := "https://www.google.com/search?q=x" |};
   {| name := "X-Client-Data"; value := "abc" |};
   {| name := "Accept"; value := "text/html" |}].

(** [processRequestHeaders] on a tab that is filtered, with the main frame
    above, no whitelist rule, and the given stealth rules of the filter. *)
Definition sample_processRequestHeaders
    (findStealthWhiteListRule : string -> string -> RequestType -> option nat)
    (storage : Samples.LState) (requestId : string)
    (requestHeaders : list Header) :=
  StealthRequests.processRequestHeaders request_settings
    Samples.sample_getHost sample_isThirdPartyRequest (fun _ => false)
    (fun _ => Some main_frame) (fun _ _ _ => None)
    sample_isDocumentWhiteList findStealthWhiteListRule storage requestId
    requestHeaders.

(** A context without content rules. *)
Definition plain_context : @Ledger.RequestContext nat string :=
  Ledger.newContext "r1" "http://a.example/" EmptyString EmptyString
    DOCUMENT Samples.tab1 1.

(** An initialized profile in which nothing was stored or read. *)
Definition new_profile : Settings.State :=
  {| Settings.properties := ∅; Settings.items := ∅;
     Settings.isInitialized := true |}.

(** The request sent for www.example.org by a filter that knows nothing. *)
Definition pending_example : Safebrowsing.Pending :=
  {| Safebrowsing.p_host := "www.example.org";
     Safebrowsing.p_hashesMap :=
       [("WWW.EXAMPLE.ORG/", "www.example.org");
        ("EXAMPLE.ORG/", "example.org")];
     Safebrowsing.p_shortHashes := ["WWW."; "EXAM"] |}.

Definition sb_trust : Samples.SBState -> string -> Samples.SBState :=
  Safebrowsing.addToSafebrowsingTrusted Samples.sample_getHost
    Samples.sample_hash Samples.SCache Samples.sample_saveValue Samples.SMap.

End RequestSamples.

(** * Properties of the request ledger *)

Section LedgerProperties.

Import Ledger.

Context {Rule Element : Type} `{EqDecision Rule}.

Abbreviation State := (@Ledger.State Rule Element).
Abbreviation RequestContext := (@Ledger.RequestContext Rule Element).
Abbreviation Event := (@Ledger.Event Rule Element).

Lemma js_succ_exact n : n < MAX_SAFE -> js_succ n = n + 1.
Proof. intros Hn. unfold js_succ. destruct (Z.ltb_spec n MAX_SAFE); lia. Qed.

Lemma js_succ_mono n : n <= js_succ n.
Proof. unfold js_succ. destruct (n <? MAX_SAFE); lia. Qed.

Lemma lookup_set_context (s : State) id c :
  contexts (set_context s id c) !! id = Some c.
Proof. apply lookup_insert_eq. Qed.

Lemma lookup_delete_context (s : State) id :
  contexts (delete_context s id) !! id = None.
Proof. apply lookup_delete_eq. Qed.

(** An update that only sets a lifecycle field leaves the bindings alone. *)
Lemma update_contentModifying (s : State) id c v :
  contexts s !! id = Some c ->
  update s id (contentModifying v)
  = (set_context s id (set_contentModifyingState c v), []).
Proof. intros Hc. unfold update. rewrite Hc. by destruct c. Qed.

Lemma update_request_done (s : State) id c :
  contexts s !! id = Some c ->
  update s id
    {| u_requestState := Some DONE; u_contentModifyingState := None;
       u_requestRule := None; u_replaceRules := None; u_cspRules := None;
       u_stealthActions := None; u_requestHeaders := None;
       u_responseHeaders := None; u_modifiedRequestHeaders := None;
       u_modifiedResponseHeaders := None |}
  = (set_context s id (set_requestState c DONE), []).
Proof. intros Hc. unfold update. rewrite Hc. by destruct c. Qed.

Lemma update_absent (s : State) id u :
  contexts s !! id = None -> update s id u = (s, []).
Proof. intros Hc. unfold update. by rewrite Hc. Qed.

Lemma remove_absent (s : State) id :
  contexts s !! id = None -> remove s id = (s, [], Normal).
Proof. intros Hc. unfold remove. by rewrite Hc. Qed.

(** With its elements map in place the loop over the content rules ends
    normally. *)
Lemma flushContentRules_normal (c : RequestContext) rules m :
  (flushContentRules c rules (Some m)).2 = Normal.
Proof.
  revert m. induction rules as [|r rules IH]; intros m; simpl; [done|].
  specialize (IH (elements_delete m r)).
  destruct (flushContentRules c rules (Some (elements_delete m r)))
    as [[els ev] k]. exact IH.
Qed.

Lemma flushContent_normal (c : RequestContext) :
  context_wf c -> (flushContent c).2 = Normal.
Proof.
  intros Hwf. unfold flushContent.
  destruct (contentRules c) as [rules|] eqn:Hr; [|done].
  destruct (Hwf (ltac:(eauto))) as [m Hm]. rewrite Hm.
  pose proof (flushContentRules_normal c rules m) as Hn.
  destruct (flushContentRules c rules (Some m)) as [[els ev] k]. exact Hn.
Qed.

(** The flush of the content axis reads the tab, the URL, the type and the
    bindings of the context, not its lifecycle fields. *)
Lemma flushContentRules_ext (c c' : RequestContext) rules els :
  tab c = tab c' -> requestUrl c = requestUrl c' ->
  requestType c = requestType c' ->
  flushContentRules c rules els = flushContentRules c' rules els.
Proof.
  intros Ht Hu Hty. revert els.
  induction rules as [|r rules IH]; intros els; simpl; [done|].
  destruct els as [m|]; [|done].
  by rewrite IH, Ht, Hu, Hty.
Qed.

Lemma flushContent_lifecycle (c : RequestContext) v :
  flushContent (set_contentModifyingState c v) = flushContent c.
Proof.
  unfold flushContent.
  change (contentRules (set_contentModifyingState c v)) with (contentRules c).
  change (replaceRules (set_contentModifyingState c v)) with (replaceRules c).
  change (elements (set_contentModifyingState c v)) with (elements c).
  destruct (contentRules c) as [rules|]; [|done].
  by rewrite (flushContentRules_ext (set_contentModifyingState c v) c).
Qed.

Lemma flushContent_requestState (c : RequestContext) v :
  flushContent (set_requestState c v) = flushContent c.
Proof.
  unfold flushContent.
  change (contentRules (set_requestState c v)) with (contentRules c).
  change (replaceRules (set_requestState c v)) with (replaceRules c).
  change (elements (set_requestState c v)) with (elements c).
  destruct (contentRules c) as [rules|]; [|done].
  by rewrite (flushContentRules_ext (set_requestState c v) c).
Qed.

(** [remove] when only the network axis is done. *)
Lemma remove_context_request (c : RequestContext) :
  requestState c = DONE -> contentModifyingState c <> DONE ->
  remove_context c
  = (set_requestState c NONE, networkFlush c,
     bool_decide (contentModifyingState c = NONE), Normal).
Proof.
  intros Hr Hc. unfold remove_context, networkFlush.
  rewrite (decide_True _ _ Hr). simpl.
  rewrite (decide_False _ _ Hc). simpl.
  by rewrite app_nil_r.
Qed.

(** [remove] when only the content axis is done. *)
Lemma remove_context_content (c : RequestContext) :
  requestState c <> DONE -> contentModifyingState c = DONE -> context_wf c ->
  exists c',
    remove_context c
    = (c', contentFlush c, bool_decide (requestState c = NONE), Normal)
    /\ requestState c' = requestState c
    /\ contentModifyingState c' = NONE.
Proof.
  intros Hr Hc Hwf. unfold remove_context, contentFlush.
  rewrite (decide_False _ _ Hr). rewrite (decide_True _ _ Hc).
  pose proof (flushContent_normal c Hwf) as Hn.
  rewrite flushContent_lifecycle.
  destruct (flushContent c) as [[[els ev] hits] k]. simpl in Hn. subst k.
  simpl. rewrite andb_true_r.
  eexists. split; [reflexivity|]. by split.
Qed.

Lemma flushContent_ext (c c' : RequestContext) :
  tab c = tab c' -> requestUrl c = requestUrl c' ->
  requestType c = requestType c' -> eventId c = eventId c' ->
  replaceRules c = replaceRules c' -> contentRules c = contentRules c' ->
  elements c = elements c' ->
  flushContent c = flushContent c'.
Proof.
  intros Ht Hu Hty He Hrr Hcr Hel. unfold flushContent.
  rewrite Hrr, Hcr, Hel, Ht, He.
  destruct (contentRules c') as [rules|]; [|done].
  by rewrite (flushContentRules_ext c c').
Qed.

Lemma onContentModificationStarted_present (s : State) id c :
  contexts s !! id = Some c ->
  onContentModificationStarted s id
  = (set_context s id (set_contentModifyingState c PROCESSING), []).
Proof. apply update_contentModifying. Qed.

(** [onRequestCompleted] on a context whose content axis is not done: the
    network axis is flushed, and the context goes away only if the content
    axis reads NONE. *)
Lemma onRequestCompleted_present (s : State) id c :
  contexts s !! id = Some c -> contentModifyingState c <> DONE ->
  onRequestCompleted s id
  = (if bool_decide (contentModifyingState c = NONE)
     then delete_context (set_context s id (set_requestState c DONE)) id
     else set_context (set_context s id (set_requestState c DONE)) id
            (set_requestState c NONE),
     networkFlush c, Normal).
Proof.
  intros Hc Hcm. unfold onRequestCompleted.
  rewrite (update_request_done s id c Hc).
  unfold remove. rewrite lookup_set_context.
  rewrite remove_context_request by done. simpl.
  by destruct (bool_decide (contentModifyingState c = NONE)).
Qed.

(** [onContentModificationFinished] on a context whose network axis is not
    done: the content axis is flushed, and the context goes away only if the
    network axis reads NONE. *)
Lemma onContentModificationFinished_present (s : State) id c :
  contexts s !! id = Some c -> requestState c <> DONE -> context_wf c ->
  exists c',
    onContentModificationFinished s id
    = (if bool_decide (requestState c = NONE)
       then delete_context
              (set_context s id (set_contentModifyingState c DONE)) id
       else set_context
              (set_context s id (set_contentModifyingState c DONE)) id c',
       contentFlush c, Normal)
    /\ requestState c' = requestState c
    /\ contentModifyingState c' = NONE
    /\ networkFlush c' = networkFlush c.
Proof.
  intros Hc Hr Hwf. unfold onContentModificationFinished.
  rewrite (update_contentModifying s id c DONE Hc).
  unfold remove. rewrite lookup_set_context.
  destruct (remove_context_content (set_contentModifyingState c DONE))
    as (c' & Hrm & Hrs & Hcs); [done..|].
  pose proof Hrm as Hrm'. unfold remove_context in Hrm'.
  rewrite decide_False in Hrm' by done.
  rewrite decide_True in Hrm' by done.
  destruct (flushContent _) as [[[els ev] hits] k] in Hrm'.
  assert (Hnf : networkFlush c' = networkFlush c).
  { destruct k; simplify_eq; reflexivity. }
  rewrite Hrm. exists c'. simpl.
  replace (contentFlush (set_contentModifyingState c DONE))
    with (contentFlush c).
  - split; [|done]. by destruct (bool_decide (requestState c = NONE)).
  - unfold contentFlush. by rewrite flushContent_lifecycle.
Qed.

(** The lifecycle of a context as [record] leaves it, with each flush named
    by the code that makes it. *)
Lemma lifecycle_flushes (s : State) (id : string)
    (c : RequestContext) :
  contexts s !! id = Some c ->
  requestState c = PROCESSING ->
  contentModifyingState c = NONE ->
  context_wf c ->
  (let s1 := (onContentModificationStarted s id).1 in
   let r2 := onRequestCompleted s1 id in
   let r3 := onContentModificationFinished r2.1.1 id in
   (onContentModificationStarted s id).2 = [] /\
   r2.1.2 = networkFlush c /\ r2.2 = Normal /\
   (exists c', contexts r2.1.1 !! id = Some c' /\
               requestState c' = NONE /\
               contentModifyingState c' = PROCESSING) /\
   r3.1.2 = contentFlush c /\ r3.2 = Normal /\
   contexts r3.1.1 !! id = None)
  /\
  (let s1 := (onContentModificationStarted s id).1 in
   let r2 := onContentModificationFinished s1 id in
   let r3 := onRequestCompleted r2.1.1 id in
   r2.1.2 = contentFlush c /\ r2.2 = Normal /\
   (exists c', contexts r2.1.1 !! id = Some c' /\
               requestState c' = PROCESSING /\
               contentModifyingState c' = NONE) /\
   r3.1.2 = networkFlush c /\ r3.2 = Normal /\
   contexts r3.1.1 !! id = None)
  /\
  (let r1 := onRequestCompleted s id in
   r1.1.2 = networkFlush c /\ r1.2 = Normal /\
   contexts r1.1.1 !! id = None /\
   onContentModificationStarted r1.1.1 id = (r1.1.1, []) /\
   onContentModificationFinished r1.1.1 id = (r1.1.1, [], Normal)).
Proof.
  intros Hc Hrs Hcs Hwf.
  rewrite (onContentModificationStarted_present s id c Hc). simpl.
  set (c1 := set_contentModifyingState c PROCESSING).
  set (s1 := set_context s id c1).
  assert (Hc1 : contexts s1 !! id = Some c1) by apply lookup_set_context.
  split; [|split].
  - rewrite (onRequestCompleted_present s1 id c1 Hc1) by done.
    rewrite bool_decide_eq_false_2 by done. simpl.
    set (c2 := set_requestState c1 NONE).
    set (s2 := set_context _ id c2).
    assert (Hc2 : contexts s2 !! id = Some c2) by apply lookup_set_context.
    destruct (onContentModificationFinished_present s2 id c2 Hc2)
      as (c3 & -> & _); [done..|].
    rewrite bool_decide_eq_true_2 by done. simpl.
    repeat split; try done.
    + by exists c2.
    + unfold contentFlush.
      by rewrite (flushContent_ext c2 c).
    + apply lookup_delete_eq.
  - destruct (onContentModificationFinished_present s1 id c1 Hc1)
      as (c2 & -> & Hr2 & Hcm2 & Hnf); [by subst c1; simpl; rewrite Hrs|done|].
    rewrite bool_decide_eq_false_2 by (subst c1; simpl; by rewrite Hrs).
    simpl.
    set (s2 := set_context _ id c2).
    assert (Hc2 : contexts s2 !! id = Some c2) by apply lookup_set_context.
    rewrite (onRequestCompleted_present s2 id c2 Hc2)
      by (rewrite Hcm2; done).
    rewrite bool_decide_eq_true_2 by done. simpl.
    repeat split; try done.
    + unfold contentFlush. by rewrite (flushContent_ext c1 c).
    + exists c2. repeat split; try done. by rewrite Hr2.
    + apply lookup_delete_eq.
  - rewrite (onRequestCompleted_present s id c Hc) by (rewrite Hcs; done).
    rewrite bool_decide_eq_true_2 by done. simpl.
    set (s1' := delete_context _ id).
    assert (Hn : contexts s1' !! id = None) by apply lookup_delete_context.
    repeat split; try done.
    + unfold onContentModificationStarted. by apply update_absent.
    + unfold onContentModificationFinished.
      rewrite update_absent by done. by rewrite remove_absent.
Qed.

(** *** The flushes against the artifacts of the specification *)

Lemma filter_nonzero (a : Z) :
  filter (fun a => a <> 0) [a] = if a =? 0 then [] else [a].
Proof.
  destruct (Z.eqb_spec a 0) as [Ha|Ha].
  - by rewrite filter_cons_False by tauto.
  - by rewrite filter_cons_True by done.
Qed.

Lemma networkFlush_artifacts (c : RequestContext) :
  networkFlush c = networkArtifacts c.
Proof.
  unfold networkFlush, networkArtifacts, networkRules, flushRequest,
    recordRuleHits.
  cbn [fst snd]. rewrite !map_app, <- !app_assoc.
  destruct (requestRule c) as [r|], (cspRules c) as [rs|],
    (stealthActions c) as [a|];
    unfold default, option_list, option_rect, id;
    rewrite ?filter_nonzero, ?map_map; try destruct (a =? 0);
    reflexivity.
Qed.

Lemma elements_get_delete (m : list (Rule * list Element)) (r r' : Rule) :
  elements_get (elements_delete m r) r'
  = if decide (r' = r) then None else elements_get m r'.
Proof.
  unfold elements_delete. induction m as [|[k v] m IH]; simpl.
  - by destruct (decide (r' = r)).
  - destruct (decide (k = r)) as [->|Hk].
    + rewrite filter_cons_False by (simpl; tauto). rewrite IH.
      destruct (decide (r' = r)) as [->|Hr]; [done|].
      by rewrite decide_False by done.
    + rewrite filter_cons_True by done. simpl. rewrite IH.
      destruct (decide (k = r')) as [->|Hk'].
      * by rewrite decide_False by done.
      * done.
Qed.

(** The loop over the content rules sends the elements of each rule once, at
    the first place of the rule. *)
Lemma flushContentRules_events (c : RequestContext) (rules : list Rule) :
  forall m : list (Rule * list Element),
    (flushContentRules c rules (Some m)).1.2
    = flat_map
        (fun r => map (fun e => AddCosmeticEvent (tab c) e (requestUrl c)
                                  (requestType c) r)
                    (default [] (elements_get m r)))
        (firstOccurrences rules).
Proof.
  induction rules as [|r rules IH]; intros m; [done|].
  cbn [flushContentRules firstOccurrences flat_map].
  specialize (IH (elements_delete m r)).
  destruct (flushContentRules c rules (Some (elements_delete m r)))
    as [[els ev] k]. cbn [fst snd] in *. f_equal. rewrite IH.
  generalize (firstOccurrences rules). intros l.
  induction l as [|x l IHl]; [done|]. cbn [flat_map].
  rewrite elements_get_delete.
  destruct (decide (x = r)) as [->|Hx].
  - rewrite filter_cons_False by tauto. done.
  - rewrite filter_cons_True by done. cbn [flat_map]. by rewrite IHl.
Qed.

Lemma contentFlush_artifacts (c : RequestContext) :
  context_wf c -> contentFlush c = contentArtifacts c.
Proof.
  intros Hwf.
  unfold contentFlush, contentArtifacts, boundElements, flushContent,
    recordRuleHits.
  destruct (contentRules c) as [rules|] eqn:Hr.
  - destruct (Hwf ltac:(eauto)) as [m Hm]. rewrite Hm.
    pose proof (flushContentRules_events c rules m) as Hev.
    destruct (flushContentRules c rules (Some m)) as [[els ev] k].
    cbn [fst snd default] in *. rewrite Hev, map_app.
    destruct (replaceRules c) as [rs|]; cbn [option_list map app];
      by rewrite <- ?app_assoc, ?map_map.
  - cbn [fst snd default firstOccurrences flat_map map].
    destruct (replaceRules c) as [rs|]; cbn [option_list map app];
      by rewrite ?app_nil_r.
Qed.

(** C1 (amended).  For a context as [record] leaves it (network axis
    PROCESSING, content axis NONE), whatever was bound to it since: when
    content modification is announced before the request completes, the
    network-axis artifacts and the content-axis artifacts are each sent
    exactly once, by the call that completes the axis, in either order of the
    two completions; after the first completion the context is still in the
    map, with the completed axis back to NONE and the other one still
    PROCESSING, and the second completion removes it.  When
    [onRequestCompleted] comes first the content axis reads NONE, so the
    context is removed at once after the network artifacts alone and the
    later content-modification calls do nothing.  The artifacts are those the
    specification lists: the bindings and events of the axis, then a rule hit
    for its rules. *)
Theorem lifecycle_flushes_each_axis_once (s : State) (id : string)
    (c : RequestContext) :
  contexts s !! id = Some c ->
  requestState c = PROCESSING ->
  contentModifyingState c = NONE ->
  context_wf c ->
  (let s1 := (onContentModificationStarted s id).1 in
   let r2 := onRequestCompleted s1 id in
   let r3 := onContentModificationFinished r2.1.1 id in
   (onContentModificationStarted s id).2 = [] /\
   r2.1.2 = networkArtifacts c /\ r2.2 = Normal /\
   (exists c', contexts r2.1.1 !! id = Some c' /\
               requestState c' = NONE /\
               contentModifyingState c' = PROCESSING) /\
   r3.1.2 = contentArtifacts c /\ r3.2 = Normal /\
   contexts r3.1.1 !! id = None)
  /\
  (let s1 := (onContentModificationStarted s id).1 in
   let r2 := onContentModificationFinished s1 id in
   let r3 := onRequestCompleted r2.1.1 id in
   r2.1.2 = contentArtifacts c /\ r2.2 = Normal /\
   (exists c', contexts r2.1.1 !! id = Some c' /\
               requestState c' = PROCESSING /\
               contentModifyingState c' = NONE) /\
   r3.1.2 = networkArtifacts c /\ r3.2 = Normal /\
   contexts r3.1.1 !! id = None)
  /\
  (let r1 := onRequestCompleted s id in
   r1.1.2 = networkArtifacts c /\ r1.2 = Normal /\
   contexts r1.1.1 !! id = None /\
   onContentModificationStarted r1.1.1 id = (r1.1.1, []) /\
   onContentModificationFinished r1.1.1 id = (r1.1.1, [], Normal)).
Proof.
  intros Hc Hrs Hcs Hwf.
  rewrite <- networkFlush_artifacts, <- (contentFlush_artifacts c Hwf).
  by apply lifecycle_flushes.
Qed.

(** *** record *)

Lemma record_unfold (s : State) id url ref origin ty t :
  record s id url ref origin ty t
  = ({| contexts :=
          <[id := newContext id url ref origin ty t (js_succ (nextEventId s))]>
            (contexts s);
        nextEventId := js_succ (nextEventId s) |},
     (if bool_decide (ty = DOCUMENT)
         && negb (bool_decide (is_Some (contexts s !! id)))
      then [ClearEventsByTabId (tabId t)] else [])
     ++ [AddHttpRequestEvent t url ref ty None
           (Some (js_succ (nextEventId s)))]).
Proof. reflexivity. Qed.

Lemma clears_iff (s : State) id ty :
  bool_decide (ty = DOCUMENT) && negb (bool_decide (is_Some (contexts s !! id)))
  = true
  <-> ty = DOCUMENT /\ contexts s !! id = None.
Proof.
  rewrite andb_true_iff, bool_decide_eq_true, negb_true_iff,
    bool_decide_eq_false, eq_None_not_Some. done.
Qed.

(** C2.  [record] clears the filtering log of the tab exactly when the request
    is a DOCUMENT request and no context exists for its id.  A second [record]
    with the same id does not clear it, stores its context under the same id
    with a fresh, greater event id, and each of the two calls sends one
    request event, carrying the event id of the call, to the filtering log. *)
Theorem record_redirect_keeps_log (s : State) (id : string)
    (urlA refA originA : string) (tyA : RequestType) (tA : Tab)
    (urlB refB originB : string) (tyB : RequestType) (tB : Tab) :
  nextEventId s + 1 < MAX_SAFE ->
  let r1 := record s id urlA refA originA tyA tA in
  let r2 := record r1.1 id urlB refB originB tyB tB in
  (forall tid, ClearEventsByTabId tid ∈ r1.2 <->
               tid = tabId tA /\ tyA = DOCUMENT /\ contexts s !! id = None) /\
  (forall tid, ClearEventsByTabId tid ∉ r2.2) /\
  (exists c1 c2,
     contexts r1.1 !! id = Some c1 /\ contexts r2.1 !! id = Some c2 /\
     requestId c2 = id /\ requestUrl c2 = urlB /\
     eventId c1 < eventId c2 /\
     List.filter isRequestEvent r1.2
     = [AddHttpRequestEvent tA urlA refA tyA None (Some (eventId c1))] /\
     r2.2 = [AddHttpRequestEvent tB urlB refB tyB None (Some (eventId c2))]).
Proof.
  intros Hn r1 r2. subst r1 r2. rewrite !record_unfold. simpl.
  rewrite lookup_insert_eq.
  rewrite (bool_decide_eq_true_2 (is_Some (Some _))) by eauto.
  rewrite andb_false_r. simpl.
  split; [|split].
  - intros tid. rewrite elem_of_app, list_elem_of_singleton.
    pose proof (clears_iff s id tyA) as Hb.
    destruct (bool_decide (tyA = DOCUMENT)
              && negb (bool_decide (is_Some (contexts s !! id)))).
    + rewrite list_elem_of_singleton. split.
      * intros [[= ->]|[=]]. split; [done|]. by apply Hb.
      * intros (-> & _). by left.
    + split.
      * intros [Hin|[=]]. by apply elem_of_nil in Hin.
      * intros (_ & Hx). apply Hb in Hx. discriminate.
  - intros tid. by rewrite list_elem_of_singleton.
  - eexists _, _. rewrite !lookup_insert_eq.
    split; [reflexivity|]. split; [reflexivity|]. simpl.
    split; [done|]. split; [done|].
    split; [|split; [|done]].
    + rewrite !js_succ_exact; lia.
    + destruct (bool_decide (tyA = DOCUMENT)
                && negb (bool_decide (is_Some (contexts s !! id)))); simpl.
      * done.
      * done.
Qed.

(** C10.  A [record] for an id whose context is still open stores the object
    literal of [record] in its place: every rule binding, every header
    snapshot and the stealth actions of the old context are gone, the network
    axis is PROCESSING and the content axis NONE, whatever the old context
    held. *)
Theorem record_replaces_context (s : State) (id : string)
    (old : RequestContext) (url ref origin : string) (ty : RequestType)
    (t : Tab) :
  contexts s !! id = Some old ->
  let s' := (record s id url ref origin ty t).1 in
  contexts s' !! id
  = Some (newContext id url ref origin ty t (js_succ (nextEventId s))) /\
  forall c, contexts s' !! id = Some c ->
    requestRule c = None /\ replaceRules c = None /\ cspRules c = None /\
    contentRules c = None /\ elements c = None /\
    requestHeaders c = None /\ modifiedRequestHeaders c = None /\
    responseHeaders c = None /\ modifiedResponseHeaders c = None /\
    stealthActions c = None /\
    requestState c = PROCESSING /\ contentModifyingState c = NONE.
Proof.
  intros _ s'. subst s'. rewrite record_unfold. simpl.
  rewrite lookup_insert_eq. split; [done|].
  intros c [= <-]. repeat split.
Qed.

(** *** The event counter *)

Lemma issuedEventIds_app (a b : list Event) :
  issuedEventIds (a ++ b) = issuedEventIds a ++ issuedEventIds b.
Proof. apply omap_app. Qed.

Lemma issuedEventIds_map_nil {A} (f : A -> Event) (l : list A) :
  (forall x, issuedEventIds [f x] = []) -> issuedEventIds (map f l) = [].
Proof.
  intros Hf. induction l as [|x l IH]; [done|].
  change (map f (x :: l)) with ([f x] ++ map f l).
  by rewrite issuedEventIds_app, Hf, IH.
Qed.

Lemma issued_flushContentRules (c : RequestContext) rules els :
  issuedEventIds (flushContentRules c rules els).1.2 = [].
Proof.
  revert els. induction rules as [|r rules IH]; intros els; simpl; [done|].
  destruct els as [m|]; [|done].
  specialize (IH (Some (elements_delete m r))).
  destruct (flushContentRules c rules _) as [[els' ev'] k]. simpl in *.
  rewrite issuedEventIds_app, IH, app_nil_r.
  by apply issuedEventIds_map_nil.
Qed.

Lemma issued_remove_context (c : RequestContext) :
  issuedEventIds (remove_context c).1.1.2 = [].
Proof.
  assert (Hreq : issuedEventIds (flushRequest c).1 = []).
  { unfold flushRequest. simpl. rewrite !issuedEventIds_app.
    destruct (requestRule c), (cspRules c), (stealthActions c) as [a|];
      simpl; rewrite ?issuedEventIds_map_nil by done;
      try destruct (a =? 0); done. }
  assert (Hcont : forall c' : RequestContext,
             issuedEventIds (flushContent c').1.1.2 = []).
  { intros c'. unfold flushContent.
    destruct (contentRules c') as [rules|].
    - pose proof (issued_flushContentRules c' rules (elements c')) as Hx.
      destruct (flushContentRules c' rules (elements c')) as [[els ev] k].
      simpl in *. rewrite issuedEventIds_app, Hx.
      by destruct (replaceRules c').
    - simpl. by destruct (replaceRules c'). }
  assert (Hhits : forall (c' : RequestContext) hits,
             issuedEventIds (recordRuleHits c' hits) = []).
  { intros c' hits. by apply issuedEventIds_map_nil. }
  unfold remove_context.
  destruct (decide (requestState c = DONE)); cbv beta iota zeta;
    destruct (decide (contentModifyingState _ = DONE)); cbv beta iota zeta;
    try (match goal with
         | |- context [flushContent ?x] =>
             specialize (Hcont x);
             destruct (flushContent x) as [[[els ev] hits] k];
             cbn [fst snd] in Hcont; destruct k
         end);
    cbn [fst snd];
    rewrite ?issuedEventIds_app, ?Hreq, ?Hcont, ?Hhits; done.
Qed.

Lemma eventId_remove_context (c : RequestContext) :
  eventId (remove_context c).1.1.1 = eventId c.
Proof.
  unfold remove_context.
  destruct (decide (requestState c = DONE)); simpl;
    destruct (decide (contentModifyingState _ = DONE)); simpl;
    try destruct (flushContent _) as [[[els ev] hits] k]; simpl;
    try destruct k; done.
Qed.

Lemma eventId_update_context (c : RequestContext) u :
  eventId (update_context c u).1 = eventId c.
Proof.
  unfold update_context. simpl.
  by destruct (u_requestState u), (u_contentModifyingState u).
Qed.

Lemma remove_counter (s : State) id :
  nextEventId (remove s id).1.1 = nextEventId s
  /\ issuedEventIds (remove s id).1.2 = [].
Proof.
  unfold remove. destruct (contexts s !! id) as [c|]; [|done].
  pose proof (issued_remove_context c) as Hi.
  destruct (remove_context c) as [[[c' ev] del] k]. simpl in *.
  by destruct del.
Qed.

Lemma update_counter (s : State) id u :
  nextEventId (update s id u).1 = nextEventId s
  /\ issuedEventIds (update s id u).2 = [].
Proof.
  unfold update. destruct (contexts s !! id) as [c|]; [|done].
  simpl. by destruct (u_requestRule u).
Qed.

(** A call either leaves the counter alone and issues no event id, or is a
    [record], which issues the next value of the counter. *)
Lemma step_counter (s : State) call :
  (nextEventId (step s call).1 = nextEventId s
   /\ issuedEventIds (step s call).2 = [])
  \/ (nextEventId (step s call).1 = js_succ (nextEventId s)
      /\ issuedEventIds (step s call).2 = [js_succ (nextEventId s)]).
Proof.
  destruct call as [id url ref origin ty t| | id u | | id | id | id];
    cbn [step].
  - right. rewrite record_unfold. simpl. split; [done|].
    by destruct (_ && _).
  - by left.
  - left. apply update_counter.
  - left. unfold bindContentRule. by destruct (contexts s !! id).
  - left. unfold onRequestCompleted.
    pose proof (update_counter s id
                  {| u_requestState := Some DONE;
                     u_contentModifyingState := None; u_requestRule := None;
                     u_replaceRules := None; u_cspRules := None;
                     u_stealthActions := None; u_requestHeaders := None;
                     u_responseHeaders := None;
                     u_modifiedRequestHeaders := None;
                     u_modifiedResponseHeaders := None |}) as [Hu1 Hu2].
    destruct (update s id _) as [s1 ev1]. simpl in *.
    pose proof (remove_counter s1 id) as [Hr1 Hr2].
    destruct (remove s1 id) as [[s2 ev2] k]. simpl in *.
    by rewrite issuedEventIds_app, Hu2, Hr2, Hr1.
  - left. apply update_counter.
  - left. unfold onContentModificationFinished.
    pose proof (update_counter s id (contentModifying DONE)) as [Hu1 Hu2].
    destruct (update s id _) as [s1 ev1]. simpl in *.
    pose proof (remove_counter s1 id) as [Hr1 Hr2].
    destruct (remove s1 id) as [[s2 ev2] k]. simpl in *.
    by rewrite issuedEventIds_app, Hu2, Hr2, Hr1.
Qed.

(** Along a run that keeps the counter below 2^53 the issued event ids
    increase strictly and lie between the counter before and after. *)
Lemma run_issued (calls : list Call) : forall s : State,
  nextEventId (run s calls).1 < MAX_SAFE ->
  nextEventId s <= nextEventId (run s calls).1
  /\ StronglySorted Z.lt (issuedEventIds (run s calls).2)
  /\ Forall (fun i => nextEventId s < i <= nextEventId (run s calls).1)
       (issuedEventIds (run s calls).2).
Proof.
  induction calls as [|call calls IH]; intros s; simpl.
  - intros _. split; [lia|]. split; constructor.
  - pose proof (step_counter s call) as Hstep.
    destruct (step s call) as [s1 ev1]. simpl in Hstep.
    specialize (IH s1).
    destruct (run s1 calls) as [s2 ev2]. simpl in *.
    intros Hlt. destruct (IH Hlt) as (Hle & Hsorted & Hall).
    rewrite issuedEventIds_app.
    destruct Hstep as [[Hn Hi]|[Hn Hi]]; rewrite Hi; simpl.
    + rewrite <- Hn. done.
    + assert (nextEventId s < MAX_SAFE)
        by (pose proof (js_succ_mono (nextEventId s)); lia).
      rewrite js_succ_exact in Hn, Hi |- * by done.
      rewrite Hn in *. split; [lia|]. split.
      * constructor; [done|].
        eapply Forall_impl; [exact Hall|]. simpl. lia.
      * constructor; [lia|].
        eapply Forall_impl; [exact Hall|]. simpl. lia.
Qed.

(** A call other than a [record] for the request leaves the event id of its
    context as it is. *)
Lemma step_keeps_eventId (s : State) call id (c c' : RequestContext) :
  is_record_for id call = false ->
  contexts s !! id = Some c ->
  contexts (step s call).1 !! id = Some c' ->
  eventId c' = eventId c.
Proof.
  assert (Hupd : forall (s0 : State) id0 u (c0 c0' : RequestContext),
             contexts s0 !! id = Some c0 ->
             contexts (update s0 id0 u).1 !! id = Some c0' ->
             eventId c0' = eventId c0).
  { intros s0 id0 u c0 c0' H0. unfold update.
    destruct (contexts s0 !! id0) as [cx|] eqn:Hx; [|simpl; congruence].
    pose proof (eventId_update_context cx u) as He.
    destruct (update_context cx u) as [cx' ev]. simpl in *.
    destruct (decide (id0 = id)) as [->|Hne].
    - rewrite lookup_insert_eq. intros [= <-]. congruence.
    - rewrite lookup_insert_ne by done. congruence. }
  assert (Hrem : forall (s0 : State) id0 (c0 c0' : RequestContext),
             contexts s0 !! id = Some c0 ->
             contexts (remove s0 id0).1.1 !! id = Some c0' ->
             eventId c0' = eventId c0).
  { intros s0 id0 c0 c0' H0. unfold remove.
    destruct (contexts s0 !! id0) as [cx|] eqn:Hx; [|simpl; congruence].
    pose proof (eventId_remove_context cx) as He.
    destruct (remove_context cx) as [[[cx' ev] del] k]. simpl in *.
    destruct (decide (id0 = id)) as [->|Hne].
    - destruct del; simpl.
      + by rewrite lookup_delete_eq.
      + rewrite lookup_insert_eq. intros [= <-]. congruence.
    - destruct del; simpl.
      + rewrite lookup_delete_ne by done. congruence.
      + rewrite lookup_insert_ne by done. congruence. }
  intros Hrec Hc.
  destruct call as [id0 url ref origin ty t| | id0 u | id0 rule el
                   | id0 | id0 | id0]; cbn [step is_record_for] in *.
  - rewrite record_unfold. simpl.
    apply bool_decide_eq_false in Hrec.
    rewrite lookup_insert_ne by done. congruence.
  - unfold recordEmulated. simpl. congruence.
  - by apply Hupd.
  - unfold bindContentRule.
    destruct (contexts s !! id0) as [cx|] eqn:Hx; [|simpl; congruence].
    simpl. destruct (decide (id0 = id)) as [->|Hne].
    + rewrite lookup_insert_eq. intros [= <-]. simpl. congruence.
    + rewrite lookup_insert_ne by done. congruence.
  - unfold onRequestCompleted.
    destruct (update s id0 _) as [s1 ev1] eqn:Hu.
    destruct (remove s1 id0) as [[s2 ev2] k] eqn:Hr. simpl.
    intros H2.
    destruct (contexts s1 !! id) as [c1|] eqn:H1.
    + transitivity (eventId c1).
      * apply (Hrem s1 id0 c1 c' H1). by rewrite Hr.
      * eapply (Hupd s id0 _ c c1 Hc). by rewrite Hu.
    + unfold remove in Hr. destruct (contexts s1 !! id0) as [cx|] eqn:Hx.
      * destruct (remove_context cx) as [[[cx' ev] del] k'].
        destruct (decide (id0 = id)) as [->|Hne]; [congruence|].
        destruct del; simplify_eq; simpl in H2.
        -- rewrite lookup_delete_ne in H2 by done. congruence.
        -- rewrite lookup_insert_ne in H2 by done. congruence.
      * simplify_eq; congruence.
  - by apply Hupd.
  - unfold onContentModificationFinished.
    destruct (update s id0 _) as [s1 ev1] eqn:Hu.
    destruct (remove s1 id0) as [[s2 ev2] k] eqn:Hr. simpl.
    intros H2.
    destruct (contexts s1 !! id) as [c1|] eqn:H1.
    + transitivity (eventId c1).
      * apply (Hrem s1 id0 c1 c' H1). by rewrite Hr.
      * eapply (Hupd s id0 _ c c1 Hc). by rewrite Hu.
    + unfold remove in Hr. destruct (contexts s1 !! id0) as [cx|] eqn:Hx.
      * destruct (remove_context cx) as [[[cx' ev] del] k'].
        destruct (decide (id0 = id)) as [->|Hne]; [congruence|].
        destruct del; simplify_eq; simpl in H2.
        -- rewrite lookup_delete_ne in H2 by done. congruence.
        -- rewrite lookup_insert_ne in H2 by done. congruence.
      * simplify_eq; congruence.
Qed.

(** C9.  Event ids come from the counter and only [record] hands them out:
    along any run of the API that keeps the counter below 2^53 (where adding
    1 to a JavaScript number is exact) the event ids issued by the successive
    [record] calls increase strictly; a further [record], for a new or for an
    already open request id, stores a context whose event id is the one it
    sends to the log and is greater than every id issued before; and a call
    that is not a [record] for a request never changes the event id of its
    context. *)
Theorem eventId_assigned_once_increasing (s : State) (calls : list Call) :
  nextEventId (run s calls).1 < MAX_SAFE ->
  StronglySorted Z.lt (issuedEventIds (run s calls).2)
  /\ (forall id url ref origin ty t,
        let r := record (run s calls).1 id url ref origin ty t in
        exists c, contexts r.1 !! id = Some c
                  /\ issuedEventIds r.2 = [eventId c]
                  /\ Forall (fun i => i < eventId c)
                       (issuedEventIds (run s calls).2))
  /\ (forall call id (c c' : RequestContext),
        is_record_for id call = false ->
        contexts s !! id = Some c ->
        contexts (step s call).1 !! id = Some c' ->
        eventId c' = eventId c).
Proof.
  intros Hlt. destruct (run_issued calls s Hlt) as (Hle & Hsorted & Hall).
  split; [done|]. split.
  - intros id url ref origin ty t r. subst r. rewrite record_unfold. simpl.
    rewrite lookup_insert_eq. eexists. split; [reflexivity|]. simpl. split.
    + rewrite issuedEventIds_app. simpl. by destruct (_ && _).
    + rewrite js_succ_exact by done.
      eapply Forall_impl; [exact Hall|]. simpl. lia.
  - intros call id c c'. apply step_keeps_eventId.
Qed.

End LedgerProperties.

(** *** Instances on the sample ledger *)

Lemma lifecycle_flushes_each_axis_once_witness :
  Ledger.contexts Samples.bound !! "r1" = Some Samples.bound_context /\
  (Ledger.onRequestCompleted Samples.modifying "r1").1.2
  = [Ledger.BindRuleToHttpRequestEvent Samples.tab1 (Some 5%nat) 1;
     Ledger.AddHttpRequestEvent Samples.tab1 "http://a.example/"
       EmptyString CSP (Some 9%nat) None;
     Ledger.BindStealthActionsToHttpRequestEvent Samples.tab1 16 1;
     Ledger.RecordRuleHit Samples.tab1 (Ledger.HitRule 5%nat)
       "http://a.example/";
     Ledger.RecordRuleHit Samples.tab1 (Ledger.HitRule 9%nat)
       "http://a.example/"] /\
  (Ledger.onContentModificationFinished
     (Ledger.onRequestCompleted Samples.modifying "r1").1.1 "r1").1.2
  = [Ledger.BindReplaceRulesToHttpRequestEvent Samples.tab1
       [7%nat; 8%nat] 1;
     Ledger.AddCosmeticEvent Samples.tab1 "<div>" "http://a.example/"
       DOCUMENT 11%nat;
     Ledger.RecordRuleHit Samples.tab1
       (Ledger.HitRuleArray [7%nat; 8%nat]) "http://a.example/";
     Ledger.RecordRuleHit Samples.tab1 (Ledger.HitRule 11%nat)
       "http://a.example/"].
Proof.
  assert (H0 : Ledger.contexts Samples.bound !! "r1"
               = Some Samples.bound_context) by (vm_compute; reflexivity).
  destruct (lifecycle_flushes_each_axis_once Samples.bound "r1"
              Samples.bound_context) as [(_ & H1 & _ & _ & H2 & _) _].
  - exact H0.
  - reflexivity.
  - reflexivity.
  - intros _. eexists. reflexivity.
  - split; [exact H0|]. split.
    + refine (eq_trans H1 _). vm_compute. reflexivity.
    + refine (eq_trans H2 _). vm_compute. reflexivity.
Defined.

(** C1 as stated fails when the request completes before content
    modification is announced: the three calls then send the network-axis
    artifacts only, the binding of the replace rules, the cosmetic event and
    the rule hits of the content axis are never sent, and the context is gone
    after the first call. *)
Lemma completed_first_skips_content_flush :
  let calls := [Ledger.OnRequestCompleted "r1";
                Ledger.OnContentModificationStarted "r1";
                Ledger.OnContentModificationFinished "r1"] in
  let url := "http://a.example/" in
  let network :=
    [Ledger.BindRuleToHttpRequestEvent Samples.tab1 (Some 5%nat) 1;
     Ledger.AddHttpRequestEvent Samples.tab1 url EmptyString CSP
       (Some 9%nat) None;
     Ledger.BindStealthActionsToHttpRequestEvent Samples.tab1 16 1;
     Ledger.RecordRuleHit Samples.tab1 (Ledger.HitRule 5%nat) url;
     Ledger.RecordRuleHit Samples.tab1 (Ledger.HitRule 9%nat) url] in
  let content :=
    [Ledger.BindReplaceRulesToHttpRequestEvent Samples.tab1
       [7%nat; 8%nat] 1;
     Ledger.AddCosmeticEvent Samples.tab1 "<div>" url DOCUMENT 11%nat;
     Ledger.RecordRuleHit Samples.tab1
       (Ledger.HitRuleArray [7%nat; 8%nat]) url;
     Ledger.RecordRuleHit Samples.tab1 (Ledger.HitRule 11%nat) url] in
  Ledger.contexts Samples.bound !! "r1" = Some Samples.bound_context /\
  Ledger.networkArtifacts Samples.bound_context = network /\
  Ledger.contentArtifacts Samples.bound_context = content /\
  Ledger.networkFlush Samples.bound_context = network /\
  Ledger.contentFlush Samples.bound_context = content /\
  (Ledger.run Samples.bound calls).2 = network /\
  (Ledger.run Samples.bound calls).2 <> network ++ content /\
  (forall e, e ∈ content -> e ∉ (Ledger.run Samples.bound calls).2) /\
  Ledger.contexts (Ledger.onRequestCompleted Samples.bound "r1").1.1 !! "r1"
  = None.
Proof.
  repeat split; try (vm_compute; reflexivity).
  - vm_compute; discriminate.
  - intros e He Hin.
    assert (Hr : (Ledger.run Samples.bound
                    [Ledger.OnRequestCompleted "r1";
                     Ledger.OnContentModificationStarted "r1";
                     Ledger.OnContentModificationFinished "r1"]).2
                 = [Ledger.BindRuleToHttpRequestEvent Samples.tab1
                      (Some 5%nat) 1;
                    Ledger.AddHttpRequestEvent Samples.tab1
                      "http://a.example/" EmptyString CSP (Some 9%nat) None;
                    Ledger.BindStealthActionsToHttpRequestEvent
                      Samples.tab1 16 1;
                    Ledger.RecordRuleHit Samples.tab1 (Ledger.HitRule 5%nat)
                      "http://a.example/";
                    Ledger.RecordRuleHit Samples.tab1 (Ledger.HitRule 9%nat)
                      "http://a.example/"])
      by (vm_compute; reflexivity).
    rewrite Hr in Hin. clear Hr.
    repeat (apply elem_of_cons in He as [->|He];
            [repeat (apply elem_of_cons in Hin as [Hin|Hin];
                     [discriminate Hin|]);
             by apply not_elem_of_nil in Hin|]).
    by apply not_elem_of_nil in He.
Qed.

Lemma record_redirect_keeps_log_witness :
  let r1 := Samples.recordOn Samples.fresh "r1" "http://a.example/" DOCUMENT in
  let r2 := Samples.recordOn r1.1 "r1" "http://b.example/" DOCUMENT in
  Ledger.nextEventId Samples.fresh + 1 < MAX_SAFE /\
  r1.2 = [Ledger.ClearEventsByTabId 1;
          Ledger.AddHttpRequestEvent Samples.tab1 "http://a.example/"
            EmptyString DOCUMENT None (Some 1)] /\
  forall tid, Ledger.ClearEventsByTabId tid ∉ r2.2.
Proof.
  intros r1 r2.
  assert (H0 : Ledger.nextEventId Samples.fresh + 1 < MAX_SAFE)
    by (vm_compute; reflexivity).
  split; [exact H0|]. split; [reflexivity|].
  exact (proj1 (proj2 (record_redirect_keeps_log Samples.fresh "r1"
                         "http://a.example/" EmptyString EmptyString DOCUMENT
                         Samples.tab1
                         "http://b.example/" EmptyString EmptyString DOCUMENT
                         Samples.tab1 H0))).
Defined.

Lemma record_replaces_context_witness :
  Ledger.contexts Samples.modifying !! "r1"
  = Some (Ledger.set_contentModifyingState Samples.bound_context
            Ledger.PROCESSING) /\
  Ledger.contexts
    (Samples.recordOn Samples.modifying "r1" "http://b.example/" DOCUMENT).1
    !! "r1"
  = Some (Ledger.newContext "r1" "http://b.example/" EmptyString EmptyString
            DOCUMENT Samples.tab1 2).
Proof.
  assert (H0 : Ledger.contexts Samples.modifying !! "r1"
               = Some (Ledger.set_contentModifyingState Samples.bound_context
                         Ledger.PROCESSING)) by (vm_compute; reflexivity).
  split; [exact H0|].
  exact (proj1 (record_replaces_context Samples.modifying "r1" _
                  "http://b.example/" EmptyString EmptyString DOCUMENT
                  Samples.tab1 H0)).
Defined.

Lemma eventId_assigned_once_increasing_witness :
  let calls := [Samples.recordCall "r1" "http://a.example/" DOCUMENT;
                Samples.recordCall "r2" "http://c.example/" IMAGE;
                Ledger.OnRequestCompleted "r2";
                Samples.recordCall "r1" "http://b.example/" DOCUMENT] in
  Ledger.nextEventId (Ledger.run Samples.fresh calls).1 < MAX_SAFE /\
  Ledger.issuedEventIds (Ledger.run Samples.fresh calls).2 = [1; 2; 3] /\
  StronglySorted Z.lt
    (Ledger.issuedEventIds (Ledger.run Samples.fresh calls).2).
Proof.
  intros calls.
  assert (H0 : Ledger.nextEventId (Ledger.run Samples.fresh calls).1
               < MAX_SAFE) by (vm_compute; reflexivity).
  split; [exact H0|]. split; [vm_compute; reflexivity|].
  exact (proj1 (eventId_assigned_once_increasing Samples.fresh calls H0)).
Defined.

(** C3 on the sample ledger, whose context has the replace rules 7 and 8 and
    the content rule 11: when content modification finishes, [recordRuleHit]
    is called once with the array of the two replace rules as its rule
    argument, not once with rule 7 and once with rule 8; only the content
    rule gets a call of its own. *)
Theorem replace_rules_hit_recorded_as_one_array :
  List.filter Ledger.isRuleHit
    (Ledger.onContentModificationFinished Samples.modifying "r1").1.2
  = [Ledger.RecordRuleHit Samples.tab1 (Ledger.HitRuleArray [7%nat; 8%nat])
       "http://a.example/";
     Ledger.RecordRuleHit Samples.tab1 (Ledger.HitRule 11%nat)
       "http://a.example/"].
Proof. vm_compute. reflexivity. Qed.

(** * Properties of the safebrowsing filter *)

Section SafebrowsingProperties.

Import Safebrowsing.

Variable getHost : string -> option string.
Variables isIpv4 isIpv6 : string -> bool.
Variable sha256 : string -> string.
Variable LruCache : Type.
Variable getValue : LruCache -> string -> option string.
Variable saveValue : LruCache -> option string -> string -> LruCache.
Variable LRUMap : Type.
Variable lru_get : LRUMap -> string -> option bool.
Variable lru_set : LRUMap -> string -> bool -> LRUMap.

Abbreviation SState := (State LruCache LRUMap).
Abbreviation hash := (createHash sha256).
Abbreviation hostsOf := (extractHosts isIpv4 isIpv6).
Abbreviation inCache := (checkHostsInSbCache sha256 LruCache getValue).
Abbreviation lookup :=
  (lookupUrlWithCallback getHost isIpv4 isIpv6 sha256 LruCache getValue
     saveValue LRUMap lru_get).
Abbreviation respond :=
  (onLookupResponse sha256 LruCache saveValue LRUMap lru_set).

(** *** extractHosts *)

Lemma split_nonempty sep s : split sep s <> [].
Proof.
  destruct s as [|c s]; simpl; [done|].
  destruct (Ascii.eqb c sep); [done|]. by destruct (split sep s).
Qed.

Lemma split_length_labels s : length (split "." s) = labels s.
Proof.
  induction s as [|c s IH]; simpl; [done|].
  destruct (Ascii.eqb c "."); simpl; [by rewrite IH|].
  pose proof (split_nonempty "." s).
  destruct (split "." s); [done|]. exact IH.
Qed.

Lemma concat_split s : String.concat "." (split "." s) = s.
Proof.
  induction s as [|c s IH]; simpl; [done|].
  pose proof (split_nonempty "." s) as Hne.
  destruct (Ascii.eqb_spec c ".") as [->|Hc].
  - destruct (split "." s) as [|p ps] eqn:E; [done|].
    change (String.concat "." (EmptyString :: p :: ps))
      with (String "." (String.concat "." (p :: ps))).
    by rewrite IH.
  - destruct (split "." s) as [|p ps] eqn:E; [done|].
    destruct ps as [|q ps]; [simpl in *; by rewrite IH|].
    change (String.concat "." (String c p :: q :: ps))
      with (String c (String.concat "." (p :: q :: ps))).
    by rewrite IH.
Qed.

Lemma dot_suffixes_split s :
  dot_suffixes s = map (String.concat ".") (label_tails (split "." s)).
Proof.
  induction s as [|c s IH]; simpl; [done|].
  pose proof (split_nonempty "." s) as Hne.
  destruct (Ascii.eqb c ".").
  - destruct (split "." s) as [|p ps] eqn:E; [done|].
    change (label_tails (EmptyString :: p :: ps))
      with ((p :: ps) :: label_tails (p :: ps)).
    cbn [map]. rewrite <- IH, <- E, concat_split. done.
  - destruct (split "." s) as [|p ps] eqn:E; [done|].
    rewrite IH. by destruct ps.
Qed.

Lemma labels_app_nodot p s :
  labels p = 1%nat -> labels (p +:+ s) = labels s.
Proof.
  induction p as [|c p IH]; simpl; [done|].
  destruct (Ascii.eqb c "."); [|exact IH].
  intros Hp. assert (1 <= labels p)%nat by (clear; induction p; simpl;
    [lia | destruct (Ascii.eqb _ _); lia]). lia.
Qed.

Lemma labels_ge_1 s : (1 <= labels s)%nat.
Proof.
  induction s as [|c s IH]; simpl; [lia|]. destruct (Ascii.eqb c "."); lia.
Qed.

Lemma split_parts_nodot s : Forall (fun p => labels p = 1%nat) (split "." s).
Proof.
  induction s as [|c s IH]; simpl; [by repeat constructor|].
  destruct (Ascii.eqb c ".") eqn:Ec; [by constructor|].
  destruct (split "." s) as [|p ps];
    [constructor; [simpl; by rewrite Ec|constructor]|].
  inversion IH as [|? ? Hp Hps]; subst. constructor; [|done].
  simpl. by rewrite Ec.
Qed.

Lemma labels_concat parts :
  parts <> [] -> Forall (fun p => labels p = 1%nat) parts ->
  labels (String.concat "." parts) = length parts.
Proof.
  induction parts as [|p ps IH]; [done|]. intros _ Hall.
  inversion Hall as [|? ? Hp Hps]; subst.
  destruct ps as [|q ps]; [exact Hp|].
  change (String.concat "." (p :: q :: ps))
    with (p +:+ String "." (String.concat "." (q :: ps))).
  rewrite labels_app_nodot by done.
  change (labels (String "." (String.concat "." (q :: ps))))
    with (S (labels (String.concat "." (q :: ps)))).
  by rewrite IH.
Qed.

Lemma filter_labels_concat (ts : list (list string)) :
  Forall (fun t => t <> [] /\ Forall (fun p => labels p = 1%nat) t) ts ->
  List.filter (fun h => (2 <=? labels h)%nat) (map (String.concat ".") ts)
  = map (String.concat ".")
      (List.filter (fun t => (2 <=? length t)%nat) ts).
Proof.
  induction ts as [|t ts IH]; [done|]. intros Hall.
  inversion Hall as [|? ? [Ht Hnodot] Hts]; subst.
  cbn [map List.filter]. rewrite labels_concat by done.
  destruct (2 <=? length t)%nat; cbn [map]; by rewrite IH.
Qed.

Lemma label_tails_suffix parts :
  Forall (fun t => t <> [] /\ exists pre, parts = pre ++ t) (label_tails parts).
Proof.
  induction parts as [|p ps IH]; simpl; [constructor|].
  destruct ps as [|q ps]; [constructor|].
  constructor.
  - split; [done|]. by exists [p].
  - eapply Forall_impl; [exact IH|]. simpl.
    intros t [Ht [pre ->]]. split; [done|]. by exists (p :: pre).
Qed.

(** The tails of at least two labels are those the loop of [extractHosts]
    reaches after its first round. *)
Lemma label_tails_filter parts :
  List.filter (fun t => (2 <=? length t)%nat) (label_tails parts)
  = map (fun i => skipn i parts) (seq 1 (length parts - 2)).
Proof.
  induction parts as [|p ps IH]; [done|].
  destruct ps as [|q [|r ps]]; [done|done|].
  remember (q :: r :: ps) as l eqn:Hl.
  assert (Hlen : length l = S (S (length ps))) by (by subst).
  assert (Htl : label_tails (p :: l) = l :: label_tails l) by (by subst).
  rewrite Htl. cbn [List.filter].
  replace (2 <=? length l)%nat with true by (by rewrite Hlen).
  rewrite IH. cbn [length]. rewrite Hlen.
  replace (S (S (S (length ps))) - 2)%nat with (S (length ps)) by lia.
  replace (S (S (length ps)) - 2)%nat with (length ps) by lia.
  cbn [seq map]. f_equal.
  by rewrite <- (seq_shift (length ps) 1), map_map.
Qed.

Lemma join_to_end parts i :
  join parts "." i (length parts) = String.concat "." (skipn i parts).
Proof.
  unfold join. f_equal. apply firstn_all2. rewrite length_skipn. lia.
Qed.

(** [extractHosts] against the wording of the specification. *)
Lemma extractHosts_unfold (host : string) :
  hostsOf host
  = if isIpv4 host || isIpv6 host then [host] else suffixes_to_root host.
Proof.
  unfold extractHosts, suffixes_to_root.
  destruct (isIpv4 host || isIpv6 host); [done|].
  rewrite dot_suffixes_split.
  pose proof (split_parts_nodot host) as Hnodot.
  pose proof (concat_split host) as Hcat.
  pose proof (split_nonempty "." host) as Hne.
  pose proof (label_tails_suffix (split "." host)) as Htails.
  pose proof (label_tails_filter (split "." host)) as Hfilter.
  set (parts := split "." host) in *.
  rewrite filter_labels_concat, Hfilter, map_map.
  2:{ eapply Forall_impl; [exact Htails|]. simpl.
      intros t [Ht [pre Hpre]]. split; [done|].
      rewrite Hpre in Hnodot. by apply Forall_app in Hnodot as [_ ?]. }
  destruct (Nat.leb_spec (length parts) 2) as [Hle|Hgt].
  - replace (length parts - 2)%nat with 0%nat by lia. done.
  - replace (length parts - 1)%nat with (S (length parts - 2)) by lia.
    cbn [seq map]. rewrite join_to_end.
    change (drop 0 parts) with parts. rewrite Hcat. f_equal.
    apply map_ext. intros i. apply join_to_end.
Qed.

(** C7.  For a literal IPv4 or IPv6 address [extractHosts] returns the host
    alone; for any other host it returns the host followed by its right-hand
    dot-suffixes, the longest first, down to and including the one with two
    labels (a host of one or two labels has no such shorter suffix and is
    returned alone). *)
Theorem extractHosts_suffixes (host : string) :
  hostsOf host
  = if isIpv4 host || isIpv6 host then [host] else suffixes_to_root host.
Proof. apply extractHosts_unfold. Qed.

Lemma extractHosts_nonempty host : (length (hostsOf host) =? 0)%nat = false.
Proof.
  rewrite extractHosts_unfold. unfold suffixes_to_root.
  by destruct (isIpv4 host || isIpv6 host).
Qed.

(** *** The long-term cache *)

Lemma inCache_miss (c : LruCache) hosts :
  (forall h, h ∈ hosts -> truthy (getValue c (hash h)) = false) ->
  inCache c hosts = None.
Proof.
  induction hosts as [|h hosts IH]; intros Hmiss; simpl; [done|].
  rewrite (Hmiss h) by apply list_elem_of_here.
  apply IH. intros h' Hin. apply Hmiss. by apply list_elem_of_further.
Qed.

(** The first host with a cached list name decides. *)
Lemma inCache_first_hit (c : LruCache) hosts (i : nat) h v :
  hosts !! i = Some h ->
  getValue c (hash h) = Some v -> v <> EmptyString ->
  (forall (j : nat) h', (j < i)%nat -> hosts !! j = Some h' ->
     truthy (getValue c (hash h')) = false) ->
  inCache c hosts = Some v.
Proof.
  revert i. induction hosts as [|h0 hosts IH]; intros i Hi Hv Hne Hbefore.
  - done.
  - destruct i as [|i]; simpl in *.
    + injection Hi as ->. rewrite Hv. simpl.
      destruct (String.eqb_spec v EmptyString); done.
    + rewrite (Hbefore 0%nat h0) by (done || lia).
      apply (IH i); [done..|].
      intros j h' Hj Hh'. apply (Hbefore (S j) h'); [lia|done].
Qed.

(** C6.  When the long-term cache holds a list name for the full hash of one
    of the hosts extracted from the URL, and for none of the more specific
    hosts before it, the lookup calls back with that list name, null standing
    for the whitelist entry, without asking the backend and without changing
    any state, suspended or not. *)
Theorem cached_verdict_short_circuits (s : SState) (now : Z)
    (requestUrl host : string) (i : nat) (h v : string) :
  getHost requestUrl = Some host -> host <> EmptyString ->
  hostsOf host !! i = Some h ->
  getValue (cache s) (hash h) = Some v -> v <> EmptyString ->
  (forall (j : nat) h', (j < i)%nat -> hostsOf host !! j = Some h' ->
     truthy (getValue (cache s) (hash h')) = false) ->
  lookup s now requestUrl
  = (s, [Callback (if String.eqb v SB_WHITE_LIST then None else Some v)]).
Proof.
  intros Hhost Hne Hi Hv Hvne Hbefore. unfold lookupUrlWithCallback.
  rewrite Hhost. destruct (String.eqb_spec host EmptyString) as [|_]; [done|].
  rewrite extractHosts_nonempty.
  rewrite (inCache_first_hit (cache s) (hostsOf host) i h v) by done.
  simpl. by destruct (String.eqb_spec v EmptyString).
Qed.

(** *** The session cache of queried prefixes *)

Lemma hashes_set_keys m k v x :
  x ∈ map fst (hashes_set m k v) -> x = k \/ x ∈ map fst m.
Proof.
  induction m as [|[k' v'] m IH]; simpl.
  - rewrite list_elem_of_singleton. by left.
  - destruct (String.eqb k' k); simpl; rewrite !elem_of_cons.
    + intros [->|Hin]; right; [by left|by right].
    + intros [->|Hin]; [right; by left|].
      destruct (IH Hin) as [->|Hin']; [by left|right; by right].
Qed.

Lemma createHashesMap_keys hosts x :
  x ∈ map fst (createHashesMap sha256 hosts) ->
  exists h, h ∈ hosts /\ x = hash h.
Proof.
  unfold createHashesMap.
  assert (Hgen : forall m,
             x ∈ map fst (fold_left
                            (fun result host =>
                               hashes_set result (hash host) host) hosts m) ->
             x ∈ map fst m \/ exists h, h ∈ hosts /\ x = hash h).
  { induction hosts as [|h hosts IH]; intros m; simpl; [by left|].
    intros Hin. destruct (IH _ Hin) as [Hm|(h' & Hh' & ->)].
    - destruct (hashes_set_keys _ _ _ _ Hm) as [->|Hm'].
      + right. exists h. split; [apply list_elem_of_here|done].
      + by left.
    - right. exists h'. split; [by apply list_elem_of_further|done]. }
  intros Hin. destruct (Hgen [] Hin) as [Hnil|Hex]; [|done].
  by apply elem_of_nil in Hnil.
Qed.

(** C5.  When no host of the URL is in the long-term cache, the filter is not
    suspended and the short hash of every host was already queried in this
    session, the lookup asks nothing of the backend: it saves the whitelist
    name under the hash of the host of the URL in the long-term cache, leaves
    the session cache and the local storage as they are, and calls back with
    null at once. *)
Theorem queried_prefixes_cache_host_clean (s : SState) (now : Z)
    (requestUrl host : string) :
  getHost requestUrl = Some host -> host <> EmptyString ->
  (forall h, h ∈ hostsOf host ->
     truthy (getValue (cache s) (hash h)) = false) ->
  suspended s now = false ->
  (forall h, h ∈ hostsOf host ->
     lru_get (requestsCache s)
       (String.substring 0 DOMAIN_HASH_LENGTH (hash h)) = Some true) ->
  lookup s now requestUrl
  = ({| cache := saveValue (cache s) (Some (hash host)) SB_WHITE_LIST;
        requestsCache := requestsCache s;
        localStorage := localStorage s |},
     [Callback None]) /\
  cache (lookup s now requestUrl).1
  = saveValue (cache s) (Some (hash host)) SB_WHITE_LIST /\
  requestsCache (lookup s now requestUrl).1 = requestsCache s /\
  localStorage (lookup s now requestUrl).1 = localStorage s /\
  (lookup s now requestUrl).2 = [Callback None].
Proof.
  intros Hhost Hne Hmiss Hsusp Hqueried.
  assert (Hlookup :
            lookup s now requestUrl
            = ({| cache := saveValue (cache s) (Some (hash host))
                             SB_WHITE_LIST;
                  requestsCache := requestsCache s;
                  localStorage := localStorage s |},
               [Callback None])); [|by rewrite Hlookup].
  unfold lookupUrlWithCallback.
  rewrite Hhost. destruct (String.eqb_spec host EmptyString) as [|_]; [done|].
  rewrite extractHosts_nonempty, (inCache_miss _ _ Hmiss). simpl.
  rewrite Hsusp.
  set (shortHashes := filter _ _).
  assert (HshortHashes : shortHashes = []); [|by rewrite HshortHashes].
  destruct shortHashes as [|x rest] eqn:E; [done|]. exfalso.
  assert (Hx : x ∈ shortHashes) by (rewrite E; apply list_elem_of_here).
  subst shortHashes. apply list_elem_of_filter in Hx as [Hnot Hx].
  apply Hnot. clear Hnot E.
  apply list_elem_of_fmap in Hx as (k & -> & Hk).
  apply createHashesMap_keys in Hk as (h & Hh & ->). by apply Hqueried.
Qed.

(** *** Suspension *)

(** A lookup writes nothing to the local storage. *)
Lemma lookup_keeps_localStorage (s : SState) (now : Z) (requestUrl : string) :
  localStorage (lookup s now requestUrl).1 = localStorage s.
Proof.
  unfold lookupUrlWithCallback. repeat case_match; done.
Qed.

(** While a start of suspension is stored and less than SUSPEND_TTL old, a
    lookup that misses the long-term cache does nothing. *)
Lemma suspended_lookup_is_silent (s : SState) (t now : Z)
    (requestUrl : string) :
  localStorage s !! suspendedFromProperty = Some t -> t <> 0 ->
  now - t < SUSPEND_TTL ->
  (forall host h, getHost requestUrl = Some host -> h ∈ hostsOf host ->
     truthy (getValue (cache s) (hash h)) = false) ->
  lookup s now requestUrl = (s, []).
Proof.
  intros Ht Ht0 Hnow Hmiss. unfold lookupUrlWithCallback.
  destruct (getHost requestUrl) as [host|] eqn:Hhost; [|done].
  destruct (String.eqb host EmptyString); [done|].
  rewrite extractHosts_nonempty. simpl.
  rewrite inCache_miss by (intros h Hh; by apply (Hmiss host)).
  simpl. unfold suspended, suspendedFrom. rewrite Ht. simpl.
  destruct (Z.eqb_spec t 0) as [|_]; [done|].
  destruct (Z.ltb_spec (now - t) SUSPEND_TTL) as [_|?]; [done|lia].
Qed.

(** C4 (amended).  A response with a status of 500 or more records the time
    of the response as the start of the suspension, writes nothing to either
    cache and calls nothing back; a lookup made in the state the response
    left, less than SUSPEND_TTL after that time, for a URL none of whose
    hosts is in the long-term cache, returns without asking the backend and
    without calling back, and leaves the state as it is.  The same holds in
    any later state in which a start of suspension is still stored, counted
    from the time stored there, and a lookup never changes what is stored.
    The suspension does not last the whole window whatever happens: every
    response with a status below 500 removes the stored time, so that no
    state it leaves is suspended at any time, and a response with a status
    of 500 or more replaces it by its own time.  The time of a response is a
    clock reading other than 0, the number that reads as no suspension. *)
Theorem server_error_suspends_lookups (s : SState) (t0 : Z) (p : Pending)
    (response : Response) :
  500 <= status response ->
  t0 <> 0 ->
  let r := respond s t0 p response in
  localStorage r.1 !! suspendedFromProperty = Some t0 /\
  cache r.1 = cache s /\ requestsCache r.1 = requestsCache s /\
  (forall v, Callback v ∉ r.2) /\
  (forall now requestUrl,
     now - t0 < SUSPEND_TTL ->
     (forall host h, getHost requestUrl = Some host -> h ∈ hostsOf host ->
        truthy (getValue (cache s) (hash h)) = false) ->
     lookup r.1 now requestUrl = (r.1, [])) /\
  (forall (s' : SState) t now requestUrl,
     localStorage s' !! suspendedFromProperty = Some t -> t <> 0 ->
     now - t < SUSPEND_TTL ->
     (forall host h, getHost requestUrl = Some host -> h ∈ hostsOf host ->
        truthy (getValue (cache s') (hash h)) = false) ->
     lookup s' now requestUrl = (s', [])) /\
  (forall (s' : SState) now requestUrl,
     localStorage (lookup s' now requestUrl).1 = localStorage s') /\
  (forall (s' : SState) t1 p' response',
     status response' < 500 ->
     localStorage (respond s' t1 p' response').1 !! suspendedFromProperty
     = None /\
     forall now, suspended (respond s' t1 p' response').1 now = false) /\
  (forall (s' : SState) t1 p' response',
     500 <= status response' ->
     localStorage (respond s' t1 p' response').1 !! suspendedFromProperty
     = Some t1).
Proof.
  intros Hstatus Ht0 r.
  assert (Hr : r = (suspendSafebrowsing s t0, [ConsoleError])).
  { subst r. unfold onLookupResponse.
    destruct (Z.leb_spec 500 (status response)) as [_|?]; [done|lia]. }
  assert (Hstored : localStorage r.1 !! suspendedFromProperty = Some t0).
  { rewrite Hr. simpl. apply lookup_insert_eq. }
  split; [done|]. split; [by rewrite Hr|]. split; [by rewrite Hr|].
  split; [|split; [|split; [|split; [|split]]]].
  - intros v Hin. rewrite Hr in Hin.
    apply list_elem_of_singleton in Hin. discriminate.
  - intros now requestUrl Hnow Hmiss.
    apply (suspended_lookup_is_silent _ t0); [done..|].
    intros host h Hhost Hh. rewrite Hr. by apply (Hmiss host).
  - intros s' t now requestUrl. apply suspended_lookup_is_silent.
  - apply lookup_keeps_localStorage.
  - intros s' t1 p' response' Hlow.
    assert (Hgone : localStorage (respond s' t1 p' response').1
                    !! suspendedFromProperty = None).
    { unfold onLookupResponse.
      destruct (Z.leb_spec 500 (status response')) as [?|_]; [lia|].
      destruct (if status response' =? 204 then _ else _) as [c sbList].
      simpl. apply lookup_delete_eq. }
    split; [done|]. intros now. unfold suspended, suspendedFrom.
    by rewrite Hgone.
  - intros s' t1 p' response' Hhigh. unfold onLookupResponse.
    destruct (Z.leb_spec 500 (status response')) as [_|?]; [|lia].
    simpl. apply lookup_insert_eq.
Qed.

End SafebrowsingProperties.

(** *** Instances on the sample filter *)

(** The examples of the specification for [extractHosts]. *)
Example extractHosts_examples :
  Safebrowsing.extractHosts Samples.sample_isIpv4 Samples.sample_isIpv6
    "1.2.3.4" = ["1.2.3.4"] /\
  Safebrowsing.extractHosts Samples.sample_isIpv4 Samples.sample_isIpv6
    "a.b.example.com" = ["a.b.example.com"; "b.example.com"; "example.com"] /\
  Safebrowsing.suffixes_to_root "a.b.c.example.com"
  = ["a.b.c.example.com"; "b.c.example.com"; "c.example.com"; "example.com"].
Proof. repeat split; vm_compute; reflexivity. Qed.

Lemma cached_verdict_short_circuits_witness :
  Samples.sb_lookup Samples.sb_cached 1000 "http://a.b.evil.com/x"
  = (Samples.sb_cached, [Safebrowsing.Callback (Some "malware")]).
Proof.
  apply (cached_verdict_short_circuits Samples.sample_getHost
           Samples.sample_isIpv4 Samples.sample_isIpv6 Samples.sample_hash
           Samples.SCache Samples.sample_getValue Samples.sample_saveValue
           Samples.SMap Samples.sample_lru_get Samples.sb_cached 1000
           "http://a.b.evil.com/x" "a.b.evil.com" 2 "evil.com" "malware").
  - vm_compute. reflexivity.
  - discriminate.
  - vm_compute. reflexivity.
  - vm_compute. reflexivity.
  - discriminate.
  - intros [|[|j]] h' Hj Hh'; [| |lia]; vm_compute in Hh';
      injection Hh' as <-; vm_compute; reflexivity.
Defined.

Lemma queried_prefixes_cache_host_clean_witness :
  Samples.sb_lookup Samples.sb_queried 1000 "http://www.example.org/x"
  = ({| Safebrowsing.cache := [(Some "WWW.EXAMPLE.ORG/", "whitelist")];
        Safebrowsing.requestsCache := [("WWW.", true); ("EXAM", true)];
        Safebrowsing.localStorage := ∅ |},
     [Safebrowsing.Callback None]) /\
  Safebrowsing.cache
    (Samples.sb_lookup Samples.sb_queried 1000 "http://www.example.org/x").1
  = [(Some "WWW.EXAMPLE.ORG/", "whitelist")] /\
  Samples.sample_getValue
    (Safebrowsing.cache
       (Samples.sb_lookup Samples.sb_queried 1000
          "http://www.example.org/x").1)
    "WWW.EXAMPLE.ORG/"
  = Some "whitelist".
Proof.
  destruct (queried_prefixes_cache_host_clean Samples.sample_getHost
              Samples.sample_isIpv4 Samples.sample_isIpv6 Samples.sample_hash
              Samples.SCache Samples.sample_getValue Samples.sample_saveValue
              Samples.SMap Samples.sample_lru_get Samples.sb_queried 1000
              "http://www.example.org/x" "www.example.org")
    as (H1 & H2 & _).
  - vm_compute. reflexivity.
  - discriminate.
  - intros h Hh. reflexivity.
  - vm_compute. reflexivity.
  - intros h Hh. vm_compute in Hh.
    apply elem_of_cons in Hh as [->|Hh]; [vm_compute; reflexivity|].
    apply list_elem_of_singleton in Hh as ->. vm_compute. reflexivity.
  - split; [|split].
    + refine (eq_trans H1 _). vm_compute. reflexivity.
    + refine (eq_trans H2 _). vm_compute. reflexivity.
    + refine (eq_trans
                (f_equal (fun c => Samples.sample_getValue c
                                     "WWW.EXAMPLE.ORG/") H2) _).
      vm_compute. reflexivity.
Defined.

Lemma server_error_suspends_lookups_witness :
  let p := {| Safebrowsing.p_host := "www.example.org";
              Safebrowsing.p_hashesMap :=
                [("WWW.EXAMPLE.ORG/", "www.example.org");
                 ("EXAMPLE.ORG/", "example.org")];
              Safebrowsing.p_shortHashes := ["WWW."; "EXAM"] |} in
  let r := Samples.sb_response Samples.sb_empty 5000 p
             {| Safebrowsing.status := 503;
                Safebrowsing.responseText := None |} in
  500 <= 503 /\ 5000 <> 0 /\ 6000 - 5000 < Safebrowsing.SUSPEND_TTL /\
  Safebrowsing.localStorage r.1 !! Safebrowsing.suspendedFromProperty
  = Some 5000 /\
  Samples.sb_lookup r.1 6000 "http://www.example.org/x" = (r.1, []).
Proof.
  intros p r.
  split; [lia|]. split; [lia|]. split; [reflexivity|].
  destruct (server_error_suspends_lookups Samples.sample_getHost
              Samples.sample_isIpv4 Samples.sample_isIpv6 Samples.sample_hash
              Samples.SCache Samples.sample_getValue Samples.sample_saveValue
              Samples.SMap Samples.sample_lru_get Samples.sample_lru_set
              Samples.sb_empty 5000 p
              {| Safebrowsing.status := 503;
                 Safebrowsing.responseText := None |})
    as (H1 & _ & _ & _ & H2 & _).
  - simpl. lia.
  - lia.
  - split; [exact H1|]. apply H2; [reflexivity|].
    intros host h _ _. reflexivity.
Defined.

(** C4 as stated fails when another lookup is still waiting for its answer:
    two lookups are sent, the server answers the second with 503 at 5000 and
    the first with 204 at 6000; the second answer removes the stored time, so
    the lookup made at 8000, inside the 40 minutes counted from 5000 and with
    no host of the URL in the long-term cache, is sent to the backend. *)
Lemma inflight_answer_lifts_suspension :
  let p := {| Safebrowsing.p_host := "www.example.org";
              Safebrowsing.p_hashesMap :=
                [("WWW.EXAMPLE.ORG/", "www.example.org");
                 ("EXAMPLE.ORG/", "example.org")];
              Safebrowsing.p_shortHashes := ["WWW."; "EXAM"] |} in
  let q := {| Safebrowsing.p_host := "other.net";
              Safebrowsing.p_hashesMap := [("OTHER.NET/", "other.net")];
              Safebrowsing.p_shortHashes := ["OTHE"] |} in
  let s1 := (Samples.sb_response Samples.sb_empty 5000 p
               {| Safebrowsing.status := 503;
                  Safebrowsing.responseText := None |}).1 in
  let s2 := (Samples.sb_response s1 6000 q
               {| Safebrowsing.status := 204;
                  Safebrowsing.responseText := None |}).1 in
  Samples.sb_lookup Samples.sb_empty 4000 "http://other.net/"
  = (Samples.sb_empty, [Safebrowsing.LookupSafebrowsing q]) /\
  Samples.sb_lookup Samples.sb_empty 4500 "http://www.example.org/x"
  = (Samples.sb_empty, [Safebrowsing.LookupSafebrowsing p]) /\
  Safebrowsing.localStorage s1 !! Safebrowsing.suspendedFromProperty
  = Some 5000 /\
  Samples.sb_lookup s1 5500 "http://www.example.org/x" = (s1, []) /\
  Safebrowsing.localStorage s2 !! Safebrowsing.suspendedFromProperty
  = None /\
  8000 - 5000 < Safebrowsing.SUSPEND_TTL /\
  Safebrowsing.checkHostsInSbCache Samples.sample_hash Samples.SCache
    Samples.sample_getValue (Safebrowsing.cache s2)
    ["www.example.org"; "example.org"] = None /\
  Samples.sb_lookup s2 8000 "http://www.example.org/x"
  = (s2, [Safebrowsing.LookupSafebrowsing p]).
Proof.
  repeat split; vm_compute; reflexivity.
Qed.

(** * Properties of the removal of tracking parameters *)

Section StealthProperties.

Import Stealth.

Variable gs : list (list Tok).

(** The global replace, one position at a time. *)
Lemma replaceAll_unfold at0 s :
  replaceAll gs at0 s
  = match match_here gs at0 s with
    | Some r => replaceAll gs false r
    | None =>
        match s with
        | EmptyString => EmptyString
        | String c s' => String c (replaceAll gs false s')
        end
    end.
Proof.
  funelim (replaceAll gs at0 s).
  - by rewrite E.
  - by rewrite e.
  - by rewrite e.
Qed.

(** At the start of the text the caret alternative is tried first; when it
    matches, the replace goes on after the match, otherwise as anywhere
    else. *)
Lemma replaceAll_start q :
  replaceAll gs true q
  = replaceAll gs false
      (match match_alts gs q with Some r => r | None => q end).
Proof.
  rewrite (replaceAll_unfold true q). unfold match_here.
  destruct (match_alts gs q) as [r|] eqn:E; [done|].
  by rewrite (replaceAll_unfold false q).
Qed.

Lemma string_length_ind (P : string -> Prop) :
  (forall s,
     (forall t, (String.length t < String.length s)%nat -> P t) -> P s) ->
  forall s, P s.
Proof.
  intros Hstep s.
  remember (String.length s) as n eqn:Hn. revert s Hn.
  induction n as [n IH] using lt_wf_ind. intros s ->.
  apply Hstep. intros t Ht. by apply (IH (String.length t)).
Qed.

Lemma is_delim_amp c : Ascii.eqb c "&" = true -> is_delim c = true.
Proof. unfold is_delim. by intros ->. Qed.

Lemma boundary_drop_value s : boundary (drop_value s).
Proof.
  induction s as [|c s IH]; simpl; [done|].
  by destruct (is_delim c) eqn:Hc.
Qed.

Lemma take_value_boundary r : boundary r -> take_value r = EmptyString.
Proof. destruct r as [|c r]; simpl; [done|]. by intros ->. Qed.

Lemma take_value_app s r :
  boundary r -> take_value (take_value s +:+ r) = take_value s.
Proof.
  intros Hr. induction s as [|c s IH]; simpl.
  - by apply take_value_boundary.
  - destruct (is_delim c) eqn:Hc; simpl.
    + by apply take_value_boundary.
    + by rewrite Hc, IH.
Qed.

Lemma take_drop_value s : take_value s +:+ drop_value s = s.
Proof.
  induction s as [|c s IH]; [done|]. cbn [take_value drop_value].
  destruct (is_delim c); [done|].
  change (String c (take_value s +:+ drop_value s) = String c s).
  by rewrite IH.
Qed.

(** The text before the next separator is copied as it is. *)
Lemma replaceAll_take_value s :
  replaceAll gs false s
  = take_value s +:+ replaceAll gs false (drop_value s).
Proof.
  induction s as [|c s IH]; [done|]. simpl.
  destruct (is_delim c) eqn:Hc; [done|].
  rewrite (replaceAll_unfold false (String c s)). unfold match_here.
  destruct (Ascii.eqb c "&") eqn:Hamp.
  - apply is_delim_amp in Hamp. congruence.
  - simpl. by rewrite IH.
Qed.

Lemma match_glob_empty g k :
  k EmptyString = None -> match_glob g k EmptyString = None.
Proof.
  intros Hk. induction g as [|[c|] g IH]; simpl; done.
Qed.

Lemma match_alts_empty : match_alts gs EmptyString = None.
Proof.
  induction gs as [|g gs' IH]; simpl; [done|].
  by rewrite match_glob_empty.
Qed.

(** A text without a match is left as it is. *)
Lemma replaceAll_nomatch at0 s : nomatch gs at0 s -> replaceAll gs at0 s = s.
Proof.
  revert at0. induction s as [|c s IH]; intros at0 [Hhere Hrest];
    rewrite replaceAll_unfold, Hhere; [done|].
  by rewrite IH.
Qed.

Lemma nomatch_suffix_strip s :
  nomatch gs false s -> nomatch gs false (strip_amp s).
Proof.
  induction s as [|c s IH]; simpl; [done|].
  intros Hs. destruct (Ascii.eqb c "&"); [|done].
  apply IH. by destruct Hs.
Qed.

(** *** Names without separators *)

Hypothesis Hplain : plain_names gs = true.

Lemma eq_ci_delim c d :
  is_delim c = false -> is_delim d = true -> eq_ci c d = false.
Proof.
  intros Hc Hd. unfold is_delim in Hd.
  apply orb_true_iff in Hd as [Hd|Hd]; apply Ascii.eqb_eq in Hd; subst d;
    destruct c as [[] [] [] [] [] [] [] []]; vm_compute in Hc |- *;
    congruence.
Qed.

(** A continuation that looks at the text up to the next separator only and
    leaves the text from that separator on. *)
Definition upto_separator (k : string -> option string) : Prop :=
  forall s, k s = match k (take_value s) with
                  | Some _ => Some (drop_value s)
                  | None => None
                  end.

Lemma match_value_upto : upto_separator match_value.
Proof.
  intros [|c s]; simpl; [done|].
  destruct (Ascii.eqb_spec c "=") as [->|Hc]; simpl.
  - done.
  - destruct (is_delim c); simpl; [done|].
    by destruct (Ascii.eqb_spec c "=").
Qed.

Lemma match_star_upto k : upto_separator k -> upto_separator (match_star k).
Proof.
  intros Hk s. induction s as [|c s IH].
  - simpl. rewrite (Hk EmptyString). simpl. by destruct (k EmptyString).
  - cbn [match_star take_value drop_value].
    destruct (is_delim c) eqn:Hc.
    + unfold star_char. rewrite Hc. cbn [orb negb match_star].
      rewrite (Hk (String c s)). simpl. by rewrite Hc.
    + cbn [match_star]. rewrite IH, (Hk (String c s)). simpl. rewrite Hc.
      destruct (star_char c); [|done].
      by destruct (match_star k (take_value s)).
Qed.

Lemma match_glob_upto g :
  forallb plain_tok g = true ->
  forall k, upto_separator k -> upto_separator (match_glob g k).
Proof.
  induction g as [|[c|] g IH]; simpl; intros Hg k Hk.
  - exact Hk.
  - apply andb_true_iff in Hg as [Hc Hg].
    apply andb_true_iff in Hc as [_ Hc]. apply negb_true_iff in Hc.
    intros [|c' s]; [done|]. cbn [take_value drop_value].
    destruct (is_delim c') eqn:Hc'.
    + by rewrite eq_ci_delim.
    + destruct (eq_ci c c'); [|done]. by rewrite (IH Hg k Hk s).
  - apply match_star_upto, IH; done.
Qed.

(** What the expression matches at a position depends on the text up to the
    next separator only, and the match ends at that separator. *)
Lemma match_alts_upto : upto_separator (match_alts gs).
Proof.
  unfold plain_names in Hplain.
  induction gs as [|g gs' IH]; intros s; simpl; [done|].
  simpl in Hplain. apply andb_true_iff in Hplain as [Hg Hgs'].
  rewrite (match_glob_upto g Hg match_value match_value_upto s).
  destruct (match_glob g match_value (take_value s)); [done|].
  by apply IH.
Qed.

Lemma boundary_replaceAll r :
  boundary r -> boundary (replaceAll gs false r).
Proof.
  induction r as [r IH] using string_length_ind. intros Hr.
  rewrite replaceAll_unfold. unfold match_here.
  destruct r as [|c r']; [done|]. simpl in Hr.
  destruct (Ascii.eqb c "&"); [|done].
  rewrite match_alts_upto.
  destruct (match_alts gs (take_value r')); [|done].
  apply IH; [|apply boundary_drop_value].
  simpl. pose proof (drop_value_length r'). lia.
Qed.

Lemma take_value_replaceAll s :
  take_value (replaceAll gs false s) = take_value s.
Proof.
  rewrite replaceAll_take_value.
  apply take_value_app, boundary_replaceAll, boundary_drop_value.
Qed.

Lemma match_alts_replaceAll s :
  match_alts gs s = None -> match_alts gs (replaceAll gs false s) = None.
Proof.
  intros Hs. rewrite match_alts_upto in Hs |- *.
  rewrite take_value_replaceAll.
  by destruct (match_alts gs (take_value s)).
Qed.

(** What the replace leaves holds no match after its start. *)
Lemma nomatch_replaceAll s : nomatch gs false (replaceAll gs false s).
Proof.
  induction s as [s IH] using string_length_ind.
  rewrite replaceAll_unfold.
  destruct (match_here gs false s) as [r|] eqn:E.
  - apply IH. by apply (match_here_shortening gs false).
  - destruct s as [|c s']; [done|].
    split; [|apply IH; simpl; lia].
    unfold match_here in E |- *.
    destruct (Ascii.eqb c "&"); [|done]. by apply match_alts_replaceAll.
Qed.

(** At its start, what the replace leaves either offers no match to the caret
    alternative or begins with an ampersand. *)
Lemma replaceAll_start_shape q :
  match_alts gs (replaceAll gs true q) = None
  \/ exists o', replaceAll gs true q = String "&" o'.
Proof.
  rewrite replaceAll_start. destruct (match_alts gs q) as [r|] eqn:E.
  - rewrite match_alts_upto in E.
    destruct (match_alts gs (take_value q)); [|done]. injection E as <-.
    pose proof (boundary_replaceAll (drop_value q) (boundary_drop_value q))
      as Hb.
    destruct (replaceAll gs false (drop_value q)) as [|c o'] eqn:Ho.
    + left. apply match_alts_empty.
    + simpl in Hb. destruct (Ascii.eqb_spec c "&") as [->|Hc]; [right; eauto|].
      left. rewrite match_alts_upto. simpl. rewrite Hb.
      by rewrite match_alts_empty.
  - left. by apply match_alts_replaceAll.
Qed.

Lemma match_alts_strip_amp o :
  nomatch gs false o ->
  (match_alts gs o = None \/ exists o', o = String "&" o') ->
  match_alts gs (strip_amp o) = None.
Proof.
  induction o as [|c o IH]; intros Hno Hstart; simpl.
  - apply match_alts_empty.
  - destruct Hno as [Hhere Hrest]. unfold match_here in Hhere.
    destruct (Ascii.eqb_spec c "&") as [->|Hc].
    + apply IH; [done|by left].
    + destruct Hstart as [?|[o' [= ? ?]]]; done.
Qed.

Lemma nomatch_at_start t :
  match_alts gs t = None -> nomatch gs false t -> nomatch gs true t.
Proof.
  intros Halts Hno. destruct t as [|c t]; destruct Hno as [Hhere Hrest];
    (split; [|done]); unfold match_here in *; by rewrite Halts.
Qed.

Lemma strip_amp_idem s : strip_amp (strip_amp s) = strip_amp s.
Proof.
  induction s as [|c s IH]; simpl; [done|].
  destruct (Ascii.eqb c "&") eqn:Hc; [done|]. simpl. by rewrite Hc.
Qed.

(** The query left by one pass holds no tracking parameter: a second pass
    leaves it as it is. *)
Lemma nomatch_stripped q : nomatch gs true (strip_amp (replaceAll gs true q)).
Proof.
  assert (Ho : nomatch gs false (replaceAll gs true q))
    by (rewrite replaceAll_start; apply nomatch_replaceAll).
  apply nomatch_at_start.
  - apply match_alts_strip_amp; [done|apply replaceAll_start_shape].
  - by apply nomatch_suffix_strip.
Qed.

Lemma replace_strip_fixed q :
  strip_amp (replaceAll gs true (strip_amp (replaceAll gs true q)))
  = strip_amp (replaceAll gs true q).
Proof.
  rewrite (replaceAll_nomatch true) by apply nomatch_stripped.
  apply strip_amp_idem.
Qed.

Lemma no_char_drop_value c s : no_char c s -> no_char c (drop_value s).
Proof.
  induction s as [|c' s IH]; simpl; [done|].
  intros [Hc Hs]. destruct (is_delim c'); simpl; auto.
Qed.

Lemma no_char_strip_amp c s : no_char c s -> no_char c (strip_amp s).
Proof.
  induction s as [|c' s IH]; simpl; [done|].
  intros [Hc Hs]. destruct (Ascii.eqb c' "&"); simpl; auto.
Qed.

(** The replace only deletes: a character absent from the text is absent
    from the result. *)
Lemma no_char_replaceAll c at0 s :
  no_char c s -> no_char c (replaceAll gs at0 s).
Proof.
  revert at0. induction s as [s IH] using string_length_ind.
  intros at0 Hs. rewrite replaceAll_unfold.
  destruct (match_here gs at0 s) as [r|] eqn:E.
  - apply IH; [by apply (match_here_shortening gs at0)|].
    unfold match_here in E.
    destruct (if at0 then match_alts gs s else None) as [r'|] eqn:E'.
    + injection E as <-. destruct at0; [|done].
      rewrite match_alts_upto in E'.
      destruct (match_alts gs (take_value s)); [|done]. injection E' as <-.
      by apply no_char_drop_value.
    + destruct s as [|c' s']; [done|]. destruct Hs as [_ Hs].
      destruct (Ascii.eqb c' "&"); [|done].
      rewrite match_alts_upto in E.
      destruct (match_alts gs (take_value s')); [|done]. injection E as <-.
      by apply no_char_drop_value.
  - destruct s as [|c' s']; [done|]. destruct Hs as [Hc Hs].
    split; [done|]. apply IH; [simpl; lia|done].
Qed.

End StealthProperties.

(** *** Splitting and joining the URL *)

Lemma split_char_nonempty c s : split c s <> [].
Proof.
  destruct s as [|c' s]; simpl; [done|].
  destruct (Ascii.eqb c' c); [done|]. by destruct (split c s).
Qed.

Lemma concat_split_char c s :
  String.concat (String c EmptyString) (split c s) = s.
Proof.
  induction s as [|c' s IH]; simpl; [done|].
  pose proof (split_char_nonempty c s) as Hne.
  destruct (Ascii.eqb_spec c' c) as [->|Hc];
    destruct (split c s) as [|p ps] eqn:E; try done.
  - change (String.concat (String c EmptyString) (EmptyString :: p :: ps))
      with (String c (String.concat (String c EmptyString) (p :: ps))).
    by rewrite IH.
  - destruct ps as [|q ps]; [simpl in *; by rewrite IH|].
    change (String.concat (String c EmptyString) (String c' p :: q :: ps))
      with (String c' (String.concat (String c EmptyString) (p :: q :: ps))).
    by rewrite IH.
Qed.

Lemma split_parts_no_char c s : Forall (Stealth.no_char c) (split c s).
Proof.
  induction s as [|c' s IH]; simpl; [by repeat constructor|].
  destruct (Ascii.eqb_spec c' c) as [->|Hc]; [by constructor|].
  destruct (split c s) as [|p ps]; [by repeat constructor|].
  inversion IH as [|? ? Hp Hps]; subst. by constructor.
Qed.

Lemma split_no_char c s : Stealth.no_char c s -> split c s = [s].
Proof.
  induction s as [|c' s IH]; simpl; [done|]. intros [Hc Hs].
  destruct (Ascii.eqb_spec c' c) as [->|_]; [done|]. by rewrite IH.
Qed.

Lemma split_app_sep c p rest :
  Stealth.no_char c p ->
  split c (p +:+ String c rest) = p :: split c rest.
Proof.
  induction p as [|c' p IH]; simpl.
  - intros _. by rewrite Ascii.eqb_refl.
  - intros [Hc Hp]. destruct (Ascii.eqb_spec c' c) as [->|_]; [done|].
    by rewrite IH.
Qed.

Lemma split_concat c parts :
  parts <> [] -> Forall (Stealth.no_char c) parts ->
  split c (String.concat (String c EmptyString) parts) = parts.
Proof.
  induction parts as [|p ps IH]; [done|]. intros _ Hall.
  inversion Hall as [|? ? Hp Hps]; subst.
  destruct ps as [|q ps]; [by apply split_no_char|].
  change (String.concat (String c EmptyString) (p :: q :: ps))
    with (p +:+ String c (String.concat (String c EmptyString) (q :: ps))).
  rewrite split_app_sep by done. by rewrite IH.
Qed.

Lemma plain_alternatives names :
  Stealth.plain_names names = true ->
  Stealth.plain_names (Stealth.alternatives names) = true.
Proof. by destruct names. Qed.

(** One pass leaves a URL on which a second pass changes nothing. *)
Lemma stripTrackingParameters_idempotent setting url res :
  Stealth.plain_names (Stealth.trackingParameters setting) = true ->
  Stealth.stripTrackingParameters setting url = Some res ->
  Stealth.stripTrackingParameters setting res = None.
Proof.
  intros Hplain%plain_alternatives. unfold Stealth.stripTrackingParameters.
  pose proof (split_parts_no_char "?" url) as Hparts.
  destruct (split "?" url) as [|p0 [|p1 rest]]; [done..|].
  inversion Hparts as [|? ? Hp0 Hrest']; subst.
  inversion Hrest' as [|? ? Hp1 Hrest]; subst.
  set (gs := Stealth.alternatives (Stealth.trackingParameters setting)) in *.
  set (t := Stealth.strip_amp (Stealth.replaceAll gs true p1)).
  assert (Ht : Stealth.no_char "?" t)
    by (by apply no_char_strip_amp, no_char_replaceAll).
  assert (Hfix : Stealth.strip_amp (Stealth.replaceAll gs true t) = t)
    by (by apply replace_strip_fixed).
  destruct (String.eqb_spec t EmptyString) as [Hempty|Hfull].
  - destruct (String.eqb p0 url); [done|]. intros [= <-].
    by rewrite split_no_char.
  - remember (String.concat "?" (p0 :: t :: rest)) as joined eqn:Hj.
    destruct (String.eqb joined url); [done|]. intros [= <-].
    rewrite Hj at 1.
    rewrite split_concat by (done || by repeat constructor).
    fold gs. rewrite Hfix.
    destruct (String.eqb_spec t EmptyString); [done|].
    rewrite <- Hj. by rewrite String.eqb_refl.
Qed.

(** A URL without a question mark is not rewritten. *)
Lemma stripTrackingParameters_no_query setting url :
  Stealth.no_char "?" url -> Stealth.stripTrackingParameters setting url = None.
Proof.
  intros Hurl. unfold Stealth.stripTrackingParameters.
  by rewrite split_no_char.
Qed.

(** A URL whose query is not empty, does not start with an ampersand and
    holds no tracking parameter is not rewritten. *)
Lemma stripTrackingParameters_nomatch setting url p0 p1 rest :
  split "?" url = p0 :: p1 :: rest ->
  p1 <> EmptyString -> Stealth.strip_amp p1 = p1 ->
  Stealth.nomatch
    (Stealth.alternatives (Stealth.trackingParameters setting)) true p1 ->
  Stealth.stripTrackingParameters setting url = None.
Proof.
  intros Hsplit Hne Hamp Hno. unfold Stealth.stripTrackingParameters.
  rewrite Hsplit, replaceAll_nomatch, Hamp by done.
  destruct (String.eqb_spec p1 EmptyString); [done|].
  rewrite <- Hsplit, concat_split_char. by rewrite String.eqb_refl.
Qed.

Section StealthServiceProperties.

Import Stealth.

Context {Rule Element : Type}.

Variable settings : Settings.
Variable shouldStopRequestProcess : Tab -> bool.
Variable getMainFrameUrl : Tab -> option string.
Variable findWhiteListRule : string -> string -> RequestType -> option Rule.
Variable isDocumentWhiteList : Rule -> bool.
Variable findStealthWhitelistRule
  : string -> string -> RequestType -> option Rule.

Abbreviation removeTrackers :=
  (@removeTrackersFromUrl Rule Element settings shouldStopRequestProcess
     getMainFrameUrl findWhiteListRule isDocumentWhiteList
     findStealthWhitelistRule).

(** A URL is returned only as the result of the stripping. *)
Lemma removeTrackers_some (storage : @Ledger.State Rule Element) id res :
  (removeTrackers storage id).1 = Some res ->
  exists c, Ledger.get storage id = Some c /\
            stripTrackingParameters (TRACKING_PARAMETERS settings)
              (Ledger.requestUrl c) = Some res.
Proof.
  unfold removeTrackersFromUrl.
  destruct (Ledger.get storage id) as [c|];
    [|by destruct (negb _)].
  intros Hres. exists c. split; [done|]. revert Hres.
  repeat match goal with
         | |- context [if ?b then _ else _] => destruct b; try done
         | |- context [match ?x with Some _ => _ | None => _ end] =>
             destruct x; try done
         end.
Qed.

Lemma removeTrackers_none (storage : @Ledger.State Rule Element) id c :
  Ledger.get storage id = Some c ->
  stripTrackingParameters (TRACKING_PARAMETERS settings) (Ledger.requestUrl c)
  = None ->
  (removeTrackers storage id).1 = None.
Proof.
  intros Hc Hnone.
  destruct (removeTrackers storage id).1 as [res|] eqn:E; [|done].
  apply removeTrackers_some in E as (c' & Hc' & Hres). congruence.
Qed.

(** C8 (amended).  With tracking-parameter names made of characters that are
    neither syntax of regular expressions nor the separators of a query, the
    stripping is idempotent: the URL returned for a request is reported as not
    rewritten (null) when it is the URL of the request submitted next.  A URL
    without a question mark, and a URL whose query (the text between its first
    and its second question mark) is not empty, does not start with an
    ampersand and holds no matching parameter, is reported as not
    rewritten. *)
Theorem tracking_parameters_stripped_once
    (storage : @Ledger.State Rule Element) (id : string)
    (c : @Ledger.RequestContext Rule Element) :
  plain_names (trackingParameters (TRACKING_PARAMETERS settings)) = true ->
  Ledger.get storage id = Some c ->
  (forall res (storage' : @Ledger.State Rule Element) id' c',
     (removeTrackers storage id).1 = Some res ->
     Ledger.get storage' id' = Some c' ->
     Ledger.requestUrl c' = res ->
     (removeTrackers storage' id').1 = None)
  /\ (no_char "?" (Ledger.requestUrl c) ->
      (removeTrackers storage id).1 = None)
  /\ (forall p0 p1 rest,
        split "?" (Ledger.requestUrl c) = p0 :: p1 :: rest ->
        p1 <> EmptyString -> strip_amp p1 = p1 ->
        nomatch
          (alternatives (trackingParameters (TRACKING_PARAMETERS settings)))
          true p1 ->
        (removeTrackers storage id).1 = None).
Proof.
  intros Hplain Hc. split; [|split].
  - intros res storage' id' c' Hres Hc' Hurl.
    apply (removeTrackers_none storage' id' c' Hc'). rewrite Hurl.
    apply removeTrackers_some in Hres as (c0 & Hc0 & Hres).
    by apply (stripTrackingParameters_idempotent _ (Ledger.requestUrl c0)).
  - intros Hno. apply (removeTrackers_none storage id c Hc).
    by apply stripTrackingParameters_no_query.
  - intros p0 p1 rest Hsplit Hne Hamp Hno.
    apply (removeTrackers_none storage id c Hc).
    by apply (stripTrackingParameters_nomatch _ _ p0 p1 rest).
Qed.

End StealthServiceProperties.

(** *** Instances on the sample stealth service *)

Lemma tracking_parameters_stripped_once_witness :
  Stealth.plain_names
    (Stealth.trackingParameters
       (Stealth.TRACKING_PARAMETERS Samples.sample_settings)) = true /\
  (Samples.sample_removeTrackers
     (Samples.document "http://h/p?utm_source=1&a=2") "r1").1
  = Some "http://h/p?a=2" /\
  (Samples.sample_removeTrackers
     (Samples.document "http://h/p?a=2") "r1").1 = None.
Proof.
  assert (H0 : Stealth.plain_names
                 (Stealth.trackingParameters
                    (Stealth.TRACKING_PARAMETERS Samples.sample_settings))
               = true) by (vm_compute; reflexivity).
  assert (H1 : (Samples.sample_removeTrackers
                  (Samples.document "http://h/p?utm_source=1&a=2") "r1").1
               = Some "http://h/p?a=2") by (vm_compute; reflexivity).
  split; [exact H0|]. split; [exact H1|].
  refine (proj1 (tracking_parameters_stripped_once Samples.sample_settings
                   (fun _ => false) (fun _ => Some "http://a.example/")
                   (fun _ _ _ => None) (fun _ => false) (fun _ _ _ => None)
                   (Samples.document "http://h/p?utm_source=1&a=2") "r1"
                   _ H0 _)
            "http://h/p?a=2" (Samples.document "http://h/p?a=2") "r1" _
            H1 _ _);
    vm_compute; reflexivity.
Defined.

(** C8 as stated fails on a URL that ends with its question mark: its empty
    query holds no tracking parameter, yet the URL is rewritten (the question
    mark is dropped) instead of being reported as not rewritten.  It also fails
    for a parameter name holding an ampersand: deleting one match then brings
    the two halves of another one together, so a second pass rewrites the URL
    again. *)
Lemma empty_query_is_rewritten :
  split "?" "http://h/p?" = ["http://h/p"; EmptyString] /\
  Stealth.nomatch
    (Stealth.alternatives
       (Stealth.trackingParameters
          (Stealth.TRACKING_PARAMETERS Samples.sample_settings)))
    true EmptyString /\
  (Samples.sample_removeTrackers (Samples.document "http://h/p?") "r1").1
  = Some "http://h/p" /\
  Stealth.stripTrackingParameters "a&b" "u?a&a&b=2&b=1" = Some "u?a&b=1" /\
  Stealth.stripTrackingParameters "a&b" "u?a&b=1" = Some "u".
Proof. repeat split; vm_compute; reflexivity. Qed.

(** * Further properties of the request ledger *)

Section LedgerInvariantProperties.

Import Ledger LedgerInvariants.

Context {Rule Element : Type} `{EqDecision Rule}.

Abbreviation LState := (@Ledger.State Rule Element).
Abbreviation LContext := (@Ledger.RequestContext Rule Element).
Abbreviation LEvent := (@Ledger.Event Rule Element).

(** *** Calls for a request that has no context *)

(** X1.  A call that arrives for a request id without a context, after the
    context was removed or before any [record], changes nothing and sends
    nothing to the collaborators, for every entry point but [record]. *)
Theorem late_calls_do_nothing (s : LState) (id : string)
    (u : ContextUpdate) (rule : Rule) (elementHtml : Element) :
  contexts s !! id = None ->
  update s id u = (s, [])
  /\ bindContentRule s id rule elementHtml = s
  /\ remove s id = (s, [], Normal)
  /\ onRequestCompleted s id = (s, [], Normal)
  /\ onContentModificationStarted s id = (s, [])
  /\ onContentModificationFinished s id = (s, [], Normal).
Proof.
  intros Hnone.
  assert (Hupd : forall u', update s id u' = (s, []))
    by (intros u'; by apply update_absent).
  assert (Hrem : remove s id = (s, [], Normal)) by (by apply remove_absent).
  repeat split; try done.
  - unfold bindContentRule. by rewrite Hnone.
  - unfold onRequestCompleted. by rewrite Hupd, Hrem.
  - apply Hupd.
  - unfold onContentModificationFinished. by rewrite Hupd, Hrem.
Qed.

(** *** No TypeError in a reachable state *)

Lemma flushContentRules_elements (c : LContext) rules m :
  is_Some (flushContentRules c rules (Some m)).1.1.
Proof.
  revert m. induction rules as [|r rules IH]; intros m; simpl; [eauto|].
  specialize (IH (elements_delete m r)).
  by destruct (flushContentRules c rules (Some (elements_delete m r)))
    as [[els ev] k].
Qed.

Lemma flushContent_wf (c : LContext) :
  context_wf c ->
  (flushContent c).2 = Normal
  /\ (is_Some (contentRules c) -> is_Some (flushContent c).1.1.1).
Proof.
  intros Hwf. unfold flushContent.
  destruct (contentRules c) as [rules|] eqn:Hr;
    [|simpl; split; [done|by intros [? [=]]]].
  destruct (Hwf ltac:(eauto)) as [m Hm]. rewrite Hm.
  pose proof (flushContentRules_normal c rules m) as Hn.
  pose proof (flushContentRules_elements c rules m) as Hsome.
  destruct (flushContentRules c rules (Some m)) as [[els ev] k].
  simpl in *. by split.
Qed.

Lemma remove_context_wf (c : LContext) :
  context_wf c ->
  context_wf (remove_context c).1.1.1 /\ (remove_context c).2 = Normal.
Proof.
  intros Hwf. unfold remove_context.
  destruct (decide (requestState c = DONE)); cbv beta iota zeta;
    destruct (decide (contentModifyingState _ = DONE)); cbv beta iota zeta;
    try done;
    match goal with
    | |- context [flushContent ?x] =>
        destruct (flushContent_wf x Hwf) as [Hn Hels];
        destruct (flushContent x) as [[[els ev] hits] k];
        simpl in Hn, Hels; subst k; split; [exact Hels|done]
    end.
Qed.

Lemma update_context_wf (c : LContext) u :
  context_wf c -> context_wf (update_context c u).1.
Proof.
  unfold update_context, context_wf. simpl.
  by destruct (u_requestState u), (u_contentModifyingState u).
Qed.

Lemma state_wf_insert (s : LState) id c :
  state_wf s -> context_wf c -> state_wf (set_context s id c).
Proof.
  intros Hs Hc id' c'. unfold set_context. simpl.
  destruct (decide (id = id')) as [->|Hne].
  - rewrite lookup_insert_eq. by intros [= <-].
  - rewrite lookup_insert_ne by done. apply Hs.
Qed.

Lemma state_wf_delete (s : LState) id :
  state_wf s -> state_wf (delete_context s id).
Proof.
  intros Hs id' c'. unfold delete_context. simpl.
  destruct (decide (id = id')) as [->|Hne].
  - by rewrite lookup_delete_eq.
  - rewrite lookup_delete_ne by done. apply Hs.
Qed.

Lemma update_wf (s : LState) id u : state_wf s -> state_wf (update s id u).1.
Proof.
  intros Hs. unfold update.
  destruct (contexts s !! id) as [c|] eqn:Hc; [|done].
  pose proof (update_context_wf c u (Hs id c Hc)) as Hwf.
  destruct (update_context c u) as [c' ev]. by apply state_wf_insert.
Qed.

Lemma remove_wf (s : LState) id :
  state_wf s -> state_wf (remove s id).1.1 /\ (remove s id).2 = Normal.
Proof.
  intros Hs. unfold remove.
  destruct (contexts s !! id) as [c|] eqn:Hc; [|done].
  destruct (remove_context_wf c (Hs id c Hc)) as [Hwf Hn].
  destruct (remove_context c) as [[[c' ev] del] k]. simpl in *.
  split; [|done].
  destruct del; [by apply state_wf_delete|by apply state_wf_insert].
Qed.

Lemma step_wf (s : LState) call : state_wf s -> state_wf (step s call).1.
Proof.
  intros Hs.
  destruct call as [id url ref origin ty t| | id u | id rule el
                   | id | id | id]; cbn [step].
  - rewrite record_unfold. apply (state_wf_insert
      {| contexts := contexts s; nextEventId := js_succ (nextEventId s) |});
      [done|]. by intros [? [=]].
  - done.
  - by apply update_wf.
  - unfold bindContentRule. simpl.
    destruct (contexts s !! id) as [c|] eqn:Hc; [|done].
    apply state_wf_insert; [done|]. intros _. simpl. eauto.
  - unfold onRequestCompleted.
    pose proof (update_wf s id
                  {| u_requestState := Some DONE;
                     u_contentModifyingState := None; u_requestRule := None;
                     u_replaceRules := None; u_cspRules := None;
                     u_stealthActions := None; u_requestHeaders := None;
                     u_responseHeaders := None;
                     u_modifiedRequestHeaders := None;
                     u_modifiedResponseHeaders := None |} Hs) as Hu.
    destruct (update s id _) as [s1 ev1]. simpl in Hu.
    pose proof (remove_wf s1 id Hu) as [Hr _].
    by destruct (remove s1 id) as [[s2 ev2] k].
  - by apply update_wf.
  - unfold onContentModificationFinished.
    pose proof (update_wf s id (contentModifying DONE) Hs) as Hu.
    destruct (update s id _) as [s1 ev1]. simpl in Hu.
    pose proof (remove_wf s1 id Hu) as [Hr _].
    by destruct (remove s1 id) as [[s2 ev2] k].
Qed.

Lemma run_wf calls : forall s : LState, state_wf s -> state_wf (run s calls).1.
Proof.
  induction calls as [|call calls IH]; intros s Hs; simpl; [done|].
  pose proof (step_wf s call Hs) as H1.
  destruct (step s call) as [s1 ev1]. specialize (IH s1 H1).
  by destruct (run s1 calls) as [s2 ev2].
Qed.

(** X2.  In every state reached from the empty ledger by calls of the API a
    context that has content rules has its elements map, so [remove],
    [onRequestCompleted] and [onContentModificationFinished] never end in the
    TypeError that reading a missing map would raise. *)
Theorem reachable_never_throws (calls : list Call) (id : string) :
  let s : LState := (run initial calls).1 in
  state_wf s
  /\ (remove s id).2 = Normal
  /\ (onRequestCompleted s id).2 = Normal
  /\ (onContentModificationFinished s id).2 = Normal.
Proof.
  intros s.
  assert (Hs : state_wf s).
  { apply run_wf. intros id' c'. unfold initial. simpl.
    by rewrite lookup_empty. }
  split; [done|]. split; [by apply remove_wf|]. split.
  - unfold onRequestCompleted.
    pose proof (update_wf s id
                  {| u_requestState := Some DONE;
                     u_contentModifyingState := None; u_requestRule := None;
                     u_replaceRules := None; u_cspRules := None;
                     u_stealthActions := None; u_requestHeaders := None;
                     u_responseHeaders := None;
                     u_modifiedRequestHeaders := None;
                     u_modifiedResponseHeaders := None |} Hs) as Hu.
    destruct (update s id _) as [s1 ev1]. simpl in Hu.
    pose proof (remove_wf s1 id Hu) as [_ Hn].
    by destruct (remove s1 id) as [[s2 ev2] k].
  - unfold onContentModificationFinished.
    pose proof (update_wf s id (contentModifying DONE) Hs) as Hu.
    destruct (update s id _) as [s1 ev1]. simpl in Hu.
    pose proof (remove_wf s1 id Hu) as [_ Hn].
    by destruct (remove s1 id) as [[s2 ev2] k].
Qed.

(** *** Keys and event ids of the stored contexts *)

Lemma requestId_update_context (c : LContext) u :
  requestId (update_context c u).1 = requestId c.
Proof.
  unfold update_context. simpl.
  by destruct (u_requestState u), (u_contentModifyingState u).
Qed.

Lemma requestId_remove_context (c : LContext) :
  requestId (remove_context c).1.1.1 = requestId c.
Proof.
  unfold remove_context.
  destruct (decide (requestState c = DONE)); simpl;
    destruct (decide (contentModifyingState _ = DONE)); simpl;
    try destruct (flushContent _) as [[[els ev] hits] k]; simpl;
    try destruct k; done.
Qed.

Lemma update_origin (s : LState) id0 u id (c' : LContext) :
  contexts (update s id0 u).1 !! id = Some c' ->
  exists c, contexts s !! id = Some c
            /\ eventId c' = eventId c /\ requestId c' = requestId c.
Proof.
  unfold update.
  destruct (contexts s !! id0) as [cx|] eqn:Hx; [|simpl; eauto].
  pose proof (eventId_update_context cx u) as He.
  pose proof (requestId_update_context cx u) as Hr.
  destruct (update_context cx u) as [cx' ev]. simpl in *.
  destruct (decide (id0 = id)) as [->|Hne].
  - rewrite lookup_insert_eq. intros [= <-]. eauto.
  - rewrite lookup_insert_ne by done. eauto.
Qed.

Lemma remove_origin (s : LState) id0 id (c' : LContext) :
  contexts (remove s id0).1.1 !! id = Some c' ->
  exists c, contexts s !! id = Some c
            /\ eventId c' = eventId c /\ requestId c' = requestId c.
Proof.
  unfold remove.
  destruct (contexts s !! id0) as [cx|] eqn:Hx; [|simpl; eauto].
  pose proof (eventId_remove_context cx) as He.
  pose proof (requestId_remove_context cx) as Hr.
  destruct (remove_context cx) as [[[cx' ev] del] k]. simpl in *.
  destruct (decide (id0 = id)) as [->|Hne].
  - destruct del; simpl.
    + by rewrite lookup_delete_eq.
    + rewrite lookup_insert_eq. intros [= <-]. eauto.
  - destruct del; simpl.
    + rewrite lookup_delete_ne by done. eauto.
    + rewrite lookup_insert_ne by done. eauto.
Qed.

(** A call other than a [record] for the request creates no context for it
    and keeps the request id and the event id of the one it finds. *)
Lemma step_origin (s : LState) call id (c' : LContext) :
  is_record_for id call = false ->
  contexts (step s call).1 !! id = Some c' ->
  exists c, contexts s !! id = Some c
            /\ eventId c' = eventId c /\ requestId c' = requestId c.
Proof.
  intros Hrec.
  destruct call as [id0 url ref origin ty t| | id0 u | id0 rule el
                   | id0 | id0 | id0]; cbn [step is_record_for] in *.
  - rewrite record_unfold. simpl.
    apply bool_decide_eq_false in Hrec.
    rewrite lookup_insert_ne by done. eauto.
  - unfold recordEmulated. simpl. eauto.
  - apply update_origin.
  - unfold bindContentRule. simpl.
    destruct (contexts s !! id0) as [cx|] eqn:Hx; [|eauto].
    simpl. destruct (decide (id0 = id)) as [->|Hne].
    + rewrite lookup_insert_eq. intros [= <-]. eauto.
    + rewrite lookup_insert_ne by done. eauto.
  - unfold onRequestCompleted.
    match goal with
    | |- context [update s id0 ?u] =>
        pose proof (update_origin s id0 u id) as Hou;
        destruct (update s id0 u) as [s1 ev1]
    end.
    pose proof (remove_origin s1 id0 id c') as Hor.
    destruct (remove s1 id0) as [[s2 ev2] k]. simpl in *. intros H2.
    destruct (Hor H2) as (c1 & H1 & He1 & Hr1).
    destruct (Hou c1 H1) as (c & H0 & He0 & Hr0).
    exists c. split; [done|]. split; congruence.
  - apply update_origin.
  - unfold onContentModificationFinished.
    match goal with
    | |- context [update s id0 ?u] =>
        pose proof (update_origin s id0 u id) as Hou;
        destruct (update s id0 u) as [s1 ev1]
    end.
    pose proof (remove_origin s1 id0 id c') as Hor.
    destruct (remove s1 id0) as [[s2 ev2] k]. simpl in *. intros H2.
    destruct (Hor H2) as (c1 & H1 & He1 & Hr1).
    destruct (Hou c1 H1) as (c & H0 & He0 & Hr0).
    exists c. split; [done|]. split; congruence.
Qed.

Lemma step_counter_mono (s : LState) call :
  nextEventId s <= nextEventId (step s call).1.
Proof.
  destruct (step_counter s call) as [[-> _]|[-> _]];
    [lia|apply js_succ_mono].
Qed.

Lemma step_keyed (s : LState) call :
  nextEventId (step s call).1 < MAX_SAFE ->
  state_keyed s -> state_keyed (step s call).1.
Proof.
  intros Hlt (Hpos & Hkey & Huniq).
  pose proof (step_counter_mono s call) as Hmono.
  destruct call as [id0 url ref origin ty t| | | | | |];
    [|(split; [lia|split];
       [intros rid c' Hc';
        apply step_origin in Hc' as (c & Hc & -> & ->); [|done];
        destruct (Hkey rid c Hc); split; [done|lia]
       |intros id1 id2 c1' c2' H1 H2;
        apply step_origin in H1 as (c1 & Hc1 & -> & _); [|done];
        apply step_origin in H2 as (c2 & Hc2 & -> & _); [|done];
        by apply (Huniq id1 id2 c1 c2)])..].
  cbn [step] in *. rewrite record_unfold in *. simpl in *.
  assert (Hn : nextEventId s < MAX_SAFE) by lia.
  rewrite js_succ_exact in * by done.
  unfold state_keyed. simpl.
  split; [lia|]. split.
  - intros id c. destruct (decide (id0 = id)) as [->|Hne].
    + rewrite lookup_insert_eq. intros [= <-]. simpl. split; [done|lia].
    + rewrite lookup_insert_ne by done. intros Hc.
      destruct (Hkey id c Hc). split; [done|lia].
  - intros id1 id2 c1 c2.
    destruct (decide (id1 = id0)) as [->|Hne1];
      destruct (decide (id2 = id0)) as [->|Hne2]; try done.
    + rewrite lookup_insert_eq, lookup_insert_ne by done.
      intros [= <-] Hc2 He. simpl in He.
      destruct (Hkey id2 c2 Hc2). lia.
    + rewrite lookup_insert_eq, lookup_insert_ne by done.
      intros Hc1 [= <-] He. simpl in He.
      destruct (Hkey id1 c1 Hc1). lia.
    + rewrite !lookup_insert_ne by done. apply Huniq.
Qed.

Lemma run_keyed calls : forall s : LState,
  nextEventId (run s calls).1 < MAX_SAFE ->
  state_keyed s -> state_keyed (run s calls).1.
Proof.
  induction calls as [|call calls IH]; intros s; simpl; [done|].
  pose proof (step_keyed s call) as Hstep.
  destruct (step s call) as [s1 ev1]. simpl in Hstep.
  specialize (IH s1). pose proof (run_issued calls s1) as Hrun.
  destruct (run s1 calls) as [s2 ev2]. simpl in *.
  intros Hlt Hs. apply IH; [done|]. apply Hstep; [|done].
  destruct (Hrun Hlt) as [Hle _]. lia.
Qed.

(** X3.  In every state reached from the empty ledger while the counter is
    below 2^53, each context is stored under its own request id, its event id
    is positive and at most the counter, and two contexts stored under
    different request ids have different event ids. *)
Theorem reachable_contexts_keyed (calls : list Call) :
  nextEventId (run (@initial Rule Element) calls).1 < MAX_SAFE ->
  state_keyed (run (@initial Rule Element) calls).1.
Proof.
  intros Hlt. apply run_keyed; [done|].
  split; [done|]. split.
  - intros id c. unfold initial. simpl. by rewrite lookup_empty.
  - intros id1 id2 c1 c2. unfold initial. simpl. by rewrite lookup_empty.
Qed.

(** *** Rules accumulated by update *)

Lemma update_present (s : LState) id (c : LContext) u :
  contexts s !! id = Some c ->
  update s id u
  = (set_context s id (update_context c u).1, (update_context c u).2).
Proof.
  intros Hc. unfold update. rewrite Hc.
  by destruct (update_context c u).
Qed.

Lemma filter_request_csp (c : LContext) (l : list Rule) :
  List.filter isRequestEvent
    (map (fun r => AddHttpRequestEvent (tab c) (requestUrl c)
                     (referrerUrl c) CSP (Some r) None : LEvent) l)
  = map (fun r => AddHttpRequestEvent (tab c) (requestUrl c)
                    (referrerUrl c) CSP (Some r) None : LEvent) l.
Proof. induction l as [|x l IH]; simpl; [done|]. by rewrite IH. Qed.

Lemma filter_request_hits (c : LContext) (l : list HitRecord) :
  List.filter isRequestEvent (recordRuleHits c l) = [].
Proof. induction l as [|x l IH]; simpl; done. Qed.

(** The request events of a network flush are the CSP events, one for each
    CSP rule of the context. *)
Lemma networkFlush_request_events (c : LContext) :
  List.filter isRequestEvent (networkFlush c)
  = map (fun r => AddHttpRequestEvent (tab c) (requestUrl c)
                    (referrerUrl c) CSP (Some r) None : LEvent)
      (default [] (cspRules c)).
Proof.
  unfold networkFlush, flushRequest. cbn [fst snd].
  rewrite !List.filter_app, filter_request_hits, app_nil_r.
  destruct (requestRule c), (stealthActions c) as [a|];
    try destruct (a =? 0); simpl; rewrite ?app_nil_r;
    (destruct (cspRules c) as [rs|]; [apply filter_request_csp|done]).
Qed.

(** X4.  Two updates of a context compose as the code merges them: the CSP
    rules of both are appended, in order, to those the context had, while the
    replace rules of the second update take the place of those of the first;
    neither update sends anything to the collaborators, and the network flush
    later sends one CSP request event for each accumulated CSP rule. *)
Theorem csp_rules_accumulate (s : LState) (id : string) (c : LContext)
    (cspA replaceA cspB replaceB : list Rule) :
  contexts s !! id = Some c ->
  let r1 := update s id (rulesUpdate cspA replaceA) in
  let r2 := update r1.1 id (rulesUpdate cspB replaceB) in
  r1.2 = [] /\ r2.2 = [] /\
  exists c2,
    contexts r2.1 !! id = Some c2
    /\ cspRules c2 = Some (default [] (cspRules c) ++ cspA ++ cspB)
    /\ replaceRules c2 = Some replaceB
    /\ List.filter isRequestEvent (networkFlush c2)
       = map (fun r => AddHttpRequestEvent (tab c) (requestUrl c)
                         (referrerUrl c) CSP (Some r) None : LEvent)
           (default [] (cspRules c) ++ cspA ++ cspB).
Proof.
  intros Hc r1 r2.
  assert (H1 : r1 = (set_context s id
                       (update_context c (rulesUpdate cspA replaceA)).1, []))
    by (subst r1; by rewrite (update_present s id c)).
  set (c1 := (update_context c (rulesUpdate cspA replaceA)).1) in *.
  assert (H2 : r2 = (set_context r1.1 id
                       (update_context c1 (rulesUpdate cspB replaceB)).1, [])).
  { subst r2. rewrite (update_present r1.1 id c1); [done|].
    rewrite H1. apply lookup_set_context. }
  set (c2 := (update_context c1 (rulesUpdate cspB replaceB)).1) in *.
  rewrite H1, H2. split; [done|]. split; [done|].
  exists c2. split; [apply lookup_set_context|].
  assert (Hcsp : cspRules c2
                 = Some (default [] (cspRules c) ++ cspA ++ cspB)).
  { subst c2 c1. simpl. by rewrite <- app_assoc. }
  split; [done|]. split; [done|].
  rewrite networkFlush_request_events, Hcsp. done.
Qed.

(** *** Content rules and their elements *)

Lemma elements_get_notin (m : list (Rule * list Element)) r :
  r ∉ m.*1 -> elements_get m r = None.
Proof.
  induction m as [|[k v] m IH]; simpl; [done|]. intros Hr.
  apply not_elem_of_cons in Hr as [Hne Hr].
  destruct (decide (k = r)); [congruence|auto].
Qed.

Lemma elements_delete_notin (m : list (Rule * list Element)) r :
  r ∉ m.*1 -> elements_delete m r = m.
Proof.
  unfold elements_delete.
  induction m as [|[k v] m IH]; simpl; [done|]. intros Hr.
  apply not_elem_of_cons in Hr as [Hne Hr].
  rewrite filter_cons_True by (simpl; congruence). by rewrite IH.
Qed.

Lemma elements_delete_keys (m : list (Rule * list Element)) r k :
  k ∈ (elements_delete m r).*1 <-> k ∈ m.*1 /\ k <> r.
Proof.
  unfold elements_delete. rewrite !list_elem_of_fmap. split.
  - intros ([k' v] & -> & Hin). apply list_elem_of_filter in Hin as [Hne Hin].
    split; [by exists (k', v)|done].
  - intros [([k' v] & -> & Hin) Hne]. exists (k', v). split; [done|].
    by apply list_elem_of_filter.
Qed.

Lemma elements_delete_NoDup (m : list (Rule * list Element)) r :
  NoDup m.*1 -> NoDup (elements_delete m r).*1.
Proof.
  unfold elements_delete.
  induction m as [|[k v] m IH]; simpl; [done|].
  intros [Hk Hm]%NoDup_cons.
  destruct (decide (k = r)) as [->|Hne].
  - rewrite filter_cons_False by (simpl; tauto). auto.
  - rewrite filter_cons_True by done. simpl. apply NoDup_cons. split; [|auto].
    intros Hin. apply (elements_delete_keys m r k) in Hin. tauto.
Qed.

Lemma bound_pairs_split (m : list (Rule * list Element)) r :
  NoDup m.*1 ->
  bound_pairs m
  ≡ₚ map (pair r) (default [] (elements_get m r))
     ++ bound_pairs (elements_delete m r).
Proof.
  induction m as [|[k v] m IH]; simpl; [done|].
  intros [Hk Hm]%NoDup_cons.
  destruct (decide (k = r)) as [->|Hne].
  - unfold elements_delete. rewrite filter_cons_False by (simpl; tauto).
    fold (elements_delete m r). by rewrite elements_delete_notin.
  - unfold elements_delete. rewrite filter_cons_True by done.
    fold (elements_delete m r). simpl. rewrite (IH Hm).
    by rewrite !app_assoc, (Permutation_app_comm (map (pair k) v)).
Qed.

(** With an elements map of distinct keys, all among the rules, the loop over
    the content rules ends normally, empties the map and sends the cosmetic
    events of the pairs of the map. *)
Lemma flushContentRules_pairs (c : LContext) (rules : list Rule) :
  forall m : list (Rule * list Element),
    NoDup m.*1 -> (forall k, k ∈ m.*1 -> k ∈ rules) ->
    exists ev, flushContentRules c rules (Some m) = (Some [], ev, Normal)
               /\ ev ≡ₚ map (cosmeticEvent c) (bound_pairs m).
Proof.
  induction rules as [|r rules IH]; intros m Hnd Hsub.
  - destruct m as [|[k v] m].
    + by exists [].
    + specialize (Hsub k). simpl in Hsub.
      exfalso. eapply not_elem_of_nil, Hsub. left.
  - destruct (IH (elements_delete m r)) as (ev & Hev & Hperm).
    + by apply elements_delete_NoDup.
    + intros k [Hk Hne]%elements_delete_keys.
      apply Hsub, elem_of_cons in Hk as [?|?]; done.
    + cbn [flushContentRules]. rewrite Hev. eexists. split; [done|].
      rewrite Hperm, (bound_pairs_split m r Hnd), map_app, map_map. done.
Qed.

Lemma elements_set_keys (m : list (Rule * list Element)) r v k :
  k ∈ (elements_set m r v).*1 <-> k ∈ m.*1 \/ k = r.
Proof.
  induction m as [|[k' w] m IH]; simpl.
  - rewrite list_elem_of_singleton. split; [auto|].
    intros [H|H]; [by apply not_elem_of_nil in H|done].
  - destruct (decide (k' = r)) as [->|Hne]; simpl.
    + rewrite !elem_of_cons. tauto.
    + rewrite !elem_of_cons, IH. tauto.
Qed.

Lemma elements_set_NoDup (m : list (Rule * list Element)) r v :
  NoDup m.*1 -> NoDup (elements_set m r v).*1.
Proof.
  induction m as [|[k w] m IH]; simpl.
  - intros _. apply NoDup_singleton.
  - intros [Hk Hm]%NoDup_cons.
    destruct (decide (k = r)) as [->|Hne]; simpl.
    + by apply NoDup_cons.
    + apply NoDup_cons. split; [|auto].
      intros [Hin|Heq]%elements_set_keys; done.
Qed.

Lemma bound_pairs_set (m : list (Rule * list Element)) r e :
  bound_pairs (elements_set m r (default [] (elements_get m r) ++ [e]))
  ≡ₚ bound_pairs m ++ [(r, e)].
Proof.
  induction m as [|[k w] m IH]; simpl; [done|].
  destruct (decide (k = r)) as [->|Hne]; simpl.
  - rewrite map_app. simpl. rewrite <- !app_assoc.
    apply Permutation_app_head, Permutation_app_comm.
  - by rewrite IH, app_assoc.
Qed.

(** What a sequence of [bindContentRule] calls leaves in a context that had
    no content rules: the rules in the order bound, and an elements map with
    distinct keys, all among the rules, that holds the bound pairs. *)
Lemma bindAll_spec (binds : list (Rule * Element)) : forall (c : LContext)
    (done_ : list (Rule * Element)),
  default [] (contentRules c) = done_.*1 ->
  NoDup (default [] (elements c)).*1 ->
  (forall k, k ∈ (default [] (elements c)).*1 -> k ∈ done_.*1) ->
  bound_pairs (default [] (elements c)) ≡ₚ done_ ->
  let c' := bindAll c binds in
  default [] (contentRules c') = (done_ ++ binds).*1
  /\ NoDup (default [] (elements c')).*1
  /\ (forall k,
        k ∈ (default [] (elements c')).*1 -> k ∈ (done_ ++ binds).*1)
  /\ bound_pairs (default [] (elements c')) ≡ₚ done_ ++ binds
  /\ (binds <> [] -> is_Some (contentRules c') /\ is_Some (elements c'))
  /\ tab c' = tab c /\ requestUrl c' = requestUrl c
  /\ requestType c' = requestType c /\ replaceRules c' = replaceRules c
  /\ eventId c' = eventId c.
Proof.
  induction binds as [|[r e] binds IH]; intros c done_ Hrules Hnd Hsub Hperm.
  - simpl. rewrite app_nil_r. done.
  - cbn [bindAll fold_left].
    fold (bindAll (bindContentRule_context c r e) binds).
    destruct (IH (bindContentRule_context c r e) (done_ ++ [(r, e)]))
      as (H1 & H2 & H3 & H4 & H5 & H6 & H7 & H8 & H9 & H10).
    + simpl. rewrite Hrules, fmap_app. done.
    + simpl. by apply elements_set_NoDup.
    + simpl. intros k [Hin| ->]%elements_set_keys.
      * rewrite fmap_app. apply elem_of_app. auto.
      * rewrite fmap_app. apply elem_of_app. right. simpl. left.
    + simpl. by rewrite bound_pairs_set, Hperm.
    + rewrite <- app_assoc in H1, H3, H4. simpl in H1, H3, H4.
      repeat split; try done.
      * destruct binds as [|b binds]; [by eexists|].
        by apply H5.
      * destruct binds as [|b binds]; [by eexists|].
        by apply H5.
Qed.

(** X5.  After any sequence of [bindContentRule] calls on a context that had
    no content rules, the content flush ends normally, sends one cosmetic
    event for each bound (rule, element) pair, each exactly once whatever the
    interleaving of the rules, empties the elements map, and pushes one rule
    hit for each call after the entry of the replace rules. *)
Theorem content_flush_reports_each_binding (c : LContext)
    (binds : list (Rule * Element)) :
  contentRules c = None -> elements c = None ->
  let c' := bindAll c binds in
  exists cosmetic,
    flushContent c'
    = (if decide (binds = []) then None else Some [],
       match replaceRules c with
       | Some rs => [BindReplaceRulesToHttpRequestEvent (tab c) rs (eventId c)]
       | None => []
       end ++ cosmetic,
       match replaceRules c with Some rs => [HitRuleArray rs] | None => [] end
       ++ map HitRule binds.*1,
       Normal)
    /\ cosmetic ≡ₚ map (cosmeticEvent c) binds.
Proof.
  intros Hrules Hels c'.
  destruct (bindAll_spec binds c []) as
    (H1 & H2 & H3 & H4 & H5 & H6 & H7 & H8 & H9 & H10);
    rewrite ?Hrules, ?Hels; simpl; try done; [apply NoDup_nil_2|].
  fold c' in H1, H2, H3, H4, H5, H6, H7, H8, H9, H10. simpl in H1, H3, H4.
  unfold flushContent. rewrite H9, H6, H10.
  destruct (decide (binds = [])) as [->|Hne].
  - subst c'. simpl. rewrite Hrules, Hels. exists []. by rewrite !app_nil_r.
  - destruct (H5 Hne) as [[rules Hr] [m Hm]].
    rewrite Hr, Hm in *. simpl in H1, H2, H3, H4. subst rules.
    destruct (flushContentRules_pairs c' binds.*1 m H2 H3)
      as (ev & -> & Hperm).
    exists ev. split; [done|]. rewrite Hperm, H4.
    assert (Heq : map (cosmeticEvent c') binds = map (cosmeticEvent c) binds).
    { apply map_ext. intros b. unfold cosmeticEvent. by rewrite H6, H7, H8. }
    by rewrite Heq.
Qed.

(** *** Removing twice *)

Lemma remove_context_states (c : LContext) :
  requestState (remove_context c).1.1.1 <> DONE
  /\ contentModifyingState (remove_context c).1.1.1 <> DONE
  /\ ((remove_context c).2 = Normal ->
      (remove_context c).1.2
      = bool_decide (requestState (remove_context c).1.1.1 = NONE)
        && bool_decide
             (contentModifyingState (remove_context c).1.1.1 = NONE)).
Proof.
  unfold remove_context.
  destruct (decide (requestState c = DONE)) as [Hr|Hr]; cbv beta iota zeta;
    destruct (decide (contentModifyingState _ = DONE)) as [Hc|Hc];
    cbv beta iota zeta;
    try destruct (flushContent _) as [[[els ev] hits] k]; try destruct k;
    simpl in *; done.
Qed.

Lemma remove_context_settled (c : LContext) :
  requestState c <> DONE -> contentModifyingState c <> DONE ->
  remove_context c
  = (c, [],
     bool_decide (requestState c = NONE)
     && bool_decide (contentModifyingState c = NONE), Normal).
Proof.
  intros Hr Hc. unfold remove_context.
  destruct (decide (requestState c = DONE)); [done|]. cbv beta iota zeta.
  destruct (decide (contentModifyingState c = DONE)); [done|]. done.
Qed.

Lemma remove_present (s : LState) id (c : LContext) :
  contexts s !! id = Some c ->
  remove s id
  = ((if (remove_context c).1.2 then delete_context s id
      else set_context s id (remove_context c).1.1.1),
     (remove_context c).1.1.2, (remove_context c).2).
Proof.
  intros Hc. unfold remove. rewrite Hc.
  by destruct (remove_context c) as [[[c' ev] del] k].
Qed.

(** X6.  A remove that follows a remove does nothing more: it sends nothing
    to the filtering log and records no rule hit, it ends normally, and when
    the first remove ended normally it leaves the storage as the first one
    left it. *)
Theorem remove_twice (s : LState) (id : string) :
  let r1 := remove s id in
  let r2 := remove r1.1.1 id in
  r2.1.2 = [] /\ r2.2 = Normal
  /\ (r2.1.1 = r1.1.1 \/ r1.2 = Throw).
Proof.
  intros r1 r2. subst r2 r1.
  destruct (contexts s !! id) as [c|] eqn:Hc.
  - rewrite (remove_present s id c Hc).
    pose proof (remove_context_states c) as (Hr & Hcm & Hk).
    destruct (remove_context c) as [[[c' ev] del] k]. cbn [fst snd] in *.
    destruct del.
    + rewrite remove_absent by apply lookup_delete_context. auto.
    + rewrite (remove_present _ id c') by apply lookup_set_context.
      rewrite (remove_context_settled c' Hr Hcm). cbn [fst snd].
      split; [done|]. split; [done|].
      destruct k; [left|by right].
      rewrite <- (Hk eq_refl). unfold set_context. cbn [contexts nextEventId].
      f_equal. apply insert_insert_eq.
  - rewrite !remove_absent; auto.
    by rewrite remove_absent.
Qed.

(** *** Bindings name issued event ids *)

Lemma boundEventIds_app (a b : list LEvent) :
  boundEventIds (a ++ b) = boundEventIds a ++ boundEventIds b.
Proof. apply omap_app. Qed.

Lemma boundEventIds_map_nil {A} (f : A -> LEvent) (l : list A) :
  (forall x, boundEventIds [f x] = []) -> boundEventIds (map f l) = [].
Proof.
  intros Hf. induction l as [|x l IH]; [done|].
  change (map f (x :: l)) with ([f x] ++ map f l).
  by rewrite boundEventIds_app, Hf, IH.
Qed.

Lemma bindsFollowIssue_mono (ev : list LEvent) : forall k1 k2 : list Z,
  (forall i, i ∈ k1 -> i ∈ k2) ->
  bindsFollowIssue k1 ev = true -> bindsFollowIssue k2 ev = true.
Proof.
  induction ev as [|e ev IH]; intros k1 k2 Hsub; [done|].
  cbn [bindsFollowIssue]. intros [Hb Hrest]%andb_true_iff.
  apply andb_true_iff. split.
  - apply forallb_forall. intros i Hi.
    eapply forallb_forall in Hb; [|exact Hi].
    apply bool_decide_eq_true. apply bool_decide_eq_true in Hb. auto.
  - apply (IH (issuedEventIds [e] ++ k1)); [|done].
    intros i [Hi|Hi]%elem_of_app; apply elem_of_app; auto.
Qed.

Lemma bindsFollowIssue_known (ev : list LEvent) : forall known : list Z,
  (forall i, i ∈ boundEventIds ev -> i ∈ known) ->
  bindsFollowIssue known ev = true.
Proof.
  induction ev as [|e ev IH]; intros known Hall; [done|].
  cbn [bindsFollowIssue]. apply andb_true_iff. split.
  - apply forallb_forall. intros i Hi. apply bool_decide_eq_true.
    apply Hall. change (e :: ev) with ([e] ++ ev).
    rewrite boundEventIds_app. apply elem_of_app. left.
    by apply list_elem_of_In.
  - apply IH. intros i Hi. apply elem_of_app. right. apply Hall.
    change (e :: ev) with ([e] ++ ev).
    rewrite boundEventIds_app. apply elem_of_app. by right.
Qed.

Lemma bindsFollowIssue_app (a : list LEvent) : forall (b : list LEvent)
    (known : list Z),
  bindsFollowIssue known a = true ->
  bindsFollowIssue (issuedEventIds a ++ known) b = true ->
  bindsFollowIssue known (a ++ b) = true.
Proof.
  induction a as [|e a IH]; intros b known; [done|].
  cbn [bindsFollowIssue app]. intros [Hb Ha]%andb_true_iff Hrest.
  apply andb_true_iff. split; [done|]. apply IH; [done|].
  eapply bindsFollowIssue_mono; [|exact Hrest].
  change (e :: a) with ([e] ++ a). rewrite issuedEventIds_app.
  intros i Hi. rewrite !elem_of_app in *. tauto.
Qed.

Lemma bound_update_context (c : LContext) u i :
  i ∈ boundEventIds (update_context c u).2 -> i = eventId c.
Proof.
  unfold update_context. cbn [snd].
  destruct (u_requestRule u); [|by intros ?%elem_of_nil].
  cbn. intros Hi%list_elem_of_singleton. subst i.
  by destruct (u_requestState u), (u_contentModifyingState u).
Qed.

Lemma bound_flushContentRules (c : LContext) rules els :
  boundEventIds (flushContentRules c rules els).1.2 = [].
Proof.
  revert els. induction rules as [|r rules IH]; intros els; simpl; [done|].
  destruct els as [m|]; [|done].
  specialize (IH (Some (elements_delete m r))).
  destruct (flushContentRules c rules _) as [[els' ev'] k]. simpl in *.
  rewrite boundEventIds_app, IH, app_nil_r.
  by apply boundEventIds_map_nil.
Qed.

Lemma bound_flushRequest (c : LContext) i :
  i ∈ boundEventIds (flushRequest c).1 -> i = eventId c.
Proof.
  unfold flushRequest. cbn [fst]. rewrite !boundEventIds_app.
  rewrite !elem_of_app. intros [Hi|[Hi|Hi]].
  - destruct (requestRule c); [|by apply elem_of_nil in Hi].
    by apply list_elem_of_singleton in Hi.
  - destruct (cspRules c) as [rs|]; [|by apply elem_of_nil in Hi].
    rewrite boundEventIds_map_nil in Hi by done. by apply elem_of_nil in Hi.
  - destruct (stealthActions c) as [a|]; [|by apply elem_of_nil in Hi].
    destruct (a =? 0); [by apply elem_of_nil in Hi|].
    by apply list_elem_of_singleton in Hi.
Qed.

Lemma bound_flushContent (c : LContext) i :
  i ∈ boundEventIds (flushContent c).1.1.2 -> i = eventId c.
Proof.
  unfold flushContent.
  destruct (contentRules c) as [rules|].
  - pose proof (bound_flushContentRules c rules (elements c)) as Hnil.
    destruct (flushContentRules c rules (elements c)) as [[els ev] k].
    cbn [fst snd] in *. rewrite boundEventIds_app, Hnil, app_nil_r.
    destruct (replaceRules c); [|by intros ?%elem_of_nil].
    by intros ?%list_elem_of_singleton.
  - cbn [fst snd].
    destruct (replaceRules c); [|by intros ?%elem_of_nil].
    by intros ?%list_elem_of_singleton.
Qed.

Lemma bound_recordRuleHits (c : LContext) hits :
  boundEventIds (recordRuleHits c hits) = [].
Proof. unfold recordRuleHits. by apply boundEventIds_map_nil. Qed.

Lemma bound_remove_context (c : LContext) i :
  i ∈ boundEventIds (remove_context c).1.1.2 -> i = eventId c.
Proof.
  unfold remove_context.
  destruct (decide (requestState c = DONE)) as [Hr|Hr]; cbv beta iota zeta.
  - destruct (decide (contentModifyingState _ = DONE)) as [Hc|Hc];
      cbv beta iota zeta.
    + match goal with
      | |- context [flushContent ?x] =>
          pose proof (bound_flushContent x i) as Hcontent;
          destruct (flushContent x) as [[[els ev] hits] k]
      end.
      cbn [fst snd] in Hcontent.
      destruct k; cbn [fst snd];
        rewrite !boundEventIds_app, ?bound_recordRuleHits, ?app_nil_r;
        (intros [Hi|Hi]%elem_of_app;
         [by apply bound_flushRequest in Hi|by apply Hcontent in Hi]).
    + cbn [fst snd app].
      rewrite !boundEventIds_app, ?bound_recordRuleHits, ?app_nil_r.
      by intros Hi%bound_flushRequest.
  - destruct (decide (contentModifyingState _ = DONE)) as [Hc|Hc];
      cbv beta iota zeta.
    + match goal with
      | |- context [flushContent ?x] =>
          pose proof (bound_flushContent x i) as Hcontent;
          destruct (flushContent x) as [[[els ev] hits] k]
      end.
      cbn [fst snd] in Hcontent.
      destruct k; cbn [fst snd app];
        rewrite ?boundEventIds_app, ?bound_recordRuleHits, ?app_nil_r;
        by intros Hi%Hcontent.
    + cbn [fst snd app]. by intros Hi%elem_of_nil.
Qed.

Lemma bound_update (s : LState) id u i :
  i ∈ boundEventIds (update s id u).2 ->
  exists c, contexts s !! id = Some c /\ eventId c = i.
Proof.
  unfold update. destruct (contexts s !! id) as [c|];
    [|by intros ?%elem_of_nil].
  pose proof (bound_update_context c u i) as Hu.
  destruct (update_context c u) as [c' ev]. cbn [fst snd] in *.
  intros Hi. exists c. split; [done|]. symmetry. auto.
Qed.

Lemma bound_remove (s : LState) id i :
  i ∈ boundEventIds (remove s id).1.2 ->
  exists c, contexts s !! id = Some c /\ eventId c = i.
Proof.
  unfold remove. destruct (contexts s !! id) as [c|];
    [|by intros ?%elem_of_nil].
  pose proof (bound_remove_context c i) as Hr.
  destruct (remove_context c) as [[[c' ev] del] k]. cbn [fst snd] in *.
  intros Hi. exists c. split; [done|]. symmetry. auto.
Qed.

Lemma bound_update_remove (s : LState) id u i :
  i ∈ boundEventIds
        ((update s id u).2 ++ (remove (update s id u).1 id).1.2) ->
  exists c, contexts s !! id = Some c /\ eventId c = i.
Proof.
  rewrite boundEventIds_app. intros [Hi|Hi]%elem_of_app.
  - by apply bound_update in Hi.
  - apply bound_remove in Hi as (c1 & Hc1 & <-).
    apply update_origin in Hc1 as (c & Hc & He & _). exists c. by split.
Qed.

(** The bindings of a call name the event id of a context that the call
    found in the storage. *)
Lemma bound_step (s : LState) call i :
  i ∈ boundEventIds (step s call).2 ->
  exists id c, contexts s !! id = Some c /\ eventId c = i.
Proof.
  destruct call as [id0 url ref origin ty t| | id0 u | id0 rule el
                   | id0 | id0 | id0]; cbn [step].
  - rewrite record_unfold. cbn [snd]. rewrite boundEventIds_app.
    destruct (_ && _); by intros [?%elem_of_nil|?%elem_of_nil]%elem_of_app.
  - by intros ?%elem_of_nil.
  - intros Hi%bound_update. by exists id0.
  - by intros ?%elem_of_nil.
  - unfold onRequestCompleted.
    match goal with
    | |- context [update s id0 ?u] =>
        pose proof (bound_update_remove s id0 u i) as Hb;
        destruct (update s id0 u) as [s1 ev1]
    end.
    cbn [fst snd] in Hb. destruct (remove s1 id0) as [[s2 ev2] k].
    cbn [fst snd] in *. intros Hi%Hb. by exists id0.
  - intros Hi%bound_update. by exists id0.
  - unfold onContentModificationFinished.
    match goal with
    | |- context [update s id0 ?u] =>
        pose proof (bound_update_remove s id0 u i) as Hb;
        destruct (update s id0 u) as [s1 ev1]
    end.
    cbn [fst snd] in Hb. destruct (remove s1 id0) as [[s2 ev2] k].
    cbn [fst snd] in *. intros Hi%Hb. by exists id0.
Qed.

(** The event id of a context after a call is that of a context before it
    or the one the call issued. *)
Lemma step_eventIds (s : LState) call id (c' : LContext) :
  contexts (step s call).1 !! id = Some c' ->
  (exists c, contexts s !! id = Some c /\ eventId c = eventId c')
  \/ eventId c' ∈ issuedEventIds (step s call).2.
Proof.
  destruct (is_record_for id call) eqn:Hrec.
  - destruct call as [id0 url ref origin ty t| | | | | |]; try done.
    cbn [is_record_for] in Hrec. apply bool_decide_eq_true in Hrec as ->.
    cbn [step]. rewrite record_unfold. cbn [fst snd contexts].
    rewrite lookup_insert_eq. intros [= <-]. right.
    rewrite issuedEventIds_app. apply elem_of_app. right. cbn.
    apply list_elem_of_here.
  - intros Hc'. left.
    apply step_origin in Hc' as (c & Hc & He & _); [|done].
    exists c. by split.
Qed.

Lemma run_binds (calls : list Call) : forall (s : LState) (known : list Z),
  (forall id c, contexts s !! id = Some c -> eventId c ∈ known) ->
  bindsFollowIssue known (run s calls).2 = true.
Proof.
  induction calls as [|call calls IH]; intros s known Hknown; [done|].
  cbn [run].
  pose proof (bound_step s call) as Hbound.
  pose proof (step_eventIds s call) as Hids.
  destruct (step s call) as [s1 ev1]. cbn [fst snd] in *.
  specialize (IH s1 (issuedEventIds ev1 ++ known)).
  destruct (run s1 calls) as [s2 ev2]. cbn [fst snd] in *.
  apply bindsFollowIssue_app.
  - apply bindsFollowIssue_known. intros i Hi.
    destruct (Hbound i Hi) as (id & c & Hc & <-). by apply (Hknown id).
  - apply IH. intros id c' Hc'. apply elem_of_app.
    destruct (Hids id c' Hc') as [(c & Hc & <-)|Hi]; [right|by left].
    by apply (Hknown id).
Qed.

(** X7.  Along every run from the empty ledger, each call that binds a rule,
    replace rules or stealth actions to a request event names an event id
    that an earlier call of the trace handed to the filtering log with a new
    request event. *)
Theorem bindings_name_issued_event_ids (calls : list Call) :
  bindsFollowIssue [] (run (@initial Rule Element) calls).2 = true.
Proof.
  apply run_binds. intros id c. unfold initial. cbn [contexts].
  by rewrite lookup_empty.
Qed.

End LedgerInvariantProperties.

(** * Further properties of the safebrowsing filter *)

Section SafebrowsingFlow.

Import Safebrowsing SafebrowsingLines.

Variable getHost : string -> option string.
Variables isIpv4 isIpv6 : string -> bool.
Variable sha256 : string -> string.
Variable LruCache : Type.
Variable getValue : LruCache -> string -> option string.
Variable saveValue : LruCache -> option string -> string -> LruCache.
Variable LRUMap : Type.
Variable lru_get : LRUMap -> string -> option bool.
Variable lru_set : LRUMap -> string -> bool -> LRUMap.

Abbreviation FState := (State LruCache LRUMap).
Abbreviation hashOf := (createHash sha256).
Abbreviation hostsFrom := (extractHosts isIpv4 isIpv6).
Abbreviation cached := (checkHostsInSbCache sha256 LruCache getValue).
Abbreviation lookupUrl :=
  (lookupUrlWithCallback getHost isIpv4 isIpv6 sha256 LruCache getValue
     saveValue LRUMap lru_get).
Abbreviation onResponse :=
  (onLookupResponse sha256 LruCache saveValue LRUMap lru_set).
Abbreviation trust :=
  (addToSafebrowsingTrusted getHost sha256 LruCache saveValue LRUMap).

Lemma cached_falsy (c : LruCache) hosts :
  truthy (cached c hosts) = false ->
  forall h, h ∈ hosts -> truthy (getValue c (hashOf h)) = false.
Proof.
  induction hosts as [|h0 hosts IH]; simpl; intros Hc h Hin.
  - by apply elem_of_nil in Hin.
  - destruct (truthy (getValue c (hashOf h0))) eqn:E; [congruence|].
    apply elem_of_cons in Hin as [->|Hin]; [done|by apply IH].
Qed.

Lemma extractHosts_head host :
  hostsFrom host !! 0%nat = Some host.
Proof.
  rewrite extractHosts_unfold. unfold suffixes_to_root.
  by destruct (isIpv4 host || isIpv6 host).
Qed.

(** What a request to the backend carries. *)
Lemma lookup_cases (s : FState) (now : Z) (requestUrl : string) :
  let r := lookupUrl s now requestUrl in
  (r.2 = [] /\ r.1 = s)
  \/ (exists v, r.2 = [Callback v] /\ localStorage r.1 = localStorage s
                /\ requestsCache r.1 = requestsCache s)
  \/ (exists p,
        r = (s, [LookupSafebrowsing p])
        /\ getHost requestUrl = Some (p_host p)
        /\ p_hashesMap p = createHashesMap sha256 (hostsFrom (p_host p))
        /\ suspended s now = false
        /\ (forall h, h ∈ hostsFrom (p_host p) ->
              truthy (getValue (cache s) (hashOf h)) = false)
        /\ p_shortHashes p <> []
        /\ forall x, x ∈ p_shortHashes p ->
             lru_get (requestsCache s) x <> Some true
             /\ exists h, h ∈ hostsFrom (p_host p)
                  /\ x = String.substring 0 DOMAIN_HASH_LENGTH (hashOf h)).
Proof.
  intros r. subst r. unfold lookupUrlWithCallback.
  destruct (getHost requestUrl) as [host|] eqn:Hhost; [|by left].
  destruct (String.eqb host EmptyString); [by left|].
  rewrite extractHosts_nonempty. cbv zeta.
  destruct (truthy (cached (cache s) (hostsFrom host))) eqn:Hcache;
    [right; left; by eexists|].
  destruct (suspended s now) eqn:Hsusp; [by left|].
  set (shortHashes := filter _ _).
  destruct shortHashes as [|x0 rest] eqn:E; [right; left; by eexists|].
  right. right. eexists. split; [reflexivity|].
  cbn [p_host p_hashesMap p_shortHashes].
  split; [done|]. split; [done|]. split; [done|].
  split; [by apply cached_falsy|]. split; [done|].
  intros x Hx. rewrite <- E in Hx. subst shortHashes.
  apply list_elem_of_filter in Hx as [Hnot Hx]. split; [done|].
  apply list_elem_of_fmap in Hx as (k & -> & Hk).
  apply createHashesMap_keys in Hk as (h & Hh & ->). by exists h.
Qed.

(** X8.  A lookup writes neither the local storage nor the session cache of
    queried prefixes, makes at most one call and never logs an error.  When it
    asks the backend, the state is unchanged, the filter is not suspended, no
    host of the URL is in the long-term cache, and the request carries the
    hashes map of the hosts and a non-empty list of prefixes, each the first
    four characters of the hash of one of the hosts and none queried before
    in this session. *)
Theorem lookup_asks_only_unqueried_prefixes (s : FState) (now : Z)
    (requestUrl : string) :
  let r := lookupUrl s now requestUrl in
  localStorage r.1 = localStorage s
  /\ requestsCache r.1 = requestsCache s
  /\ (length r.2 <= 1)%nat
  /\ (ConsoleError ∉ r.2)
  /\ forall p, LookupSafebrowsing p ∈ r.2 ->
       r = (s, [LookupSafebrowsing p])
       /\ getHost requestUrl = Some (p_host p)
       /\ p_hashesMap p = createHashesMap sha256 (hostsFrom (p_host p))
       /\ suspended s now = false
       /\ (forall h, h ∈ hostsFrom (p_host p) ->
             truthy (getValue (cache s) (hashOf h)) = false)
       /\ p_shortHashes p <> []
       /\ forall x, x ∈ p_shortHashes p ->
            lru_get (requestsCache s) x <> Some true
            /\ exists h, h ∈ hostsFrom (p_host p)
                 /\ x = String.substring 0 DOMAIN_HASH_LENGTH (hashOf h).
Proof.
  intros r. destruct (lookup_cases s now requestUrl)
    as [[He Hs]|[(v & He & Hl & Hr)|(p & Hp & Hrest)]].
  - fold r in He, Hs. rewrite He, Hs. split; [done|]. split; [done|].
    split; [simpl; lia|]. split; [apply not_elem_of_nil|].
    intros p Hp. by apply elem_of_nil in Hp.
  - fold r in He, Hl, Hr. rewrite He. split; [done|]. split; [done|].
    split; [simpl; lia|]. split.
    + intros Hin. by apply list_elem_of_singleton in Hin.
    + intros p Hp. by apply list_elem_of_singleton in Hp.
  - fold r in Hp. rewrite Hp. cbn [fst snd]. split; [done|]. split; [done|].
    split; [simpl; lia|]. split.
    + intros Hin. by apply list_elem_of_singleton in Hin.
    + intros p' Hp'. apply list_elem_of_singleton in Hp'.
      injection Hp' as ->. done.
Qed.

(** *** Reading the response *)

(** The loop of [processSbResponse]: once a line that decides was read the
    result stays; before that, a line with a known hash and an empty list name
    leaves a falsy result. *)
Lemma processLines_result (hashesMap : list (string * string))
    (lines : list string) : forall (c : LruCache) (result : option string),
  truthy result = false ->
  let out := (processLines LruCache saveValue lines hashesMap c result).2 in
  match find (decides hashesMap) lines with
  | Some line => out = Some (lineList line)
  | None => truthy out = false
  end.
Proof.
  induction lines as [|line lines IH]; intros c result Hres; simpl; [done|].
  rewrite Hres. unfold decides, knownHash, lineHash, lineList in *.
  destruct (truthy (hashes_get hashesMap _)) eqn:Hknown; simpl.
  - destruct (String.eqb (default EmptyString (split ":" line !! 0%nat))
                EmptyString) eqn:Hlist; simpl.
    + apply IH. simpl. by rewrite Hlist.
    + clear IH. set (v := default EmptyString (split ":" line !! 0%nat)) in *.
      assert (Hkeep : forall ls c',
                 (processLines LruCache saveValue ls hashesMap c' (Some v)).2
                 = Some v).
      { induction ls as [|l ls IHls]; intros c'; simpl; [done|].
        rewrite Hlist. simpl. apply IHls. }
      apply Hkeep.
  - by apply IH.
Qed.

(** X9.  A response that is not a server error and has a body (a status other
    than 204, a non-empty text of at most 10 KiB) is decided by its first line
    whose hash is one of the queried hosts' and whose list name is not empty:
    the callback receives that list name, null if it is the whitelist name;
    without such a line the host is clean.  The verdict is stored under the
    full hash of the looked-up host. *)
Theorem response_decided_by_first_known_line (s : FState) (now : Z)
    (p : Pending) (response : Response) (text : string) :
  status response < 500 -> status response <> 204 ->
  responseText response = Some text -> text <> EmptyString ->
  Z.of_nat (String.length text) <= 10 * 1024 ->
  let verdict :=
    match find (decides (p_hashesMap p)) (split "010" text) with
    | Some line => lineList line
    | None => SB_WHITE_LIST
    end in
  let r := onResponse s now p response in
  r.2 = [Callback (createResponse verdict)]
  /\ exists c, cache r.1 = saveValue c (Some (hashOf (p_host p))) verdict.
Proof.
  intros Hstatus H204 Htext Hne Hlen verdict r. subst r verdict.
  unfold onLookupResponse.
  destruct (Z.leb_spec 500 (status response)) as [?|_]; [lia|].
  destruct (Z.eqb_spec (status response) 204) as [?|_]; [done|].
  unfold processSbResponse. rewrite Htext.
  destruct (String.eqb_spec text EmptyString) as [?|_]; [done|].
  destruct (Z.ltb_spec (10 * 1024) (Z.of_nat (String.length text)))
    as [?|_]; [lia|].
  cbn [orb].
  pose proof (processLines_result (p_hashesMap p) (split "010" text)
                (cache (resumeSafebrowsing s)) None eq_refl) as Hres.
  cbv zeta in Hres.
  destruct (processLines _ _ _ _ _ _) as [c result]. cbn [snd] in Hres.
  destruct (find _ _) as [line|] eqn:Hfind.
  - subst result. apply find_some in Hfind as [_ Hd].
    unfold decides in Hd. apply andb_true_iff in Hd as [_ Ht].
    rewrite Ht. cbn [default fst snd cache]. split; [done|]. by exists c.
  - rewrite Hres. cbn [fst snd cache]. split; [done|]. by exists c.
Qed.

(** X10.  A response that is not a server error and carries no usable body (a
    status of 204, no text, an empty text, or a text of more than 10 KiB)
    marks the host clean: nothing but the host is written to the long-term
    cache, under the whitelist name, and the callback receives null. *)
Theorem response_without_body_is_clean (s : FState) (now : Z)
    (p : Pending) (response : Response) :
  status response < 500 ->
  status response = 204
  \/ responseText response = None
  \/ responseText response = Some EmptyString
  \/ (exists text, responseText response = Some text
                   /\ 10 * 1024 < Z.of_nat (String.length text)) ->
  let r := onResponse s now p response in
  r.2 = [Callback None]
  /\ cache r.1 = saveValue (cache s) (Some (hashOf (p_host p))) SB_WHITE_LIST
  /\ localStorage r.1 = delete suspendedFromProperty (localStorage s).
Proof.
  intros Hstatus Hbody r. subst r. unfold onLookupResponse.
  destruct (Z.leb_spec 500 (status response)) as [?|_]; [lia|].
  destruct (Z.eqb_spec (status response) 204) as [_|H204]; [done|].
  destruct Hbody as [?|[Hb|[Hb|(text & Hb & Hlen)]]]; [done|..];
    unfold processSbResponse; rewrite Hb; [done|done|].
  destruct (Z.ltb_spec (10 * 1024) (Z.of_nat (String.length text)))
    as [_|?]; [|lia].
  by rewrite orb_true_r.
Qed.

(** *** Answers kept in the long-term cache *)

Section CacheLaw.

(** The long-term cache returns the value just saved under a key. *)
Hypothesis getValue_saveValue : forall (c : LruCache) (k v : string),
  getValue (saveValue c (Some k) v) k = Some v.

Lemma lookup_cached_host (s : FState) (now : Z) (requestUrl host v : string) :
  getHost requestUrl = Some host -> host <> EmptyString ->
  getValue (cache s) (hashOf host) = Some v -> v <> EmptyString ->
  lookupUrl s now requestUrl = (s, [Callback (createResponse v)]).
Proof.
  intros Hhost Hne Hv Hvne. unfold lookupUrlWithCallback.
  rewrite Hhost. destruct (String.eqb_spec host EmptyString) as [|_]; [done|].
  rewrite extractHosts_nonempty.
  rewrite (inCache_first_hit sha256 LruCache getValue
             (cache s) (hostsFrom host) 0 host v);
    [|apply extractHosts_head|done|done|intros j h' Hj; lia].
  cbv zeta. cbn [truthy default].
  by destruct (String.eqb_spec v EmptyString).
Qed.

(** X11.  Once the backend has answered for a URL with a status below 500, a
    further lookup of that URL is answered from the long-term cache: made in
    the state the response left, or in any later state in which the entry
    saved under the hash of the host of the URL still reads the same, it
    calls back with the same verdict as the response did, whatever the time,
    the suspension and whatever else the caches hold, asks nothing of the
    backend and changes no state.  The entry can be rewritten later by a
    response line that names its hash, by a response for the same host and by
    [addToSafebrowsingTrusted]. *)
Theorem answered_lookup_is_replayed (s : FState) (now later : Z)
    (requestUrl : string) (p : Pending) (response : Response) :
  getHost requestUrl = Some (p_host p) -> p_host p <> EmptyString ->
  status response < 500 ->
  let r := onResponse s now p response in
  lookupUrl r.1 later requestUrl = (r.1, r.2) /\
  (forall (s' : FState) (t : Z),
     getValue (cache s') (hashOf (p_host p))
     = getValue (cache r.1) (hashOf (p_host p)) ->
     lookupUrl s' t requestUrl = (s', r.2)).
Proof.
  intros Hhost Hne Hstatus r.
  assert (Hr : exists c sbList,
             sbList <> EmptyString /\
             r = ({| cache := saveValue c (Some (hashOf (p_host p))) sbList;
                     requestsCache :=
                       fold_left (fun m x => lru_set m x true)
                         (p_shortHashes p)
                         (requestsCache (resumeSafebrowsing s));
                     localStorage :=
                       localStorage (resumeSafebrowsing s) |},
                  [Callback (createResponse sbList)])).
  { subst r. unfold onLookupResponse.
    destruct (Z.leb_spec 500 (status response)) as [?|_]; [lia|].
    set (verdict := if status response =? 204 then _ else _).
    destruct verdict as [c sbList] eqn:E. exists c, sbList.
    split; [|done].
    subst verdict. destruct (status response =? 204).
    - by injection E as _ <-.
    - destruct (processSbResponse _ _ _ _ _) as [c' result].
      injection E as _ <-. destruct result as [v|]; simpl; [|done].
      destruct (String.eqb_spec v EmptyString); done. }
  destruct Hr as (c & sbList & Hlist & Hr).
  assert (Hsaved : getValue (cache r.1) (hashOf (p_host p)) = Some sbList).
  { rewrite Hr. cbn [fst cache]. apply getValue_saveValue. }
  assert (Hreplay : forall (s' : FState) (t : Z),
             getValue (cache s') (hashOf (p_host p))
             = getValue (cache r.1) (hashOf (p_host p)) ->
             lookupUrl s' t requestUrl = (s', r.2)).
  { intros s' t Hsame.
    replace r.2 with [Callback (createResponse sbList)] by (by rewrite Hr).
    apply (lookup_cached_host _ t requestUrl (p_host p) sbList);
      [done|done| |done].
    by rewrite Hsame. }
  split; [by apply Hreplay|exact Hreplay].
Qed.

(** X12.  A host added to the trusted sites is clean from then on: a lookup of
    the URL calls back with null at once, even while a parent domain of the
    host is cached under a blocking list and even while the filter is
    suspended, and changes no state. *)
Theorem trusted_host_is_clean (s : FState) (now : Z) (url host : string) :
  getHost url = Some host -> host <> EmptyString ->
  let s1 := trust s url in
  lookupUrl s1 now url = (s1, [Callback (createResponse SB_WHITE_LIST)])
  /\ createResponse SB_WHITE_LIST = None
  /\ requestsCache s1 = requestsCache s /\ localStorage s1 = localStorage s.
Proof.
  intros Hhost Hne s1. subst s1. unfold addToSafebrowsingTrusted.
  rewrite Hhost. destruct (String.eqb_spec host EmptyString) as [|_]; [done|].
  split; [|done].
  apply (lookup_cached_host _ now url host SB_WHITE_LIST); [done|done| |done].
  cbn [set_cache cache]. apply getValue_saveValue.
Qed.

End CacheLaw.

(** *** The end of a suspension *)

Lemma lookup_reads (s1 s2 : FState) (now : Z) (requestUrl : string) :
  cache s1 = cache s2 -> requestsCache s1 = requestsCache s2 ->
  suspended s1 now = suspended s2 now ->
  (lookupUrl s1 now requestUrl).2 = (lookupUrl s2 now requestUrl).2.
Proof.
  intros Hc Hr Hs. unfold lookupUrlWithCallback. rewrite Hc, Hr, Hs.
  destruct (getHost requestUrl) as [host|]; [|done].
  destruct (String.eqb host EmptyString); [done|].
  destruct (length _ =? 0)%nat; [done|]. cbv zeta.
  destruct (truthy _); [done|]. destruct (suspended s2 now); [done|].
  by destruct (length _ =? 0)%nat.
Qed.

(** X13.  A suspension ends by itself: SUSPEND_TTL or more after the time at
    which the filter was suspended, and also when that time was the clock
    reading 0, a lookup makes the calls it would make had the filter been
    resumed, without the stored time being removed. *)
Theorem suspension_expires (s : FState) (t0 now : Z) (requestUrl : string) :
  SUSPEND_TTL <= now - t0 \/ t0 = 0 ->
  let s1 := suspendSafebrowsing s t0 in
  (lookupUrl s1 now requestUrl).2
  = (lookupUrl (resumeSafebrowsing s) now requestUrl).2
  /\ localStorage (lookupUrl s1 now requestUrl).1 !! suspendedFromProperty
     = Some t0.
Proof.
  intros Hexp s1. split.
  - apply lookup_reads; [done|done|].
    unfold suspended, suspendedFrom. subst s1. simpl.
    rewrite lookup_insert_eq, lookup_delete_eq. simpl.
    destruct Hexp as [Hexp| ->]; [|done].
    destruct (Z.ltb_spec (now - t0) SUSPEND_TTL); [lia|].
    by rewrite andb_false_r.
  - destruct (lookup_cases s1 now requestUrl)
      as [[_ ->]|[(v & _ & -> & _)|(p & -> & _)]];
      subst s1; simpl; apply lookup_insert_eq.
Qed.

(** *** The hashes map *)

Lemma hashes_get_set m k v k' :
  hashes_get (hashes_set m k v) k'
  = if String.eqb k k' then Some v else hashes_get m k'.
Proof.
  induction m as [|[k0 v0] m IH]; simpl.
  - done.
  - destruct (String.eqb_spec k0 k) as [->|Hne]; simpl.
    + by destruct (String.eqb k k').
    + rewrite IH. destruct (String.eqb_spec k0 k') as [->|Hne'].
      * by destruct (String.eqb_spec k k').
      * done.
Qed.

Lemma hashes_set_NoDup m k v :
  NoDup (map fst m) -> NoDup (map fst (hashes_set m k v)).
Proof.
  induction m as [|[k0 v0] m IH]; simpl.
  - intros _. apply NoDup_singleton.
  - intros [Hk Hm]%NoDup_cons.
    destruct (String.eqb_spec k0 k) as [->|Hne]; simpl.
    + by apply NoDup_cons.
    + apply NoDup_cons. split; [|auto].
      intros [->|Hin]%hashes_set_keys; done.
Qed.

Lemma find_app_first {A} (f : A -> bool) (l1 l2 : list A) :
  find f (l1 ++ l2)
  = match find f l1 with Some x => Some x | None => find f l2 end.
Proof.
  induction l1 as [|x l1 IH]; simpl; [done|]. by destruct (f x).
Qed.

Lemma createHashesMap_fold hosts : forall m,
  NoDup (map fst m) ->
  let m' := fold_left (fun result host => hashes_set result (hashOf host) host)
              hosts m in
  NoDup (map fst m')
  /\ forall k, hashes_get m' k
       = match find (fun h => String.eqb (hashOf h) k) (rev hosts) with
         | Some h => Some h
         | None => hashes_get m k
         end.
Proof.
  induction hosts as [|h hosts IH]; intros m Hnd; simpl; [done|].
  destruct (IH (hashes_set m (hashOf h) h)) as [Hnd' Hget];
    [by apply hashes_set_NoDup|].
  split; [done|]. intros k. rewrite Hget, find_app_first.
  destruct (find _ (rev hosts)); [done|]. simpl.
  rewrite hashes_get_set. by destruct (String.eqb (hashOf h) k).
Qed.

(** X14.  The hashes map built for a lookup has one entry for each distinct
    hash of the hosts, and under a hash it holds the last of the hosts that
    has this hash; a hash that is not the hash of a host has no entry. *)
Theorem createHashesMap_lookup (hosts : list string) :
  NoDup (map fst (createHashesMap sha256 hosts))
  /\ forall k, hashes_get (createHashesMap sha256 hosts) k
       = find (fun h => String.eqb (hashOf h) k) (rev hosts).
Proof.
  destruct (createHashesMap_fold hosts [] (NoDup_nil_2 (A:=string)))
    as [Hnd Hget].
  split; [done|]. intros k. unfold createHashesMap. rewrite Hget.
  by destruct (find _ _).
Qed.

End SafebrowsingFlow.

(** * Properties of the header utilities *)

Section HeaderProperties.

Import Headers.

Implicit Types (n m v : string) (h : Header) (hs : list Header).

Lemma lower_upper c : lower (upper c) = lower c.
Proof. by destruct c as [[] [] [] [] [] [] [] []]. Qed.

Lemma lower_lower c : lower (lower c) = lower c.
Proof. by destruct c as [[] [] [] [] [] [] [] []]. Qed.

Lemma toLowerCase_toUpperCase s : toLowerCase (toUpperCase s) = toLowerCase s.
Proof.
  induction s as [|c s IH]; simpl; [done|]. by rewrite lower_upper, IH.
Qed.

Lemma toLowerCase_idem s : toLowerCase (toLowerCase s) = toLowerCase s.
Proof.
  induction s as [|c s IH]; simpl; [done|]. by rewrite lower_lower, IH.
Qed.

Lemma sameName_ext n m h :
  toLowerCase n = toLowerCase m -> sameName n h = sameName m h.
Proof. unfold sameName. by intros ->. Qed.

Lemma find_sameName_ext n m hs :
  toLowerCase n = toLowerCase m ->
  find (sameName n) hs = find (sameName m) hs.
Proof.
  intros Heq. induction hs as [|h hs IH]; simpl; [done|].
  by rewrite (sameName_ext n m h Heq), IH.
Qed.

Lemma sameName_written m v h :
  sameName m {| name := name h; value := v |} = sameName m h.
Proof. done. Qed.

Lemma find_writeValue_same hs n v :
  find (sameName n) (writeValue hs n v)
  = match find (sameName n) hs with
    | Some h => Some {| name := name h; value := v |}
    | None => None
    end.
Proof.
  induction hs as [|h hs IH]; simpl; [done|].
  destruct (sameName n h) eqn:E; simpl.
  - by rewrite sameName_written, E.
  - by rewrite E.
Qed.

Lemma find_writeValue_other hs n m v :
  toLowerCase m <> toLowerCase n ->
  find (sameName m) (writeValue hs n v) = find (sameName m) hs.
Proof.
  intros Hne. induction hs as [|h hs IH]; simpl; [done|].
  destruct (sameName n h) eqn:E; simpl.
  - rewrite sameName_written.
    assert (Hm : sameName m h = false).
    { unfold sameName in *. apply String.eqb_eq in E.
      apply String.eqb_neq. congruence. }
    by rewrite Hm.
  - by rewrite IH.
Qed.

Lemma find_app_header (f : Header -> bool) (l1 l2 : list Header) :
  find f (l1 ++ l2)
  = match find f l1 with Some x => Some x | None => find f l2 end.
Proof. induction l1 as [|x l1 IH]; simpl; [done|]. by destruct (f x). Qed.

Lemma writeValue_names hs n v : map name (writeValue hs n v) = map name hs.
Proof.
  induction hs as [|h hs IH]; simpl; [done|].
  destruct (sameName n h); simpl; [done|by rewrite IH].
Qed.

(** X15.  A header set under one spelling of its name is read back under any
    spelling that differs only in the case of ASCII letters, a header of
    another name reads as before, and the collection grows by one header
    exactly when no header of that name was there; the names of the headers
    that were there and their order do not change. *)
Theorem setHeaderValue_then_get (headers : option (list Header))
    (headerName headerValue other : string) :
  let headers' := setHeaderValue headers headerName headerValue in
  getHeaderValueByName (Some headers') other
  = (if decide (toLowerCase other = toLowerCase headerName)
     then Some headerValue
     else getHeaderValueByName headers other)
  /\ getHeaderValueByName (Some headers') (toUpperCase headerName)
     = Some headerValue
  /\ map name headers'
     = map name (default [] headers)
       ++ match findHeaderByName headers headerName with
          | Some _ => []
          | None => [headerName]
          end.
Proof.
  intros headers'.
  assert (Hget : forall m,
             getHeaderValueByName (Some headers') m
             = if decide (toLowerCase m = toLowerCase headerName)
               then Some headerValue
               else getHeaderValueByName headers m).
  { intros m.
    change (getHeaderValueByName (Some headers') m)
      with (match find (sameName m) headers' with
            | Some header => Some (value header)
            | None => None
            end).
    subst headers'.
    unfold setHeaderValue, getHeaderValueByName, findHeaderByName.
    change (default [] (Some (default [] headers)))
      with (default [] headers).
    set (hs := default [] headers).
    destruct (decide (toLowerCase m = toLowerCase headerName)) as [Heq|Hne].
    - destruct (find (sameName headerName) hs) as [h|] eqn:E.
      + rewrite (find_sameName_ext m headerName _ Heq).
        by rewrite find_writeValue_same, E.
      + rewrite (find_sameName_ext m headerName _ Heq).
        rewrite find_app_header, E. simpl.
        unfold sameName. simpl. by rewrite String.eqb_refl.
    - destruct (find (sameName headerName) hs) as [h|] eqn:E.
      + by rewrite find_writeValue_other.
      + rewrite find_app_header. destruct (find (sameName m) hs); [done|].
        simpl. unfold sameName. simpl.
        by destruct (String.eqb_spec (toLowerCase headerName) (toLowerCase m)).
  }
  split; [apply Hget|]. split.
  - rewrite Hget, toLowerCase_toUpperCase. by destruct (decide _).
  - subst headers'. unfold setHeaderValue, findHeaderByName.
    change (default [] (Some (default [] headers)))
      with (default [] headers).
    destruct (find _ _).
    + by rewrite writeValue_names, app_nil_r.
    + by rewrite map_app.
Qed.

Lemma removeHeader_filter hs n :
  removeHeader hs n
  = (List.filter (fun h => negb (sameName n h)) hs, existsb (sameName n) hs).
Proof.
  induction hs as [|h hs IH]; simpl; [done|]. rewrite IH.
  by destruct (sameName n h).
Qed.

Lemma removeHeader_unchanged hs n :
  (removeHeader hs n).2 = false -> (removeHeader hs n).1 = hs.
Proof.
  rewrite removeHeader_filter. simpl.
  induction hs as [|h hs IH]; simpl; [done|].
  destruct (sameName n h); simpl; [done|]. intros H. by rewrite IH.
Qed.

Lemma find_filter_none (f : Header -> bool) hs :
  find f (List.filter (fun h => negb (f h)) hs) = None.
Proof.
  induction hs as [|h hs IH]; simpl; [done|].
  destruct (f h) eqn:E; simpl; [done|]. by rewrite E.
Qed.

Lemma removeHeader_none hs n :
  find (sameName n) (removeHeader hs n).1 = None.
Proof. rewrite removeHeader_filter. apply find_filter_none. Qed.

(** X16.  The loop of removeHeader, which splices from the last header down,
    leaves the headers of other names in their order and none of the given
    name, whatever the case of its letters; it returns true exactly when a
    header of that name was there, and when it returns false the array is as
    it was. *)
Theorem removeHeader_removes_all (headers : list Header)
    (headerName : string) :
  let r := removeHeader headers headerName in
  r.1 = List.filter (fun h => negb (sameName headerName h)) headers
  /\ r.2 = bool_decide (is_Some (findHeaderByName (Some headers) headerName))
  /\ findHeaderByName (Some r.1) headerName = None
  /\ findHeaderByName (Some r.1) (toUpperCase headerName) = None
  /\ (r.2 = false /\ r.1 = headers
      \/ r.2 = true /\ (length r.1 < length headers)%nat).
Proof.
  intros r. subst r. rewrite removeHeader_filter. cbn [fst snd].
  split; [done|]. split; [|split; [|split]].
  - unfold findHeaderByName.
    change (default [] (Some headers)) with headers.
    induction headers as [|h hs IH]; simpl; [done|].
    destruct (sameName headerName h); simpl; done.
  - apply find_filter_none.
  - unfold findHeaderByName.
    rewrite (find_sameName_ext (toUpperCase headerName) headerName _
               (toLowerCase_toUpperCase headerName)).
    apply find_filter_none.
  - pose proof (removeHeader_unchanged headers headerName) as Hun.
    rewrite removeHeader_filter in Hun. cbn [fst snd] in Hun.
    destruct (existsb (sameName headerName) headers) eqn:E.
    + right. split; [done|]. clear Hun.
      induction headers as [|h hs IH]; simpl in *; [done|].
      destruct (sameName headerName h); simpl.
      * pose proof (List.filter_length_le
                      (fun h => negb (sameName headerName h)) hs). lia.
      * specialize (IH E). lia.
    + left. split; [done|]. by apply Hun.
Qed.

End HeaderProperties.

(** * Properties of the stealth service on requests *)

Section SearchEngineProperties.

Import StealthRequests.

Lemma after_ci_app pre s rest post :
  after_ci pre s = Some rest ->
  after_ci pre (s +:+ post) = Some (rest +:+ post).
Proof.
  revert s. induction pre as [|a pre IH]; intros s; simpl.
  - by intros [= ->].
  - destruct s as [|b s]; [done|]. simpl.
    destruct (Stealth.eq_ci a b); [apply IH|done].
Qed.

Lemma optional_app group s post x :
  x ∈ optional group s -> (x +:+ post) ∈ optional group (s +:+ post).
Proof.
  unfold optional. destruct (after_ci group s) as [rest|] eqn:E.
  - rewrite (after_ci_app _ _ _ post E).
    intros [->|Hx]%elem_of_cons; [left|].
    apply list_elem_of_singleton in Hx as ->. right. left.
  - intros Hx. apply list_elem_of_singleton in Hx as ->.
    destruct (after_ci group (s +:+ post)); [right|]; left.
Qed.

Lemma existsb_elem {A} (f : A -> bool) (l : list A) :
  existsb f l = true <-> exists x, x ∈ l /\ f x = true.
Proof.
  rewrite existsb_exists. split; intros (x & Hin & Hf); exists x;
    (split; [by apply list_elem_of_In|done]).
Qed.

Lemma engine_here_app engine s post :
  engine_here engine s = true -> engine_here engine (s +:+ post) = true.
Proof.
  unfold engine_here.
  destruct (after_ci "http" s) as [r1|] eqn:E1; [|done].
  rewrite (after_ci_app _ _ _ post E1).
  rewrite !existsb_elem. intros (r2 & Hr2 & H2).
  exists (r2 +:+ post). split; [by apply optional_app|].
  destruct (after_ci "://" r2) as [r3|] eqn:E3; [|done].
  rewrite (after_ci_app _ _ _ post E3).
  apply existsb_elem in H2 as (r4 & Hr4 & H4).
  apply existsb_elem. exists (r4 +:+ post). split; [by apply optional_app|].
  apply bool_decide_eq_true in H4 as [r5 E5].
  apply bool_decide_eq_true. rewrite (after_ci_app _ _ _ post E5). by eexists.
Qed.

Lemma engine_test_app engine s post :
  engine_test engine s = true -> engine_test engine (s +:+ post) = true.
Proof.
  induction s as [|c s IH]; [done|].
  change (engine_test engine (String c s))
    with (engine_here engine (String c s) || engine_test engine s).
  change (engine_test engine (String c s +:+ post))
    with (engine_here engine (String c s +:+ post)
          || engine_test engine (s +:+ post)).
  intros [H|H]%orb_true_iff.
  - by rewrite (engine_here_app engine (String c s) post H).
  - rewrite (IH H). apply orb_true_r.
Qed.

Lemma engine_test_prepend engine pre s :
  engine_test engine s = true -> engine_test engine (pre +:+ s) = true.
Proof.
  induction pre as [|c pre IH]; [done|].
  change (engine_test engine (String c pre +:+ s))
    with (engine_here engine (String c pre +:+ s)
          || engine_test engine (pre +:+ s)).
  intros H. rewrite (IH H). apply orb_true_r.
Qed.

(** X17.  The search-engine expressions are not anchored: a text that holds
    the address of a search engine anywhere, for instance in its query, is
    itself taken for a search engine. *)
Theorem isSearchEngine_anywhere (pre url post : string) :
  isSearchEngine url = true ->
  isSearchEngine (pre +:+ url +:+ post) = true.
Proof.
  unfold isSearchEngine.
  destruct (String.eqb_spec url EmptyString) as [->|Hne]; [done|].
  assert (Hne' : pre +:+ url +:+ post <> EmptyString).
  { destruct pre; [|done]. destruct url; done. }
  apply String.eqb_neq in Hne'. rewrite Hne'.
  rewrite !existsb_elem. intros (engine & Hin & Ht). exists engine.
  split; [done|]. by apply engine_test_prepend, engine_test_app.
Qed.

End SearchEngineProperties.

Section StealthRequestProperties.

Import Headers StealthRequests.

Context {Rule Element : Type} `{EqDecision Rule}.

Variable settings : Settings.
Variable getHost : string -> option string.
Variable isThirdPartyRequest : string -> string -> bool.
Variable shouldStopRequestProcess : Tab -> bool.
Variable getMainFrameUrl : Tab -> option string.
Variable findWhiteListRule : string -> string -> RequestType -> option Rule.
Variable isDocumentWhiteList : Rule -> bool.
Variable findStealthWhiteListRule
  : string -> string -> RequestType -> option Rule.

Abbreviation RState := (@Ledger.State Rule Element).
Abbreviation REvent := (@Ledger.Event Rule Element).
Abbreviation setting := (getStealthSettingValue settings).
Abbreviation stealthHeaders :=
  (applyStealthHeaders settings getHost isThirdPartyRequest).
Abbreviation processHeaders :=
  (processRequestHeaders (Element := Element) settings getHost
     isThirdPartyRequest shouldStopRequestProcess getMainFrameUrl
     findWhiteListRule isDocumentWhiteList findStealthWhiteListRule).
Abbreviation stealthWhitelist :=
  (findStealthWhitelistRule isDocumentWhiteList findStealthWhiteListRule).
Abbreviation cookieRules :=
  (getCookieRules settings isThirdPartyRequest findWhiteListRule
     isDocumentWhiteList findStealthWhiteListRule).

Lemma writeValue_untouched hs v :
  List.filter untouched (writeValue hs REFERRER v) = List.filter untouched hs.
Proof.
  induction hs as [|h hs IH]; [done|]. cbn [writeValue].
  destruct (sameName REFERRER h) eqn:E; cbn [List.filter].
  - change (untouched {| name := name h; value := v |})
      with (untouched h).
    assert (Hu : untouched h = false) by (unfold untouched; by rewrite E).
    by rewrite Hu.
  - by rewrite IH.
Qed.

Lemma removeHeader_untouched hs :
  List.filter untouched (removeHeader hs X_CLIENT_DATA).1
  = List.filter untouched hs.
Proof.
  rewrite removeHeader_filter. cbn [fst].
  induction hs as [|h hs IH]; [done|]. cbn [List.filter].
  destruct (sameName X_CLIENT_DATA h) eqn:E; cbn [negb List.filter].
  - assert (Hu : untouched h = false)
      by (unfold untouched; by rewrite E, andb_false_r).
    by rewrite Hu.
  - by rewrite IH.
Qed.

Lemma hideReferrer_spec test action requestUrl hs a :
  let r := hideReferrer getHost test action requestUrl (hs, a) in
  List.filter untouched r.1 = List.filter untouched hs
  /\ map name r.1 = map name hs
  /\ (r = (hs, a) \/ r.2 = Z.lor a action).
Proof.
  unfold hideReferrer.
  destruct (findHeaderByName (Some hs) REFERRER) as [refHeader|];
    [|by auto].
  destruct (test (value refHeader)); [|by auto]. simpl.
  split; [apply writeValue_untouched|].
  split; [apply writeValue_names|by right].
Qed.

Lemma hide_step (b : bool) test action requestUrl hs a hs' a' :
  (if b then hideReferrer getHost test action requestUrl (hs, a)
   else (hs, a)) = (hs', a') ->
  List.filter untouched hs' = List.filter untouched hs
  /\ ((hs', a') = (hs, a) \/ a' = Z.lor a action /\ b = true).
Proof.
  destruct b; [|intros [= <- <-]; split; [done|by left]].
  pose proof (hideReferrer_spec test action requestUrl hs a) as Hspec.
  cbv zeta in Hspec. intros E. rewrite E in Hspec. cbn [fst snd] in Hspec.
  destruct Hspec as (Hf & _ & [Hsame|Ha]); auto.
Qed.

Lemma block_step (b : bool) hs a hs' a' :
  (if b
   then let '(requestHeaders, removed) := removeHeader hs X_CLIENT_DATA in
        if removed
        then (requestHeaders,
              Z.lor a STEALTH_ACTIONS.BLOCK_CHROME_CLIENT_DATA)
        else (requestHeaders, a)
   else (hs, a)) = (hs', a') ->
  List.filter untouched hs' = List.filter untouched hs
  /\ ((hs', a') = (hs, a)
      \/ a' = Z.lor a STEALTH_ACTIONS.BLOCK_CHROME_CLIENT_DATA /\ b = true)
  /\ (b = true -> find (sameName X_CLIENT_DATA) hs' = None).
Proof.
  destruct b; [|intros [= <- <-]; split; [done|]; split; [by left|done]].
  pose proof (removeHeader_untouched hs) as Hu.
  pose proof (removeHeader_unchanged hs X_CLIENT_DATA) as Hsame.
  pose proof (removeHeader_none hs X_CLIENT_DATA) as Hnone.
  destruct (removeHeader hs X_CLIENT_DATA) as [rh removed].
  cbn [fst snd] in *. destruct removed; intros [= <- <-].
  - split; [done|]. split; [by right|done].
  - rewrite Hsame by done. split; [done|]. split; [by left|].
    intros _. by rewrite Hsame in Hnone.
Qed.

(** The header steps: which actions can be noted, and what they do to the
    array. *)
Lemma stealthHeaders_spec requestUrl requestType hs :
  let r := stealthHeaders requestUrl requestType hs in
  0 <= r.2 < 16
  /\ (Z.testbit r.2 0 = true -> setting (HIDE_REFERRER settings) = true)
  /\ (Z.testbit r.2 1 = true ->
      setting (HIDE_SEARCH_QUERIES settings) = true
      /\ requestType = DOCUMENT)
  /\ (Z.testbit r.2 2 = true ->
      setting (BLOCK_CHROME_CLIENT_DATA settings) = true)
  /\ Z.testbit r.2 3 = setting (SEND_DO_NOT_TRACK settings)
  /\ (r.2 = 0 -> r.1 = hs)
  /\ List.filter untouched r.1
     = List.filter untouched hs
       ++ (if setting (SEND_DO_NOT_TRACK settings) then [DO_NOT_TRACK]
           else [])
  /\ (setting (BLOCK_CHROME_CLIENT_DATA settings) = true ->
      findHeaderByName (Some r.1) X_CLIENT_DATA = None).
Proof.
  intros r. subst r. unfold applyStealthHeaders. cbv zeta.
  match goal with
  | |- context [if setting (HIDE_REFERRER settings) then ?X else ?Y] =>
      destruct (if setting (HIDE_REFERRER settings) then X else Y)
        as [h1 a1] eqn:E1
  end.
  apply hide_step in E1 as [F1 B1].
  match goal with
  | |- context [if ?b then hideReferrer ?g ?t ?a ?u (h1, a1)
                else (h1, a1)] =>
      destruct (if b then hideReferrer g t a u (h1, a1) else (h1, a1))
        as [h2 a2] eqn:E2
  end.
  apply hide_step in E2 as [F2 B2]. cbn [fst snd].
  match goal with
  | |- context [if setting (BLOCK_CHROME_CLIENT_DATA settings)
                then ?X else ?Y] =>
      destruct (if setting (BLOCK_CHROME_CLIENT_DATA settings)
                then X else Y) as [h3 a3] eqn:E3
  end.
  apply block_step in E3 as (F3 & B3 & N3).
  assert (Hbits :
    (a3 = 0 /\ h3 = hs \/ 0 < a3 < 8)
    /\ (Z.testbit a3 0 = true -> setting (HIDE_REFERRER settings) = true)
    /\ (Z.testbit a3 1 = true ->
        setting (HIDE_SEARCH_QUERIES settings) = true
        /\ requestType = DOCUMENT)
    /\ (Z.testbit a3 2 = true ->
        setting (BLOCK_CHROME_CLIENT_DATA settings) = true)
    /\ Z.testbit a3 3 = false).
  { destruct B1 as [[= -> ->]|[-> S1]];
      destruct B2 as [[= -> ->]|[-> S2]];
      destruct B3 as [[= -> ->]|[-> S3]];
      try (apply andb_true_iff in S2 as [S2 S2'];
           apply bool_decide_eq_true in S2');
      (split; [first [by left|right; by vm_compute]|]);
      repeat split; intros; try done; try (by vm_compute in *). }
  destruct Hbits as (Hz & Hb0 & Hb1 & Hb2 & Hb3).
  assert (Hf : List.filter untouched h3 = List.filter untouched hs)
    by congruence.
  destruct (setting (SEND_DO_NOT_TRACK settings)) eqn:S4; cbn [fst snd].
  - assert (Ha : 0 <= a3 < 8) by (destruct Hz as [[-> _]|?]; lia).
    assert (Hlor : Z.lor a3 STEALTH_ACTIONS.SEND_DO_NOT_TRACK = a3 + 8).
    { change STEALTH_ACTIONS.SEND_DO_NOT_TRACK with 8.
      assert (Hcases : a3 = 0 \/ a3 = 1 \/ a3 = 2 \/ a3 = 3 \/ a3 = 4
                       \/ a3 = 5 \/ a3 = 6 \/ a3 = 7) by lia.
      destruct Hcases as [->|[->|[->|[->|[->|[->|[->| ->]]]]]]]; done. }
    rewrite Hlor.
    assert (Hcases : a3 = 0 \/ a3 = 1 \/ a3 = 2 \/ a3 = 3 \/ a3 = 4
                     \/ a3 = 5 \/ a3 = 6 \/ a3 = 7) by lia.
    split; [lia|].
    split; [destruct Hcases as [->|[->|[->|[->|[->|[->|[->| ->]]]]]]];
            intros Hb; apply Hb0; by vm_compute in Hb |- *|].
    split; [destruct Hcases as [->|[->|[->|[->|[->|[->|[->| ->]]]]]]];
            intros Hb; apply Hb1; by vm_compute in Hb |- *|].
    split; [destruct Hcases as [->|[->|[->|[->|[->|[->|[->| ->]]]]]]];
            intros Hb; apply Hb2; by vm_compute in Hb |- *|].
    split; [by destruct Hcases as [->|[->|[->|[->|[->|[->|[->| ->]]]]]]]|].
    split; [lia|].
    split; [by rewrite List.filter_app, Hf|].
    intros S3. unfold findHeaderByName.
    change (default [] (Some (h3 ++ [DO_NOT_TRACK])))
      with (h3 ++ [DO_NOT_TRACK]).
    by rewrite find_app_header, (N3 S3).
  - split; [destruct Hz as [[-> _]|?]; lia|].
    split; [done|]. split; [done|]. split; [done|]. split; [done|].
    split; [intros ->; destruct Hz as [[_ ->]|?]; [done|lia]|].
    split; [by rewrite app_nil_r|].
    intros S3. by apply N3.
Qed.

Lemma setting_enabled (b : bool) :
  isStealthModeDisabled settings = false -> setting b = b.
Proof.
  unfold isStealthModeDisabled, getStealthSettingValue,
    Stealth.getStealthSettingValue. by intros ->.
Qed.

Lemma update_stealthActions (storage : RState) requestId c a :
  Ledger.get storage requestId = Some c ->
  (Ledger.update storage requestId (stealthActionsUpdate a)).2 = []
  /\ Ledger.stealthActions
       <$> Ledger.get
             (Ledger.update storage requestId (stealthActionsUpdate a)).1
             requestId
     = Some (Some a).
Proof.
  unfold Ledger.get, Ledger.update. intros ->. simpl.
  by rewrite lookup_insert_eq.
Qed.

Lemma update_requestRule (storage : RState) requestId c rule :
  Ledger.get storage requestId = Some c ->
  (Ledger.update storage requestId (requestRuleUpdate rule)).2
  = [Ledger.BindRuleToHttpRequestEvent (Ledger.tab c) (Some rule)
       (Ledger.eventId c)]
  /\ Ledger.requestRule
       <$> Ledger.get
             (Ledger.update storage requestId (requestRuleUpdate rule)).1
             requestId
     = Some (Some rule).
Proof.
  unfold Ledger.get, Ledger.update. intros ->. simpl.
  by rewrite lookup_insert_eq.
Qed.

(** X18.  What a call of processRequestHeaders can do.  When it returns true,
    the context of the request exists, nothing is sent to the filtering log,
    and the context now holds a mask of actions between 1 and 15 in which a
    bit is set only if its setting is on, the bit of Do-Not-Track exactly
    when that setting is on; with the client-data setting on no header of
    that name is left.  When it returns false the header array is as it was.
    In both cases the headers other than the referrer and the client data
    keep their values and order, and the Do-Not-Track header is appended
    exactly when the call returns true with that setting on. *)
Theorem processRequestHeaders_outcome (storage : RState)
    (requestId : string) (requestHeaders : list Header) :
  let r := processHeaders storage requestId requestHeaders in
  let flag := r.1.1.1 in
  let requestHeaders' := r.1.1.2 in
  List.filter untouched requestHeaders'
  = List.filter untouched requestHeaders
    ++ (if flag && SEND_DO_NOT_TRACK settings then [DO_NOT_TRACK] else [])
  /\ if flag
     then
       r.2 = []
       /\ is_Some (Ledger.get storage requestId)
       /\ exists a,
            Ledger.stealthActions <$> Ledger.get r.1.2 requestId
            = Some (Some a)
            /\ 0 < a < 16
            /\ (Z.testbit a 0 = true -> HIDE_REFERRER settings = true)
            /\ (Z.testbit a 1 = true -> HIDE_SEARCH_QUERIES settings = true)
            /\ (Z.testbit a 2 = true ->
                BLOCK_CHROME_CLIENT_DATA settings = true)
            /\ Z.testbit a 3 = SEND_DO_NOT_TRACK settings
            /\ (BLOCK_CHROME_CLIENT_DATA settings = true ->
                findHeaderByName (Some requestHeaders') X_CLIENT_DATA = None)
     else requestHeaders' = requestHeaders.
Proof.
  intros r flag requestHeaders'. subst flag requestHeaders' r.
  unfold processRequestHeaders. cbv zeta.
  destruct (isStealthModeDisabled settings) eqn:Hdis;
    [cbn [fst snd andb]; by rewrite app_nil_r|].
  destruct (Ledger.get storage requestId) as [c|] eqn:Hc;
    [|cbn [fst snd andb]; by rewrite app_nil_r].
  destruct (shouldStopRequestProcess _);
    [cbn [fst snd andb]; by rewrite app_nil_r|].
  destruct (negb (truthy _));
    [cbn [fst snd andb]; by rewrite app_nil_r|].
  destruct (match findWhiteListRule _ _ _ with
            | Some r => isDocumentWhiteList r | None => false end);
    [cbn [fst snd andb]; by rewrite app_nil_r|].
  destruct (findStealthWhitelistRule _ _ _ _ _) as [rule|].
  { destruct (Ledger.update _ _ _) as [storage' ev].
    cbn [fst snd andb]. by rewrite app_nil_r. }
  pose proof (stealthHeaders_spec (Ledger.requestUrl c)
                (Ledger.requestType c) requestHeaders) as Hspec.
  cbv zeta in Hspec.
  destruct (stealthHeaders _ _ _) as [hs' a]. cbn [fst snd] in Hspec.
  rewrite !setting_enabled in Hspec by done.
  destruct Hspec as (Hrange & Hb0 & Hb1 & Hb2 & Hb3 & Hzero & Hf & Hx).
  destruct (Z.ltb_spec 0 a) as [Hpos|Hle].
  - destruct (update_stealthActions storage requestId c a Hc) as [Hev Hst].
    destruct (Ledger.update _ _ _) as [storage' ev].
    cbn [fst snd andb] in *. split; [done|]. split; [done|].
    split; [by eexists|]. exists a. split; [done|]. split; [lia|].
    split; [done|]. split; [by intros [? _]%Hb1|]. done.
  - assert (a = 0) as -> by lia. cbn [fst snd andb].
    rewrite Hzero by done. by rewrite app_nil_r.
Qed.

(** X19.  A document-level stealth whitelist rule of the main frame exempts
    every request of the tab from the stealth service: the headers are left
    as they are and the rule is bound to the request in the storage and in
    the filtering log; no cookie rules are made; and tracking parameters are
    not stripped, the rule being logged with the request instead. *)
Theorem main_frame_stealth_whitelist_exempts (storage : RState)
    (requestId : string) (requestHeaders : list Header)
    (c : @Ledger.RequestContext Rule Element) (mainFrameUrl : string)
    (rule : Rule) :
  isStealthModeDisabled settings = false ->
  Ledger.get storage requestId = Some c ->
  shouldStopRequestProcess (Ledger.tab c) = false ->
  getMainFrameUrl (Ledger.tab c) = Some mainFrameUrl ->
  mainFrameUrl <> EmptyString ->
  match findWhiteListRule (Ledger.requestUrl c) mainFrameUrl
          (Ledger.requestType c) with
  | Some r => isDocumentWhiteList r
  | None => false
  end = false ->
  findStealthWhiteListRule mainFrameUrl mainFrameUrl (Ledger.requestType c)
  = Some rule ->
  isDocumentWhiteList rule = true ->
  let r := processHeaders storage requestId requestHeaders in
  r.1.1 = (false, requestHeaders)
  /\ r.2 = [Ledger.BindRuleToHttpRequestEvent (Ledger.tab c) (Some rule)
              (Ledger.eventId c)]
  /\ Ledger.requestRule <$> Ledger.get r.1.2 requestId = Some (Some rule)
  /\ cookieRules (Ledger.requestUrl c) mainFrameUrl (Ledger.requestType c)
     = RulesNull
  /\ Stealth.removeTrackersFromUrl (stealth settings)
       shouldStopRequestProcess getMainFrameUrl findWhiteListRule
       isDocumentWhiteList stealthWhitelist storage requestId
     = (None,
        if Stealth.STRIP_TRACKING_PARAMETERS (stealth settings)
           && bool_decide (Ledger.requestType c = DOCUMENT)
        then [Ledger.AddHttpRequestEvent (Ledger.tab c) (Ledger.requestUrl c)
                mainFrameUrl (Ledger.requestType c) (Some rule) None]
        else []).
Proof.
  intros Hdis Hc Hstop Hmain Hne Hwl Hrule Hdoc r. subst r.
  assert (Hfind : stealthWhitelist (Ledger.requestUrl c) mainFrameUrl
                    (Ledger.requestType c) = Some rule).
  { unfold findStealthWhitelistRule. by rewrite Hrule, Hdoc. }
  assert (Htruthy : truthy (Some mainFrameUrl) = true).
  { simpl. by destruct (String.eqb_spec mainFrameUrl EmptyString). }
  destruct (update_requestRule storage requestId c rule Hc) as [Hev Hst].
  assert (Hrun : processHeaders storage requestId requestHeaders
                 = (false, requestHeaders,
                    (Ledger.update storage requestId
                       (requestRuleUpdate rule)).1,
                    (Ledger.update storage requestId
                       (requestRuleUpdate rule)).2)).
  { unfold processRequestHeaders. cbv zeta.
    rewrite Hdis, Hc, Hstop, Hmain, Htruthy. cbn [negb].
    change (default EmptyString (Some mainFrameUrl)) with mainFrameUrl.
    rewrite Hwl, Hfind. by destruct (Ledger.update _ _ _). }
  rewrite Hrun. cbn [fst snd].
  split; [done|]. split; [done|]. split; [done|]. split.
  - unfold getCookieRules. by rewrite Hdis, Hwl, Hfind.
  - unfold Stealth.removeTrackersFromUrl, Stealth.getStealthSettingValue.
    unfold isStealthModeDisabled in Hdis. rewrite Hdis, Hc.
    destruct (Stealth.STRIP_TRACKING_PARAMETERS (stealth settings));
      [|done].
    cbn [negb andb]. cbv zeta.
    destruct (bool_decide (Ledger.requestType c = DOCUMENT)); [|done].
    cbn [negb]. rewrite Hstop, Hmain, Htruthy. cbn [negb].
    change (default EmptyString (Some mainFrameUrl)) with mainFrameUrl.
    by rewrite Hwl, Hfind.
Qed.

(** X20.  What getCookieRules returns.  It returns false only for a request
    under a document whitelist rule while stealth mode is on, and null only
    when stealth mode is off or a stealth whitelist rule applies.  Otherwise
    it returns at most two rules, the first-party rule before the third-party
    one, each carrying the one action of its kind; the first-party rule is
    there exactly when its setting is on, the third-party rule exactly when
    its setting is on and the request has a referrer, is a third party to it
    and is not a main frame; a rule has a maxAge, of sixty seconds for each
    configured minute, exactly when its configured time is positive. *)
Theorem getCookieRules_cases (requestUrl referrerUrl : string)
    (requestType : RequestType) :
  let documentWhitelisted :=
    match findWhiteListRule requestUrl referrerUrl requestType with
    | Some r => isDocumentWhiteList r
    | None => false
    end in
  let seconds minutes :=
    if 0 <? minutes then Some (60 * minutes) else None in
  match cookieRules requestUrl referrerUrl requestType with
  | RulesNull =>
      isStealthModeDisabled settings = true
      \/ documentWhitelisted = false
         /\ is_Some (stealthWhitelist requestUrl referrerUrl requestType)
  | RulesFalse =>
      isStealthModeDisabled settings = false /\ documentWhitelisted = true
  | RulesArray rules =>
      isStealthModeDisabled settings = false
      /\ documentWhitelisted = false
      /\ stealthWhitelist requestUrl referrerUrl requestType = None
      /\ map (fun r => (ruleActions r, maxAge r)) rules
         = (if SELF_DESTRUCT_FIRST_PARTY_COOKIES settings
            then [(32, seconds
                         (SELF_DESTRUCT_FIRST_PARTY_COOKIES_TIME settings))]
            else [])
           ++ (if SELF_DESTRUCT_THIRD_PARTY_COOKIES settings
                  && negb (String.eqb referrerUrl EmptyString)
                  && isThirdPartyRequest requestUrl referrerUrl
                  && negb (bool_decide (requestType = DOCUMENT))
               then [(64, seconds
                            (SELF_DESTRUCT_THIRD_PARTY_COOKIES_TIME
                               settings))]
               else [])
  end.
Proof.
  intros documentWhitelisted seconds.
  assert (Hage : forall minutes actions,
             maxAge (generateRemoveRule minutes actions) = seconds minutes).
  { intros minutes actions. unfold generateRemoveRule, seconds. simpl.
    destruct (0 <? minutes); [f_equal; lia|done]. }
  unfold getCookieRules. fold documentWhitelisted.
  destruct (isStealthModeDisabled settings) eqn:Hdis; [by left|].
  destruct documentWhitelisted; [done|].
  destruct (findStealthWhitelistRule _ _ _ _ _) eqn:Hw;
    [right; split; [done|by eexists]|].
  rewrite !setting_enabled by done.
  destruct (SELF_DESTRUCT_FIRST_PARTY_COOKIES settings),
    (SELF_DESTRUCT_THIRD_PARTY_COOKIES settings); cbn [negb andb];
    try (destruct (negb (String.eqb referrerUrl EmptyString)
                   && isThirdPartyRequest requestUrl referrerUrl
                   && negb (bool_decide (requestType = DOCUMENT))));
    cbn [map app ruleActions generateRemoveRule];
    rewrite ?Hage; done.
Qed.

End StealthRequestProperties.

(** * Properties of the user settings *)

Section SettingsProperties.

Import Settings.

Variables isWindowsOs isMacOs isEdgeBrowser isChromeBrowser : bool.
Variable mobile : Value.
Variable parse : string -> option Value.
Variable stringify : Value -> string.

Abbreviation defaultOf :=
  (defaults isWindowsOs isMacOs isEdgeBrowser isChromeBrowser mobile).
Abbreviation getSetting :=
  (getProperty isWindowsOs isMacOs isEdgeBrowser isChromeBrowser mobile
     parse).
Abbreviation setSetting := (setProperty stringify).

(** X21.  A value set is the value read: after setProperty, getProperty
    returns the very value that was set, from the cache, without reading the
    storage or decoding its text, without logging, and with the state
    unchanged, whether the storage is initialized or not; the storage holds
    the encoded value, and two listeners' channels are notified once each. *)
Theorem setProperty_then_getProperty (s : State) (propertyName : string)
    (propertyValue : Value) :
  let r := setSetting s propertyName propertyValue in
  getSetting r.1 propertyName = (r.1, propertyValue, [])
  /\ items r.1 !! propertyName = Some (stringify propertyValue)
  /\ r.2 = [Notify propertyName propertyValue;
            NotifyListeners propertyName propertyValue].
Proof.
  intros r. subst r. unfold getProperty, setProperty.
  cbn [fst snd properties items].
  rewrite !lookup_insert_eq. done.
Qed.

Lemma getProperty_cached (s : State) (propertyName : string) (v : Value) :
  properties s !! propertyName = Some v ->
  getSetting s propertyName = (s, v, []).
Proof. unfold getProperty. by intros ->. Qed.

Lemma getProperty_uninitialized (s : State) (propertyName : string) :
  properties s !! propertyName = None -> isInitialized s = false ->
  getSetting s propertyName
  = (s, default Undefined (defaultOf !! propertyName), []).
Proof. unfold getProperty. by intros -> ->. Qed.

Lemma getProperty_fills (s : State) (propertyName : string) :
  properties s !! propertyName = None -> isInitialized s = true ->
  exists v log,
    getSetting s propertyName = (set_property s propertyName v, v, log).
Proof.
  unfold getProperty. intros -> ->. cbn [negb].
  destruct (match items s !! propertyName with
            | Some text => _ | None => _ end) as [v log].
  by exists v, log.
Qed.

(** X22.  Reading a setting twice gives the same value, and the second read
    changes nothing and logs nothing.  Once a read has cached the value with
    the storage initialized, what the storage holds no longer matters: the
    value read stays, even after the stored text changes. *)
Theorem getProperty_reads_once (s : State) (propertyName : string)
    (items' : gmap string string) :
  let r := getSetting s propertyName in
  getSetting r.1.1 propertyName = (r.1.1, r.1.2, [])
  /\ (isInitialized s = false /\ r.1.1 = s
      \/ properties r.1.1 !! propertyName = Some r.1.2
         /\ (getSetting
               {| properties := properties r.1.1; items := items';
                  isInitialized := isInitialized s |} propertyName).1.2
            = r.1.2).
Proof.
  intros r. subst r.
  destruct (properties s !! propertyName) as [v|] eqn:Hp.
  - rewrite (getProperty_cached s propertyName v Hp). cbn [fst snd].
    split; [by apply getProperty_cached|]. right. split; [done|].
    by rewrite (getProperty_cached _ propertyName v).
  - destruct (isInitialized s) eqn:Hi.
    + destruct (getProperty_fills s propertyName Hp Hi) as (v & log & ->).
      cbn [fst snd].
      assert (Hv : properties (set_property s propertyName v) !! propertyName
                   = Some v) by apply lookup_insert_eq.
      split; [by apply getProperty_cached|]. right. split; [done|].
      by rewrite (getProperty_cached _ propertyName v).
    + rewrite (getProperty_uninitialized s propertyName Hp Hi).
      cbn [fst snd]. split; [by apply getProperty_uninitialized|]. by left.
Qed.

Lemma assignments_lookup (l : list (string * Value)) :
  forall (m : gmap string Value) (k : string),
    fold_left (fun m kv => <[kv.1 := kv.2]> m) l m !! k
    = match find (fun kv => String.eqb kv.1 k) (rev l) with
      | Some kv => Some kv.2
      | None => m !! k
      end.
Proof.
  induction l as [|[k0 v0] l IH]; intros m k; [done|].
  cbn [fold_left rev]. rewrite IH.
  assert (Hfind : forall l1 l2 : list (string * Value),
             find (fun kv => String.eqb kv.1 k) (l1 ++ l2)
             = match find (fun kv => String.eqb kv.1 k) l1 with
               | Some x => Some x
               | None => find (fun kv => String.eqb kv.1 k) l2
               end).
  { induction l1 as [|x l1 IH1]; intros l2; simpl; [done|].
    by destruct (String.eqb x.1 k). }
  rewrite Hfind. destruct (find _ (rev l)); [done|]. cbn [find fst snd].
  destruct (String.eqb_spec k0 k) as [->|Hne].
  - apply lookup_insert_eq.
  - by apply lookup_insert_ne.
Qed.

Lemma all_false_lookup (l : list string) :
  forall (m : gmap string Value) (k : string),
    fold_left (fun m k => <[k := Bool false]> m) l m !! k
    = if existsb (String.eqb k) l then Some (Bool false) else m !! k.
Proof.
  induction l as [|k0 l IH]; intros m k; [done|].
  cbn [fold_left existsb]. rewrite IH.
  destruct (existsb (String.eqb k) l); [by rewrite orb_true_r|].
  rewrite orb_false_r. destruct (String.eqb_spec k k0) as [->|Hne].
  - apply lookup_insert_eq.
  - by apply lookup_insert_ne.
Qed.

(** X23.  Until the user stores something else, safebrowsing and stealth mode
    are off and filtering is on: with no cached value and no stored text for
    these settings, getProperty returns true for the settings that disable
    safebrowsing and stealth mode and false for the one that disables
    filtering, whether the storage is initialized or not. *)
Theorem defaults_disable_protection (s : State) (propertyName : string) :
  properties s !! propertyName = None ->
  items s !! propertyName = None ->
  (propertyName = DISABLE_SAFEBROWSING
   \/ propertyName = DISABLE_STEALTH_MODE
   \/ propertyName = DISABLE_FILTERING) ->
  (getSetting s propertyName).1.2
  = Bool (negb (String.eqb propertyName DISABLE_FILTERING))
  /\ (getSetting s propertyName).2 = [].
Proof.
  intros Hp Hi Hname. unfold getProperty. rewrite Hp, Hi.
  assert (Hd : defaultOf !! propertyName
               = Some (Bool (negb (String.eqb propertyName
                                     DISABLE_FILTERING)))).
  { unfold defaults. rewrite assignments_lookup, all_false_lookup.
    destruct Hname as [->|[->| ->]]; vm_compute; reflexivity. }
  rewrite Hd. clear Hd.
  destruct (isInitialized s); cbn [negb fst snd]; split; reflexivity.
Qed.

End SettingsProperties.

(** * Properties of the text of the user rules *)

(** X24.  The text of the user rules survives the round trip through its
    lines: the lines saved for a text, read back and joined, give the text
    again; no saved line holds a line break, and the empty text is saved as no
    line at all. *)
Theorem user_rules_text_round_trip (content : string) :
  UserRules.getUserRulesText (Some (UserRules.updateUserRulesText content))
  = content
  /\ Forall (Stealth.no_char "010") (UserRules.updateUserRulesText content)
  /\ (UserRules.updateUserRulesText content = [] <-> content = EmptyString).
Proof.
  unfold UserRules.getUserRulesText, UserRules.updateUserRulesText.
  destruct content as [|c content].
  - simpl. split; [done|]. split; [constructor|done].
  - change (0 <? String.length (String c content))%nat with true.
    cbv iota. split; [apply concat_split_char|].
    split; [apply split_parts_no_char|].
    split; [|done]. intros H. by apply split_char_nonempty in H.
Qed.

(** * Properties of the content types *)

Section ContentTypeProperties.

Import ContentTypes.

Lemma slice_last_short n s :
  (String.length s <= n)%nat -> slice_last n s = s.
Proof.
  destruct s as [|c s]; [done|]. simpl. intros Hlen.
  destruct (Nat.leb_spec n (String.length s)); [lia|done].
Qed.

Lemma slice_last_suffix n stem ext :
  (String.length ext <= n)%nat ->
  exists stem', slice_last n (stem +:+ ext) = stem' +:+ ext.
Proof.
  intros Hlen. induction stem as [|c stem IH].
  - exists EmptyString. by apply slice_last_short.
  - change (String c stem +:+ ext) with (String c (stem +:+ ext)).
    cbn [slice_last].
    destruct (n <=? String.length (stem +:+ ext))%nat; [exact IH|].
    by exists (String c stem).
Qed.

Lemma fromLastDot_no_dot s : Stealth.no_char "." s -> fromLastDot s = None.
Proof.
  induction s as [|c s IH]; [done|]. intros [Hc Hs]. simpl.
  rewrite (IH Hs). by destruct (Ascii.eqb_spec c ".").
Qed.

Lemma fromLastDot_suffix stem e :
  Stealth.no_char "." e ->
  fromLastDot (stem +:+ String "." e) = Some (String "." e).
Proof.
  intros He. induction stem as [|c stem IH].
  - simpl. by rewrite (fromLastDot_no_dot e He).
  - change (String c stem +:+ String "." e)
      with (String c (stem +:+ String "." e)).
    cbn [fromLastDot]. by rewrite IH.
Qed.

Lemma prefix_cons a p b s :
  String.prefix (String a p) (String b s)
  = Ascii.eqb a b && String.prefix p s.
Proof.
  simpl. destruct (ascii_dec a b) as [->|Hne].
  - by rewrite Ascii.eqb_refl.
  - by destruct (Ascii.eqb_spec a b).
Qed.

(** A dot-free text followed by a dot starts a string exactly when it is the
    first of several dot-separated parts of the string. *)
Lemma prefix_part (s : string) : forall (e p : string) (ps : list string),
  Stealth.no_char "." e -> split "." s = p :: ps ->
  String.prefix (e +:+ ".") s
  = String.eqb e p && negb (bool_decide (ps = [])).
Proof.
  induction s as [|c s IH]; intros e p ps He Hsplit.
  - injection Hsplit as <- <-. by destruct e.
  - simpl in Hsplit. destruct (Ascii.eqb_spec c ".") as [->|Hc].
    + injection Hsplit as <- <-.
      pose proof (split_char_nonempty "." s) as Hne.
      destruct e as [|a e].
      * rewrite bool_decide_eq_false_2 by done.
        change (EmptyString +:+ ".") with ".". rewrite prefix_cons.
        by destruct s.
      * destruct He as [Ha _].
        change (String a e +:+ ".") with (String a (e +:+ ".")).
        rewrite prefix_cons. by destruct (Ascii.eqb_spec a ".").
    + destruct (split "." s) as [|p' ps'] eqn:E;
        [by apply split_char_nonempty in E|].
      injection Hsplit as <- <-.
      destruct e as [|a e].
      * change (EmptyString +:+ ".") with ".". rewrite prefix_cons.
        destruct (Ascii.eqb_spec "." c) as [<-|_]; done.
      * destruct He as [Ha He].
        change (String a e +:+ ".") with (String a (e +:+ ".")).
        rewrite prefix_cons, (IH e p' ps' He eq_refl).
        change (String a e =? String c p')%string
          with (Ascii.eqb a c && (e =? p')%string).
        by rewrite andb_assoc.
Qed.

Lemma existsb_removelast_cons (e p : string) (ps : list string) :
  existsb (String.eqb e) (removelast (p :: ps))
  = String.eqb e p && negb (bool_decide (ps = []))
    || existsb (String.eqb e) (removelast ps).
Proof.
  destruct ps as [|q ps]; [simpl; by rewrite andb_false_r|].
  change (removelast (p :: q :: ps)) with (p :: removelast (q :: ps)).
  cbn [existsb]. by rewrite andb_true_r.
Qed.

(** Searching a dotted list for a dot-free text put between two dots finds
    it exactly when the text is one of the parts between two dots. *)
Lemma includes_between_dots (types e : string) :
  Stealth.no_char "." e ->
  includes types (String "." (e +:+ "."))
  = existsb (String.eqb e) (between_dots types).
Proof.
  intros He. unfold between_dots.
  induction types as [|c types IH]; [done|].
  cbn [includes]. rewrite prefix_cons, IH.
  pose proof (split_char_nonempty "." types) as Hne.
  cbn [split].
  destruct (split "." types) as [|p ps] eqn:E; [done|].
  destruct (Ascii.eqb_spec c ".") as [->|Hc].
  - rewrite Ascii.eqb_refl. cbn [andb tail].
    rewrite (prefix_part types e p ps He E).
    apply eq_sym, existsb_removelast_cons.
  - destruct (Ascii.eqb_spec "." c) as [<-|_]; done.
Qed.

(** X25.  The content type of a path is read from the text after the last
    dot of its last six characters, compared as it is written: a path that
    ends in a dot and an extension of at most five characters has the type
    under which that extension is listed, objects before media, fonts and
    images, and no type when it is listed nowhere; a path without a dot in
    its last six characters has no type. *)
Theorem parseContentTypeFromUrlPath_by_extension (stem e path : string) :
  Stealth.no_char "." e -> (String.length e <= 5)%nat ->
  Stealth.no_char "." (slice_last 6 path) ->
  parseContentTypeFromUrlPath (stem +:+ String "." e)
  = (if bool_decide (e ∈ ["jar"; "swf"]) then Some OBJECT
     else if bool_decide
               (e ∈ ["mp4"; "flv"; "avi"; "m3u"; "webm"; "mpeg"; "3gp";
                     "3gpp"; "3g2"; "3gpp2"; "ogg"; "mov"; "qt"])
     then Some MEDIA
     else if bool_decide (e ∈ ["ttf"; "otf"; "woff"; "woff2"; "eot"])
     then Some FONT
     else if bool_decide
               (e ∈ ["ico"; "png"; "gif"; "jpg"; "jpeg"; "webp"])
     then Some IMAGE
     else None)
  /\ parseContentTypeFromUrlPath path = None.
Proof.
  intros He Hlen Hpath. split.
  - unfold parseContentTypeFromUrlPath. cbv zeta.
    destruct (slice_last_suffix 6 stem (String "." e)) as [stem' ->];
      [simpl; lia|].
    rewrite (fromLastDot_suffix stem' e He).
    change (String "." e +:+ ".") with (String "." (e +:+ ".")).
    rewrite !(includes_between_dots _ e He).
    assert (Hmem : forall l : list string,
               existsb (String.eqb e) l = bool_decide (e ∈ l)).
    { induction l as [|x l IH]; [done|]. cbn [existsb]. rewrite IH.
      destruct (String.eqb_spec e x) as [->|Hne]; cbn [orb].
      - symmetry. apply bool_decide_eq_true_2. left.
      - apply bool_decide_ext. rewrite elem_of_cons. tauto. }
    rewrite !Hmem. reflexivity.
  - unfold parseContentTypeFromUrlPath. cbv zeta.
    by rewrite (fromLastDot_no_dot _ Hpath).
Qed.

End ContentTypeProperties.

(** * Instances of the further properties *)

Lemma late_calls_do_nothing_witness :
  Ledger.contexts Samples.fresh !! "r9" = None /\
  Ledger.onRequestCompleted Samples.fresh "r9"
  = (Samples.fresh, [], Ledger.Normal).
Proof.
  assert (H0 : Ledger.contexts Samples.fresh !! "r9" = None)
    by apply lookup_empty.
  split; [exact H0|].
  exact (proj1 (proj2 (proj2 (proj2
           (late_calls_do_nothing Samples.fresh "r9" Ledger.noUpdate
              3%nat "<p>" H0))))).
Defined.

Lemma reachable_contexts_keyed_witness :
  let calls := [Samples.recordCall "r1" "http://a.example/" DOCUMENT;
                Samples.recordCall "r2" "http://c.example/" IMAGE;
                Ledger.OnRequestCompleted "r2";
                Samples.recordCall "r1" "http://b.example/" DOCUMENT] in
  Ledger.nextEventId (Ledger.run Samples.fresh calls).1 < MAX_SAFE /\
  LedgerInvariants.state_keyed (Ledger.run Samples.fresh calls).1.
Proof.
  intros calls.
  assert (H0 : Ledger.nextEventId (Ledger.run Samples.fresh calls).1
               < MAX_SAFE) by (vm_compute; reflexivity).
  split; [exact H0|].
  exact (reachable_contexts_keyed calls H0).
Defined.

Lemma csp_rules_accumulate_witness :
  let r1 := Ledger.update Samples.bound "r1"
              (LedgerInvariants.rulesUpdate [21%nat] [31%nat]) in
  let r2 := Ledger.update r1.1 "r1"
              (LedgerInvariants.rulesUpdate [22%nat; 23%nat] [32%nat]) in
  Ledger.contexts Samples.bound !! "r1" = Some Samples.bound_context /\
  exists c2,
    Ledger.contexts r2.1 !! "r1" = Some c2
    /\ Ledger.cspRules c2 = Some [9%nat; 21%nat; 22%nat; 23%nat]
    /\ Ledger.replaceRules c2 = Some [32%nat].
Proof.
  intros r1 r2.
  assert (H0 : Ledger.contexts Samples.bound !! "r1"
               = Some Samples.bound_context) by (vm_compute; reflexivity).
  split; [exact H0|].
  destruct (csp_rules_accumulate Samples.bound "r1" Samples.bound_context
              [21%nat] [31%nat] [22%nat; 23%nat] [32%nat] H0)
    as (_ & _ & c2 & H1 & H2 & H3 & _).
  exists c2. split; [exact H1|]. split; [exact H2|exact H3].
Defined.

Lemma content_flush_reports_each_binding_witness :
  let binds := [(11%nat, "<a>"); (12%nat, "<b>"); (11%nat, "<c>")] in
  let c' := LedgerInvariants.bindAll RequestSamples.plain_context binds in
  Ledger.contentRules RequestSamples.plain_context = None /\
  Ledger.elements RequestSamples.plain_context = None /\
  exists cosmetic,
    (Ledger.flushContent c').1.1.2 = cosmetic
    /\ cosmetic
       ≡ₚ map (LedgerInvariants.cosmeticEvent RequestSamples.plain_context)
            binds.
Proof.
  intros binds c'. split; [reflexivity|]. split; [reflexivity|].
  destruct (content_flush_reports_each_binding RequestSamples.plain_context
              binds eq_refl eq_refl) as (cosmetic & H1 & H2).
  exists cosmetic. split; [|exact H2].
  fold c' in H1. rewrite H1. reflexivity.
Defined.

Lemma lookup_asks_only_unqueried_prefixes_witness :
  let r := Samples.sb_lookup Samples.sb_empty 1000
             "http://www.example.org/x" in
  Safebrowsing.LookupSafebrowsing RequestSamples.pending_example ∈ r.2 /\
  r = (Samples.sb_empty,
       [Safebrowsing.LookupSafebrowsing RequestSamples.pending_example]).
Proof.
  intros r.
  assert (H0 : Safebrowsing.LookupSafebrowsing RequestSamples.pending_example
               ∈ r.2) by (vm_compute; apply list_elem_of_here).
  split; [exact H0|].
  destruct (lookup_asks_only_unqueried_prefixes Samples.sample_getHost
              Samples.sample_isIpv4 Samples.sample_isIpv6 Samples.sample_hash
              Samples.SCache Samples.sample_getValue Samples.sample_saveValue
              Samples.SMap Samples.sample_lru_get Samples.sb_empty 1000
              "http://www.example.org/x") as (_ & _ & _ & _ & Hp).
  exact (proj1 (Hp RequestSamples.pending_example H0)).
Defined.

Lemma response_decided_by_first_known_line_witness :
  let text := "phishing:1:OTHER.NET/" +:+ String "010" EmptyString
              +:+ "malware:7:EXAMPLE.ORG/" in
  let response := {| Safebrowsing.status := 200;
                     Safebrowsing.responseText := Some text |} in
  200 < 500 /\ 200 <> 204 /\ text <> EmptyString /\
  Z.of_nat (String.length text) <= 10 * 1024 /\
  (Samples.sb_response Samples.sb_empty 5000 RequestSamples.pending_example
     response).2
  = [Safebrowsing.Callback (Some "malware")].
Proof.
  intros text response.
  assert (H1 : Safebrowsing.status response < 500) by (simpl; lia).
  assert (H2 : Safebrowsing.status response <> 204) by (simpl; lia).
  assert (H3 : text <> EmptyString) by discriminate.
  assert (H4 : Z.of_nat (String.length text) <= 10 * 1024)
    by (vm_compute; discriminate).
  split; [lia|]. split; [lia|]. split; [exact H3|]. split; [exact H4|].
  exact (proj1 (response_decided_by_first_known_line Samples.sample_hash
                  Samples.SCache Samples.sample_saveValue Samples.SMap
                  Samples.sample_lru_set Samples.sb_empty 5000
                  RequestSamples.pending_example response text H1 H2
                  eq_refl H3 H4)).
Defined.

Lemma response_without_body_is_clean_witness :
  let response := {| Safebrowsing.status := 204;
                     Safebrowsing.responseText := None |} in
  204 < 500 /\
  (Samples.sb_response Samples.sb_empty 5000 RequestSamples.pending_example
     response).2
  = [Safebrowsing.Callback None].
Proof.
  intros response.
  assert (H1 : Safebrowsing.status response < 500) by (simpl; lia).
  split; [lia|].
  exact (proj1 (response_without_body_is_clean Samples.sample_hash
                  Samples.SCache Samples.sample_saveValue Samples.SMap
                  Samples.sample_lru_set Samples.sb_empty 5000
                  RequestSamples.pending_example response H1
                  (or_introl eq_refl))).
Defined.

Lemma sample_cache_law (c : Samples.SCache) (k v : string) :
  Samples.sample_getValue (Samples.sample_saveValue c (Some k) v) k = Some v.
Proof. simpl. destruct (decide (Some k = Some k)); [reflexivity|done]. Defined.

Lemma answered_lookup_is_replayed_witness :
  let response := {| Safebrowsing.status := 200;
                     Safebrowsing.responseText :=
                       Some "malware:7:EXAMPLE.ORG/" |} in
  let r := Samples.sb_response Samples.sb_empty 5000
             RequestSamples.pending_example response in
  let s' := RequestSamples.sb_trust r.1 "http://other.net/" in
  Samples.sample_getHost "http://www.example.org/x"
  = Some "www.example.org" /\
  200 < 500 /\
  Samples.sb_lookup r.1 9000 "http://www.example.org/x"
  = (r.1, [Safebrowsing.Callback (Some "malware")]) /\
  Safebrowsing.cache s'
  = (Some "OTHER.NET/", "whitelist") :: Safebrowsing.cache r.1 /\
  Samples.sb_lookup s' 9500 "http://www.example.org/x"
  = (s', [Safebrowsing.Callback (Some "malware")]).
Proof.
  intros response r s'.
  assert (H0 : Samples.sample_getHost "http://www.example.org/x"
               = Some "www.example.org") by (vm_compute; reflexivity).
  assert (H1 : Safebrowsing.status response < 500) by (simpl; lia).
  split; [exact H0|]. split; [lia|].
  destruct (answered_lookup_is_replayed Samples.sample_getHost
              Samples.sample_isIpv4 Samples.sample_isIpv6 Samples.sample_hash
              Samples.SCache Samples.sample_getValue Samples.sample_saveValue
              Samples.SMap Samples.sample_lru_get Samples.sample_lru_set
              sample_cache_law Samples.sb_empty 5000 9000
              "http://www.example.org/x" RequestSamples.pending_example
              response H0 ltac:(discriminate) H1) as [Hsame Hlater].
  split; [exact Hsame|]. split; [vm_compute; reflexivity|].
  apply (Hlater s' 9500). vm_compute. reflexivity.
Defined.

Lemma trusted_host_is_clean_witness :
  let s1 := RequestSamples.sb_trust Samples.sb_cached
              "http://a.b.evil.com/x" in
  Samples.sample_getHost "http://a.b.evil.com/x" = Some "a.b.evil.com" /\
  Samples.sb_lookup Samples.sb_cached 1000 "http://a.b.evil.com/x"
  = (Samples.sb_cached, [Safebrowsing.Callback (Some "malware")]) /\
  Samples.sb_lookup s1 1000 "http://a.b.evil.com/x"
  = (s1, [Safebrowsing.Callback None]).
Proof.
  intros s1.
  assert (H0 : Samples.sample_getHost "http://a.b.evil.com/x"
               = Some "a.b.evil.com") by (vm_compute; reflexivity).
  split; [exact H0|]. split; [vm_compute; reflexivity|].
  exact (proj1 (trusted_host_is_clean Samples.sample_getHost
                  Samples.sample_isIpv4 Samples.sample_isIpv6
                  Samples.sample_hash Samples.SCache Samples.sample_getValue
                  Samples.sample_saveValue Samples.SMap Samples.sample_lru_get
                  sample_cache_law Samples.sb_cached 1000
                  "http://a.b.evil.com/x" "a.b.evil.com" H0
                  ltac:(discriminate))).
Defined.

Lemma suspension_expires_witness :
  let s1 := Safebrowsing.suspendSafebrowsing Samples.sb_empty 5000 in
  Safebrowsing.SUSPEND_TTL <= 2405000 - 5000 /\
  (Samples.sb_lookup s1 6000 "http://www.example.org/x").2 = [] /\
  (Samples.sb_lookup s1 2405000 "http://www.example.org/x").2
  = (Samples.sb_lookup (Safebrowsing.resumeSafebrowsing Samples.sb_empty)
       2405000 "http://www.example.org/x").2.
Proof.
  intros s1.
  assert (H0 : Safebrowsing.SUSPEND_TTL <= 2405000 - 5000)
    by (vm_compute; discriminate).
  split; [exact H0|]. split; [vm_compute; reflexivity|].
  exact (proj1 (suspension_expires Samples.sample_getHost
                  Samples.sample_isIpv4 Samples.sample_isIpv6
                  Samples.sample_hash Samples.SCache Samples.sample_getValue
                  Samples.sample_saveValue Samples.SMap Samples.sample_lru_get
                  Samples.sb_empty 5000 2405000 "http://www.example.org/x"
                  (or_introl H0))).
Defined.

Lemma isSearchEngine_anywhere_witness :
  StealthRequests.isSearchEngine "https://www.google.com/" = true /\
  StealthRequests.isSearchEngine
    ("http://shop.example/?from=" +:+ "https://www.google.com/"
     +:+ "&page=2") = true.
Proof.
  assert (H0 : StealthRequests.isSearchEngine "https://www.google.com/"
               = true) by (vm_compute; reflexivity).
  split; [exact H0|].
  exact (isSearchEngine_anywhere "http://shop.example/?from="
           "https://www.google.com/" "&page=2" H0).
Defined.

Lemma processRequestHeaders_outcome_witness :
  let r := RequestSamples.sample_processRequestHeaders (fun _ _ _ => None)
             (Samples.document "http://a.example/") "r1"
             RequestSamples.request_headers in
  r.1.1.1 = true /\
  List.filter StealthRequests.untouched r.1.1.2
  = [{| name := "Accept"; value := "text/html" |};
     StealthRequests.DO_NOT_TRACK].
Proof.
  intros r.
  assert (H0 : r.1.1.1 = true) by (vm_compute; reflexivity).
  split; [exact H0|].
  pose proof (proj1 (processRequestHeaders_outcome
                       RequestSamples.request_settings
                       Samples.sample_getHost
                       RequestSamples.sample_isThirdPartyRequest
                       (fun _ => false)
                       (fun _ => Some RequestSamples.main_frame)
                       (fun _ _ _ => None)
                       RequestSamples.sample_isDocumentWhiteList
                       (fun _ _ _ => None)
                       (Samples.document "http://a.example/") "r1"
                       RequestSamples.request_headers)) as H1.
  refine (eq_trans H1 _). vm_compute. reflexivity.
Defined.

Lemma main_frame_stealth_whitelist_exempts_witness :
  let storage := Samples.document "http://a.example/?utm_source=x" in
  let r := RequestSamples.sample_processRequestHeaders
             RequestSamples.sample_findStealthWhiteListRule storage "r1"
             RequestSamples.request_headers in
  Ledger.get storage "r1"
  = Some (Ledger.newContext "r1" "http://a.example/?utm_source=x"
            EmptyString EmptyString DOCUMENT Samples.tab1 1) /\
  RequestSamples.sample_findStealthWhiteListRule RequestSamples.main_frame
    RequestSamples.main_frame DOCUMENT
  = Some RequestSamples.stealth_rule /\
  r.1.1 = (false, RequestSamples.request_headers) /\
  r.2 = [Ledger.BindRuleToHttpRequestEvent Samples.tab1
           (Some RequestSamples.stealth_rule) 1].
Proof.
  intros storage r.
  assert (H0 : Ledger.get storage "r1"
               = Some (Ledger.newContext "r1"
                         "http://a.example/?utm_source=x" EmptyString
                         EmptyString DOCUMENT Samples.tab1 1))
    by (vm_compute; reflexivity).
  split; [exact H0|]. split; [reflexivity|].
  destruct (main_frame_stealth_whitelist_exempts
              RequestSamples.request_settings Samples.sample_getHost
              RequestSamples.sample_isThirdPartyRequest (fun _ => false)
              (fun _ => Some RequestSamples.main_frame) (fun _ _ _ => None)
              RequestSamples.sample_isDocumentWhiteList
              RequestSamples.sample_findStealthWhiteListRule storage "r1"
              RequestSamples.request_headers _ RequestSamples.main_frame
              RequestSamples.stealth_rule eq_refl H0 eq_refl eq_refl
              ltac:(discriminate) eq_refl eq_refl eq_refl)
    as (H1 & H2 & _).
  split; [exact H1|exact H2].
Defined.

Lemma defaults_disable_protection_witness :
  Settings.properties RequestSamples.new_profile
    !! Settings.DISABLE_STEALTH_MODE = None /\
  Settings.items RequestSamples.new_profile
    !! Settings.DISABLE_STEALTH_MODE = None /\
  (Settings.getProperty false false false true Settings.Null
     (fun _ => None) RequestSamples.new_profile
     Settings.DISABLE_STEALTH_MODE).1.2
  = Settings.Bool true.
Proof.
  assert (H0 : Settings.properties RequestSamples.new_profile
                 !! Settings.DISABLE_STEALTH_MODE = None)
    by apply lookup_empty.
  assert (H1 : Settings.items RequestSamples.new_profile
                 !! Settings.DISABLE_STEALTH_MODE = None)
    by apply lookup_empty.
  split; [exact H0|]. split; [exact H1|].
  exact (proj1 (defaults_disable_protection false false false true
                  Settings.Null (fun _ => None) RequestSamples.new_profile
                  Settings.DISABLE_STEALTH_MODE H0 H1
                  (or_intror (or_introl eq_refl)))).
Defined.

Lemma bindings_name_issued_event_ids_witness :
  let calls := [Samples.recordCall "r1" "http://a.example/" DOCUMENT;
                Ledger.Update "r1" (LedgerInvariants.rulesUpdate [] []);
                Ledger.OnContentModificationStarted "r1";
                Ledger.OnRequestCompleted "r1";
                Ledger.OnContentModificationFinished "r1"] in
  LedgerInvariants.boundEventIds (Ledger.run Samples.fresh calls).2 = [1] /\
  LedgerInvariants.bindsFollowIssue []
    (Ledger.run Samples.fresh calls).2 = true.
Proof.
  intros calls. split; [vm_compute; reflexivity|].
  exact (bindings_name_issued_event_ids calls).
Defined.

Lemma parseContentTypeFromUrlPath_by_extension_witness :
  Stealth.no_char "." "webm" /\ (String.length "webm" <= 5)%nat /\
  ContentTypes.parseContentTypeFromUrlPath "/video/clip.webm" = Some MEDIA /\
  ContentTypes.parseContentTypeFromUrlPath "/download/archive" = None.
Proof.
  assert (H0 : Stealth.no_char "." "webm")
    by (repeat split; discriminate).
  assert (H1 : (String.length "webm" <= 5)%nat) by (simpl; lia).
  assert (H2 : Stealth.no_char "."
                 (ContentTypes.slice_last 6 "/download/archive"))
    by (vm_compute; repeat split; discriminate).
  split; [exact H0|]. split; [exact H1|].
  exact (parseContentTypeFromUrlPath_by_extension "/video/clip" "webm"
           "/download/archive" H0 H1 H2).
Defined.
